(** * LK-360 Digital AIO Display (Linux): sensor pipeline and HID packet encoder

    A shallow embedding of [hardware_monitor.py], [hid_device.py] and
    [lk_display.py], and the properties of the specification proved (or
    refuted) on it.

    Conventions of the embedding.
    - Python [int] is [Z]; [&], [>>] are [Z.land], [Z.shiftr] (both agree with
      Python on negative numbers: two's complement, arithmetic shift).
    - Python [float] is IEEE binary64, modelled by [spec_float] with the
      operations of [SpecFloat] at precision 53 and [emax] 1024.
    - A [bytearray] is a [list Z]; storing a value outside [range(0, 256)]
      raises [ValueError], as in Python.
    - Exceptions are explicit: a method body is a computation in a state and
      exception monad; a state change made before a raise stays.
    - Whatever a method reads from the operating system (the clock, the
      contents of [/proc/stat], the outcome of [os.write]) is an argument. *)

From Stdlib Require Import ZArith Ascii String SpecFloat.
From stdpp Require Import base list strings gmap.

Open Scope Z_scope.

(** ** Python primitives *)

Module Py.

Inductive exn : Type :=
| ValueError
| IndexError
| OverflowError
| ZeroDivisionError
| KeyError
| OSError (errno : Z).

Inductive result (A : Type) : Type :=
| Ok (a : A)
| Raise (e : exn).
Arguments Ok {A} a.
Arguments Raise {A} e.

(** State and exception monad: [S] is the object a method works on. *)
Definition M (S A : Type) : Type := S -> result A * S.

Definition ret {S A} (a : A) : M S A := fun s => (Ok a, s).

Definition bind {S A B} (m : M S A) (k : A -> M S B) : M S B :=
  fun s =>
    match m s with
    | (Ok a, s') => k a s'
    | (Raise e, s') => (Raise e, s')
    end.

Definition raise {S A} (e : exn) : M S A := fun s => (Raise e, s).

Definition lift {S A} (r : result A) : M S A := fun s => (r, s).

Definition gets {S A} (f : S -> A) : M S A := fun s => (Ok (f s), s).

Definition modify {S} (f : S -> S) : M S unit := fun s => (Ok tt, f s).

(** [try: m except Exception: h] *)
Definition try_except {S A} (m : M S A) (h : exn -> M S A) : M S A :=
  fun s =>
    match m s with
    | (Ok a, s') => (Ok a, s')
    | (Raise e, s') => h e s'
    end.

(** ** bytearray *)

Definition byte_ok (v : Z) : bool := (0 <=? v) && (v <? 256).

(** [bytearray(n)]: [n] zero bytes. *)
Definition bytearray (n : nat) : list Z := replicate n 0.

(** [b[i] = v] for a non-negative constant index [i]. *)
Definition setitem (b : list Z) (i : nat) (v : Z) : result (list Z) :=
  if byte_ok v then
    if (i <? length b)%nat then Ok (<[i:=v]> b) else Raise IndexError
  else Raise ValueError.


(** ** float: IEEE binary64 *)

Definition float : Type := spec_float.

Definition prec : Z := 53.
Definition emax : Z := 1024.

(** The literals the sources use. *)
Definition f0 : float := S754_zero false.                      (* 0.0 *)
Definition f1 : float := S754_finite false 4503599627370496 (-52).   (* 1.0 *)
Definition f100 : float := S754_finite false 7036874417766400 (-46). (* 100.0 *)

Definition fsub : float -> float -> float := SFsub prec emax.
Definition fmul : float -> float -> float := SFmul prec emax.
Definition flt : float -> float -> bool := SFltb.
Definition fle : float -> float -> bool := SFleb.

(** [a / b] on two [int]s: the quotient rounded once, to nearest even
    ([long_true_divide]); [ZeroDivisionError] on [b = 0] and
    [OverflowError] when the rounded quotient is not finite. The quotient
    of the magnitudes is taken with at least 64 significant bits, and the
    remainder tells on which side of the midpoint the exact value lies. *)
Definition int_true_div (a b : Z) : result float :=
  if b =? 0 then Raise ZeroDivisionError
  else
    let negate := xorb (a <? 0) (b <? 0) in
    if a =? 0 then Ok (S754_zero negate)
    else
      let k := 64 + Z.log2 (Z.abs b) in
      let n := Z.abs a * 2 ^ k in
      let q := n / Z.abs b in
      let r := n mod Z.abs b in
      let loc :=
        if r =? 0 then loc_Exact else loc_Inexact (2 * r ?= Z.abs b) in
      match binary_round_aux prec emax negate q (- k) loc with
      | S754_infinity _ => Raise OverflowError
      | x => Ok x
      end.

(** [int(x)] on a [float]: truncation toward zero; [ValueError] on a NaN,
    [OverflowError] on an infinity. *)
Definition int_of_float (x : float) : result Z :=
  match x with
  | S754_zero _ => Ok 0
  | S754_finite s m e => Ok (cond_Zopp s (Z.shiftl (Z.pos m) e))
  | S754_infinity _ => Raise OverflowError
  | S754_nan => Raise ValueError
  end.

(** [min(a, b)] and [max(a, b)]: the first argument stays unless the second
    is strictly smaller (larger). *)
Definition fmin (a b : float) : float := if flt b a then b else a.
Definition fmax (a b : float) : float := if flt a b then b else a.

(** ** str *)

(** [c.isspace()] on the ASCII range. *)
Definition isspace (c : ascii) : bool :=
  let n := Z.of_nat (nat_of_ascii c) in
  ((9 <=? n) && (n <=? 13)) || ((28 <=? n) && (n <=? 32)).

(** [f.readline()] in text mode with universal newlines: up to and
    including the first line ending. *)
Fixpoint readline (s : string) : string :=
  match s with
  | EmptyString => EmptyString
  | String c rest =>
      if (Ascii.eqb c "010" || Ascii.eqb c "013")%char
      then String "010"%char EmptyString
      else String c (readline rest)
  end.

(** [s.split()]: the maximal runs of non-whitespace characters. [cur] is the
    run being read. *)
Fixpoint split_from (cur : string) (s : string) : list string :=
  match s with
  | EmptyString => if String.eqb cur "" then [] else [cur]
  | String c rest =>
      if isspace c
      then if String.eqb cur "" then split_from "" rest
           else cur :: split_from "" rest
      else split_from (cur +:+ String c EmptyString) rest
  end.

Definition split (s : string) : list string := split_from "" s.

(** [s.strip()] *)
Fixpoint lstrip (s : string) : string :=
  match s with
  | String c rest => if isspace c then lstrip rest else s
  | EmptyString => EmptyString
  end.

Fixpoint rstrip (s : string) : string :=
  match s with
  | EmptyString => EmptyString
  | String c rest =>
      match rstrip rest with
      | EmptyString => if isspace c then EmptyString else String c EmptyString
      | r => String c r
      end
  end.

Definition strip (s : string) : string := lstrip (rstrip s).

(** [c in s] for a character [c] *)
Fixpoint contains (c : ascii) (s : string) : bool :=
  match s with
  | EmptyString => false
  | String c' rest => Ascii.eqb c c' || contains c rest
  end.

(** [s.startswith(p)] *)
Definition startswith (p s : string) : bool := String.prefix p s.

Definition digit (c : ascii) : option Z :=
  let n := Z.of_nat (nat_of_ascii c) in
  if (48 <=? n) && (n <=? 57) then Some (n - 48) else None.

(** The digits of an [int] literal: single underscores may separate digits.
    [after_digit] tells whether the previous character was a digit. *)
Fixpoint int_digits (acc : Z) (after_digit : bool) (s : string) : result Z :=
  match s with
  | EmptyString => if after_digit then Ok acc else Raise ValueError
  | String c rest =>
      match digit c with
      | Some d => int_digits (10 * acc + d) true rest
      | None =>
          if Ascii.eqb c "_"%char && after_digit
          then int_digits acc false rest
          else Raise ValueError
      end
  end.

(** [int(s)] on a [str] in base 10, on the ASCII range: surrounding
    whitespace, an optional sign, digits. The cap on the number of digits
    (4300 by default from Python 3.11 on) is not modelled: the model parses
    what Python parses, and longer literals besides. *)
Definition int_of_str (s : string) : result Z :=
  match strip s with
  | String "-"%char rest =>
      match int_digits 0 false rest with
      | Ok n => Ok (- n)
      | Raise e => Raise e
      end
  | String "+"%char rest => int_digits 0 false rest
  | body => int_digits 0 false body
  end.

(** [l[i]] for a non-negative constant index. *)
Definition getitem {A} (l : list A) (i : nat) : result A :=
  match l !! i with
  | Some x => Ok x
  | None => Raise IndexError
  end.

(** [l[i:j]] for non-negative constant bounds. *)
Definition slice {A} (l : list A) (i j : nat) : list A :=
  take (j - i) (drop i l).

(** [sum(int(p) for p in l)] *)
Fixpoint sum_ints (acc : Z) (l : list string) : result Z :=
  match l with
  | [] => Ok acc
  | p :: rest =>
      match int_of_str p with
      | Ok n => sum_ints (acc + n) rest
      | Raise e => Raise e
      end
  end.

End Py.

Export Py.

Declare Scope py_scope.
Delimit Scope py_scope with py.
Notation "'let*' x ':=' m 'in' k" := (Py.bind m (fun x => k))
  (at level 10, x name, m at level 100, k at level 200) : py_scope.
Open Scope py_scope.

(** ** hardware_monitor.py *)

Module CpuData.
Record t : Type := {
  name : string;
  temperature : float;
  usage : float;
  frequency : float;
  power : float;
  fan_rpm : Z;
  is_valid : bool
}.
End CpuData.

Module GpuData.
Record t : Type := {
  name : string;
  temperature : float;
  usage : float;
  frequency : float;
  memory_usage : float;
  fan_rpm : Z;
  power : float;
  vendor : string;
  is_valid : bool
}.

(** [GpuData()]: every field at its default. *)
Definition default : t :=
  {| name := ""; temperature := f0; usage := f0; frequency := f0;
     memory_usage := f0; fan_rpm := 0; power := f0; vendor := "";
     is_valid := false |}.
End GpuData.

Module CpuUsageTracker.

Record t : Type := {
  _last_idle : Z;
  _last_total : Z;
  _initialized : bool
}.

Definition set_last_idle (v : Z) (self : t) : t :=
  {| _last_idle := v; _last_total := _last_total self;
     _initialized := _initialized self |}.

Definition set_last_total (v : Z) (self : t) : t :=
  {| _last_idle := _last_idle self; _last_total := v;
     _initialized := _initialized self |}.

Definition set_initialized (v : bool) (self : t) : t :=
  {| _last_idle := _last_idle self; _last_total := _last_total self;
     _initialized := v |}.

(** Both methods start alike. [stat] is what opening [/proc/stat] gives at
    the time of the call: its content, or the exception [open] raises.
    [parts = f.readline().split()]. *)
Definition read_parts (stat : result string) : M t (list string) :=
  let* content := lift stat in
  ret (split (readline content)).

(** [int(parts[4]) + int(parts[5])] *)
Definition idle_of (parts : list string) : result Z :=
  match getitem parts 4 with
  | Raise e => Raise e
  | Ok p4 =>
      match int_of_str p4 with
      | Raise e => Raise e
      | Ok idle =>
          match getitem parts 5 with
          | Raise e => Raise e
          | Ok p5 =>
              match int_of_str p5 with
              | Raise e => Raise e
              | Ok iowait => Ok (idle + iowait)
              end
          end
      end
  end.

(** [sum(int(p) for p in parts[1:11])] *)
Definition total_of (parts : list string) : result Z :=
  sum_ints 0 (slice parts 1 11).

Definition _init_values (stat : result string) : M t unit :=
  try_except
    (let* parts := read_parts stat in
     let* idle := lift (idle_of parts) in
     let* _ := modify (set_last_idle idle) in
     let* total := lift (total_of parts) in
     let* _ := modify (set_last_total total) in
     modify (set_initialized true))
    (fun _ => ret tt).

(** [CpuUsageTracker()]; [stat] is [/proc/stat] at construction. *)
Definition __init__ (stat : result string) : t :=
  (_init_values stat
     {| _last_idle := 0; _last_total := 0; _initialized := false |}).2.

Definition get_usage (stat : result string) : M t float :=
  try_except
    (let* parts := read_parts stat in
     let* idle := lift (idle_of parts) in
     let* total := lift (total_of parts) in
     let* initialized := gets _initialized in
     if negb initialized then
       let* _ := modify (set_last_idle idle) in
       let* _ := modify (set_last_total total) in
       let* _ := modify (set_initialized true) in
       ret f0
     else
       let* last_idle := gets _last_idle in
       let idle_delta := idle - last_idle in
       let* last_total := gets _last_total in
       let total_delta := total - last_total in
       let* _ := modify (set_last_idle idle) in
       let* _ := modify (set_last_total total) in
       if total_delta <=? 0 then ret f0
       else
         let* quotient := lift (int_true_div idle_delta total_delta) in
         let usage := fmul f100 (fsub f1 quotient) in
         ret (fmax f0 (fmin f100 usage)))
    (fun _ => ret f0).

End CpuUsageTracker.

Module HardwareMonitor.

(** The part of the object the GPU path uses. The hwmon cache, which only
    the CPU temperature reader consults, is left out. *)
Record t : Type := {
  _cpu_usage_tracker : CpuUsageTracker.t;
  _gpu_vendor : option string;
  _nvidia_available : bool;
  _amd_gpu_path : option string;
  _intel_gpu_path : option string
}.

(** One entry of [/sys/class/drm] as [_detect_gpu] sees it. *)
Record drm_card : Type := {
  card_name : string;
  (** does [card/device] exist *)
  card_device : bool;
  (** the text of [card/device/vendor], when the file exists *)
  card_vendor : option string;
  (** the entries of [card/device/hwmon], when the directory exists *)
  card_hwmon : option (list string)
}.

Definition set_amd (hwmon : string) (self : t) : t :=
  {| _cpu_usage_tracker := _cpu_usage_tracker self;
     _gpu_vendor := Some "amd";
     _nvidia_available := _nvidia_available self;
     _amd_gpu_path := Some hwmon;
     _intel_gpu_path := _intel_gpu_path self |}.

Definition set_intel (device_path : string) (self : t) : t :=
  {| _cpu_usage_tracker := _cpu_usage_tracker self;
     _gpu_vendor := Some "intel";
     _nvidia_available := _nvidia_available self;
     _amd_gpu_path := _amd_gpu_path self;
     _intel_gpu_path := Some device_path |}.

Definition set_nvidia (self : t) : t :=
  {| _cpu_usage_tracker := _cpu_usage_tracker self;
     _gpu_vendor := Some "nvidia";
     _nvidia_available := _nvidia_available self;
     _amd_gpu_path := _amd_gpu_path self;
     _intel_gpu_path := _intel_gpu_path self |}.

(** [for card in drm_path.iterdir(): ...]; falling off the end leaves the
    vendor as it was. *)
Fixpoint detect_cards (cards : list drm_card) (self : t) : t :=
  match cards with
  | [] => self
  | card :: rest =>
      if negb (startswith "card" (card_name card))
         || contains "-" (card_name card)
      then detect_cards rest self
      else if negb (card_device card) then detect_cards rest self
      else
        let device_path :=
          "/sys/class/drm/" +:+ card_name card +:+ "/device" in
        match card_vendor card with
        | None => detect_cards rest self
        | Some text =>
            let vendor := strip text in
            if String.eqb vendor "0x1002" then
              match card_hwmon card with
              | Some (hwmon :: _) =>
                  set_amd (device_path +:+ "/hwmon/" +:+ hwmon) self
              | _ => detect_cards rest self
              end
            else if String.eqb vendor "0x8086" then
              set_intel device_path self
            else detect_cards rest self
        end
  end.

(** [drm] is the listing of [/sys/class/drm], when it exists. *)
Definition _detect_gpu (drm : option (list drm_card)) (self : t) : t :=
  if _nvidia_available self then set_nvidia self
  else
    match drm with
    | Some cards => detect_cards cards self
    | None => self
    end.

(** [HardwareMonitor.__init__]: [stat] is [/proc/stat] at construction,
    [nvidia] what [_check_nvidia()] answers. *)
Definition __init__ (stat : result string) (nvidia : bool)
    (drm : option (list drm_card)) : t :=
  _detect_gpu drm
    {| _cpu_usage_tracker := CpuUsageTracker.__init__ stat;
       _gpu_vendor := None;
       _nvidia_available := nvidia;
       _amd_gpu_path := None;
       _intel_gpu_path := None |}.

(** What the three vendor readers return at the time of the call; they read
    [nvidia-smi] and sysfs. *)
Record gpu_readers : Type := {
  _get_nvidia_gpu_data : GpuData.t;
  _get_amd_gpu_data : GpuData.t;
  _get_intel_gpu_data : GpuData.t
}.

Definition get_gpu_data (readers : gpu_readers) (self : t) : GpuData.t :=
  match _gpu_vendor self with
  | Some v =>
      if String.eqb v "nvidia" then _get_nvidia_gpu_data readers
      else if String.eqb v "amd" then _get_amd_gpu_data readers
      else if String.eqb v "intel" then _get_intel_gpu_data readers
      else GpuData.default
  | None => GpuData.default
  end.

End HardwareMonitor.

(** ** hid_device.py *)

Module HidDevice.

Module DeviceInfo.
Record t : Type := {
  path : string;
  vendor_id : Z;
  product_id : Z;
  name : string;
  is_gamdias : bool
}.
End DeviceInfo.

Record SensorData : Type := {
  cpu_temp : Z;
  cpu_usage : Z;
  cpu_freq : Z;
  cpu_fan_rpm : Z;
  cpu_power : Z;
  gpu_temp : Z;
  gpu_usage : Z;
  gpu_freq : Z;
  gpu_fan_rpm : Z;
  gpu_power : Z;
  mem_usage : Z;
  mem_temp : Z;
  disk_usage : Z;
  disk_temp : Z;
  net_upload : Z;
  net_download : Z;
  display_mode : Z
}.

(** [SensorData()]: every field at its default, 0. *)
Definition SensorData_default : SensorData :=
  {| cpu_temp := 0; cpu_usage := 0; cpu_freq := 0; cpu_fan_rpm := 0;
     cpu_power := 0; gpu_temp := 0; gpu_usage := 0; gpu_freq := 0;
     gpu_fan_rpm := 0; gpu_power := 0; mem_usage := 0; mem_temp := 0;
     disk_usage := 0; disk_temp := 0; net_upload := 0; net_download := 0;
     display_mode := 0 |}.

(** The object: [self._devices] (path to file descriptor),
    [self._device_info], [self._sensor_data], [self._initialized_devices]. *)
Record t : Type := {
  _devices : gmap string Z;
  _device_info : gmap string DeviceInfo.t;
  _sensor_data : SensorData;
  _initialized_devices : gset string
}.

(** [HidDevice.__init__] *)
Definition __init__ : t :=
  {| _devices := ∅; _device_info := ∅;
     _sensor_data := SensorData_default; _initialized_devices := ∅ |}.

Definition REPORT_SIZE : nat := 65.

Definition with_sensor_data (f : SensorData -> SensorData) (self : t) : t :=
  {| _devices := _devices self; _device_info := _device_info self;
     _sensor_data := f (_sensor_data self);
     _initialized_devices := _initialized_devices self |}.

(** ** Setters *)

Definition set_cpu_data (temp usage freq fan_rpm power : Z) (self : t) : t :=
  with_sensor_data (fun d =>
    {| cpu_temp := Z.min 255 (Z.max 0 temp);
       cpu_usage := Z.min 100 (Z.max 0 usage);
       cpu_freq := Z.min 65535 (Z.max 0 freq);
       cpu_fan_rpm := Z.min 65535 (Z.max 0 fan_rpm);
       cpu_power := Z.min 65535 (Z.max 0 power);
       gpu_temp := gpu_temp d; gpu_usage := gpu_usage d;
       gpu_freq := gpu_freq d; gpu_fan_rpm := gpu_fan_rpm d;
       gpu_power := gpu_power d;
       mem_usage := mem_usage d; mem_temp := mem_temp d;
       disk_usage := disk_usage d; disk_temp := disk_temp d;
       net_upload := net_upload d; net_download := net_download d;
       display_mode := display_mode d |}) self.

Definition set_gpu_data (temp usage freq fan_rpm power : Z) (self : t) : t :=
  with_sensor_data (fun d =>
    {| cpu_temp := cpu_temp d; cpu_usage := cpu_usage d;
       cpu_freq := cpu_freq d; cpu_fan_rpm := cpu_fan_rpm d;
       cpu_power := cpu_power d;
       gpu_temp := Z.min 255 (Z.max 0 temp);
       gpu_usage := Z.min 100 (Z.max 0 usage);
       gpu_freq := Z.min 65535 (Z.max 0 freq);
       gpu_fan_rpm := Z.min 65535 (Z.max 0 fan_rpm);
       gpu_power := Z.min 65535 (Z.max 0 power);
       mem_usage := mem_usage d; mem_temp := mem_temp d;
       disk_usage := disk_usage d; disk_temp := disk_temp d;
       net_upload := net_upload d; net_download := net_download d;
       display_mode := display_mode d |}) self.

Definition set_memory_data (usage temp : Z) (self : t) : t :=
  with_sensor_data (fun d =>
    {| cpu_temp := cpu_temp d; cpu_usage := cpu_usage d;
       cpu_freq := cpu_freq d; cpu_fan_rpm := cpu_fan_rpm d;
       cpu_power := cpu_power d;
       gpu_temp := gpu_temp d; gpu_usage := gpu_usage d;
       gpu_freq := gpu_freq d; gpu_fan_rpm := gpu_fan_rpm d;
       gpu_power := gpu_power d;
       mem_usage := Z.min 100 (Z.max 0 usage);
       mem_temp := Z.min 255 (Z.max 0 temp);
       disk_usage := disk_usage d; disk_temp := disk_temp d;
       net_upload := net_upload d; net_download := net_download d;
       display_mode := display_mode d |}) self.

Definition set_disk_data (usage temp : Z) (self : t) : t :=
  with_sensor_data (fun d =>
    {| cpu_temp := cpu_temp d; cpu_usage := cpu_usage d;
       cpu_freq := cpu_freq d; cpu_fan_rpm := cpu_fan_rpm d;
       cpu_power := cpu_power d;
       gpu_temp := gpu_temp d; gpu_usage := gpu_usage d;
       gpu_freq := gpu_freq d; gpu_fan_rpm := gpu_fan_rpm d;
       gpu_power := gpu_power d;
       mem_usage := mem_usage d; mem_temp := mem_temp d;
       disk_usage := Z.min 100 (Z.max 0 usage);
       disk_temp := Z.min 255 (Z.max 0 temp);
       net_upload := net_upload d; net_download := net_download d;
       display_mode := display_mode d |}) self.

(** No clamp here: the arguments are stored as they come. *)
Definition set_network_speed (upload download : Z) (self : t) : t :=
  with_sensor_data (fun d =>
    {| cpu_temp := cpu_temp d; cpu_usage := cpu_usage d;
       cpu_freq := cpu_freq d; cpu_fan_rpm := cpu_fan_rpm d;
       cpu_power := cpu_power d;
       gpu_temp := gpu_temp d; gpu_usage := gpu_usage d;
       gpu_freq := gpu_freq d; gpu_fan_rpm := gpu_fan_rpm d;
       gpu_power := gpu_power d;
       mem_usage := mem_usage d; mem_temp := mem_temp d;
       disk_usage := disk_usage d; disk_temp := disk_temp d;
       net_upload := upload; net_download := download;
       display_mode := display_mode d |}) self.

Definition set_display_mode (mode : Z) (self : t) : t :=
  with_sensor_data (fun d =>
    {| cpu_temp := cpu_temp d; cpu_usage := cpu_usage d;
       cpu_freq := cpu_freq d; cpu_fan_rpm := cpu_fan_rpm d;
       cpu_power := cpu_power d;
       gpu_temp := gpu_temp d; gpu_usage := gpu_usage d;
       gpu_freq := gpu_freq d; gpu_fan_rpm := gpu_fan_rpm d;
       gpu_power := gpu_power d;
       mem_usage := mem_usage d; mem_temp := mem_temp d;
       disk_usage := disk_usage d; disk_temp := disk_temp d;
       net_upload := net_upload d; net_download := net_download d;
       display_mode := mode |}) self.

(** ** The clock: what [datetime.now()] returned *)

Record datetime : Type := {
  year : Z; month : Z; day : Z;
  hour : Z; minute : Z; second : Z;
  weekday : Z
}.

(** ** Packet builders *)

Definition store (i : nat) (v : Z) (packet : list Z) : M t (list Z) :=
  lift (setitem packet i v).

Definition _build_gamdias_packet (now : datetime) : M t (list Z) :=
  let* data := gets _sensor_data in
  let* packet := ret (bytearray REPORT_SIZE) in
  let* packet := store 0 0xB0 packet in
  let* packet := store 1 0x01 packet in
  let* packet := store 2 0x00 packet in
  let* packet := store 3 (gpu_temp data) packet in
  let* packet := store 4 (Z.land (cpu_temp data) 0xFF) packet in
  let* packet := store 5 (Z.land (Z.shiftr (cpu_temp data) 8) 0xFF) packet in
  let* packet := store 6 (cpu_usage data) packet in
  let* packet := store 7 (Z.land (cpu_fan_rpm data) 0xFF) packet in
  let* packet := store 8 (Z.land (Z.shiftr (cpu_fan_rpm data) 8) 0xFF) packet in
  let* packet := store 9 (Z.land (gpu_fan_rpm data) 0xFF) packet in
  let* packet := store 10 (Z.land (Z.shiftr (gpu_fan_rpm data) 8) 0xFF) packet in
  let* packet := store 11 (Z.land (gpu_power data) 0xFF) packet in
  let* packet := store 12 (Z.land (Z.shiftr (gpu_power data) 8) 0xFF) packet in
  let* packet := store 13 0x00 packet in
  let* packet := store 14 (Z.land (Z.shiftr (cpu_freq data) 8) 0xFF) packet in
  let* packet := store 15 (Z.land (cpu_freq data) 0xFF) packet in
  let* packet := store 16 (gpu_usage data) packet in
  let* packet := store 17 (Z.land (Z.shiftr (gpu_freq data) 8) 0xFF) packet in
  let* packet := store 18 (Z.land (gpu_freq data) 0xFF) packet in
  let* packet := store 19 (hour now) packet in
  let* packet := store 20 (minute now) packet in
  let* packet := store 21 (second now) packet in
  let* packet := store 22 (mem_usage data) packet in
  let* packet := store 23 (disk_usage data) packet in
  let* packet := store 24 (Z.land (cpu_power data) 0xFF) packet in
  let* packet := store 25 (Z.land (Z.shiftr (cpu_power data) 8) 0xFF) packet in
  ret packet.

Definition _build_hwcx_packet (now : datetime) : M t (list Z) :=
  let* data := gets _sensor_data in
  let* packet := ret (bytearray REPORT_SIZE) in
  let* packet := store 0 0x00 packet in
  let* packet := store 1 0x02 packet in
  let* packet := store 2 (cpu_temp data) packet in
  let* packet := store 3 (gpu_temp data) packet in
  let* packet := store 4 (hour now) packet in
  let* packet := store 5 (minute now) packet in
  let* packet := store 6 (second now) packet in
  let* packet := store 7 0x00 packet in
  let year := year now in
  let* packet := store 8 (Z.land (Z.shiftr year 8) 0xFF) packet in
  let* packet := store 9 (Z.land year 0xFF) packet in
  let* packet := store 10 (month now) packet in
  let* packet := store 11 (day now) packet in
  let* packet := store 12 (weekday now) packet in
  let* packet := store 13 (cpu_usage data) packet in
  let* packet := store 14 (Z.land (Z.shiftr (cpu_freq data) 8) 0xFF) packet in
  let* packet := store 15 (Z.land (cpu_freq data) 0xFF) packet in
  let* packet := store 16 (gpu_usage data) packet in
  let* packet := store 17 (Z.land (Z.shiftr (gpu_freq data) 8) 0xFF) packet in
  let* packet := store 18 (Z.land (gpu_freq data) 0xFF) packet in
  let* packet := store 19 (mem_usage data) packet in
  let* packet := store 20 (mem_temp data) packet in
  let* packet := store 21 0x00 packet in
  let* packet := store 22 0x00 packet in
  let* packet := store 23 (disk_usage data) packet in
  let* packet := store 24 (disk_temp data) packet in
  let* packet := store 25 (Z.land (Z.shiftr (cpu_fan_rpm data) 8) 0xFF) packet in
  let* packet := store 26 (Z.land (cpu_fan_rpm data) 0xFF) packet in
  let* packet := store 27 0x00 packet in
  let* packet := store 28 0x00 packet in
  let* packet := store 29 (Z.land (Z.shiftr (cpu_power data) 8) 0xFF) packet in
  let* packet := store 30 (Z.land (cpu_power data) 0xFF) packet in
  let* packet := store 31 (Z.land (Z.shiftr (gpu_fan_rpm data) 8) 0xFF) packet in
  let* packet := store 32 (Z.land (gpu_fan_rpm data) 0xFF) packet in
  let* packet := store 33 0x00 packet in
  let* packet := store 34 0x00 packet in
  let* packet := store 35 (Z.land (Z.shiftr (gpu_power data) 8) 0xFF) packet in
  let* packet := store 36 (Z.land (gpu_power data) 0xFF) packet in
  let* packet := store 41 (Z.land (Z.shiftr (net_upload data) 24) 0xFF) packet in
  let* packet := store 42 (Z.land (Z.shiftr (net_upload data) 16) 0xFF) packet in
  let* packet := store 43 (Z.land (Z.shiftr (net_upload data) 8) 0xFF) packet in
  let* packet := store 44 (Z.land (net_upload data) 0xFF) packet in
  let* packet := store 45 (Z.land (Z.shiftr (net_download data) 24) 0xFF) packet in
  let* packet := store 46 (Z.land (Z.shiftr (net_download data) 16) 0xFF) packet in
  let* packet := store 47 (Z.land (Z.shiftr (net_download data) 8) 0xFF) packet in
  let* packet := store 48 (Z.land (net_download data) 0xFF) packet in
  let* packet := store 49 (display_mode data) packet in
  ret packet.

(** ** Discovery, open and close *)

Definition SUPPORTED_DEVICES : list (Z * Z * string) :=
  [ (0x1B80, 0xB538, "GAMDIAS ATLAS"); (0x0145, 0x1005, "HWCX Controller") ].

(** What the operating system does to the object's calls. *)
Inductive event : Type :=
| os_write (fd : Z) (data : list Z) (outcome : result Z)
| os_close (fd : Z)
| time_sleep (milliseconds : Z).

(** The surroundings of one call:
    - [hidraw]: the sorted [/dev/hidraw*] nodes, each with what the two
      ioctls of [_get_device_info] give (vendor and product as the signed
      16-bit fields unpacked, and the name), or nothing when the query fails;
    - [os_open]: the descriptor [os.open(path, O_RDWR)] returns, or what it
      raises;
    - [now]: [datetime.now()] when the packet for a path is built;
    - [init_write]: the outcome of the [k]-th init write to a path;
    - [data_write]: the outcome of writing a data packet to a path. *)
Record io : Type := {
  hidraw : list (string * option (Z * Z * string));
  os_open : string -> result Z;
  now : string -> datetime;
  init_write : string -> nat -> result Z;
  data_write : string -> list Z -> result Z
}.

Definition _get_device_info (path : string)
    (raw : option (Z * Z * string)) : option DeviceInfo.t :=
  match raw with
  | None => None
  | Some (vendor_id, product_id, name) =>
      let vendor_id := Z.land vendor_id 0xFFFF in
      let product_id := Z.land product_id 0xFFFF in
      let is_gamdias := (vendor_id =? 0x1B80) && (product_id =? 0xB538) in
      Some {| DeviceInfo.path := path;
              DeviceInfo.vendor_id := vendor_id;
              DeviceInfo.product_id := product_id;
              DeviceInfo.name := name;
              DeviceInfo.is_gamdias := is_gamdias |}
  end.

Definition supported (info : DeviceInfo.t) : bool :=
  existsb (fun '(vid, pid, _) =>
             (DeviceInfo.vendor_id info =? vid)
             && (DeviceInfo.product_id info =? pid))
          SUPPORTED_DEVICES.

Fixpoint scan_nodes (nodes : list (string * option (Z * Z * string)))
    : list DeviceInfo.t :=
  match nodes with
  | [] => []
  | (path, raw) :: rest =>
      match _get_device_info path raw with
      | Some info =>
          if supported info then info :: scan_nodes rest
          else scan_nodes rest
      | None => scan_nodes rest
      end
  end.

Definition scan_devices (env : io) : list DeviceInfo.t :=
  scan_nodes (hidraw env).

Definition add_device (path : string) (fd : Z) (info : DeviceInfo.t)
    (self : t) : t :=
  {| _devices := <[path := fd]> (_devices self);
     _device_info := <[path := info]> (_device_info self);
     _sensor_data := _sensor_data self;
     _initialized_devices := _initialized_devices self |}.

(** The loop of [open_devices]; [opened] counts the successes. *)
Fixpoint open_each (env : io) (devices : list DeviceInfo.t) (opened : Z)
    (self : t) : Z * t :=
  match devices with
  | [] => (opened, self)
  | info :: rest =>
      match os_open env (DeviceInfo.path info) with
      | Ok fd =>
          open_each env rest (opened + 1)
            (add_device (DeviceInfo.path info) fd info self)
      | Raise _ => open_each env rest opened self
      end
  end.

Definition open_devices (env : io) (self : t) : Z * t :=
  open_each env (scan_devices env) 0 self.

(** The descriptors are closed in the order of [map_to_list]; Python closes
    them in the order they were opened. The object after the call and the
    descriptors closed are the same in any order. *)
Definition close_devices (self : t) : t * list event :=
  ({| _devices := ∅; _device_info := ∅;
      _sensor_data := _sensor_data self;
      _initialized_devices := ∅ |},
   (fun '(_, fd) => os_close fd) <$> map_to_list (_devices self)).

Definition get_online_device_count (self : t) : Z :=
  Z.of_nat (size (_devices self)).

(** ** Transmission *)

(** The object, the locals of [send_data], and what was done to the
    operating system so far. *)
Record frame : Type := {
  self_ : t;
  success : bool;
  to_remove : list string;
  events : list event
}.

Definition on_self {A} (m : M t A) : M frame A :=
  fun f =>
    let '(r, s) := m (self_ f) in
    (r, {| self_ := s; success := success f; to_remove := to_remove f;
           events := events f |}).

Definition emit (e : event) : M frame unit :=
  modify (fun f =>
    {| self_ := self_ f; success := success f; to_remove := to_remove f;
       events := events f ++ [e] |}).

Definition set_success : M frame unit :=
  modify (fun f =>
    {| self_ := self_ f; success := true; to_remove := to_remove f;
       events := events f |}).

Definition append_to_remove (path : string) : M frame unit :=
  modify (fun f =>
    {| self_ := self_ f; success := success f;
       to_remove := to_remove f ++ [path]; events := events f |}).

Definition mark_initialized (path : string) (self : t) : t :=
  {| _devices := _devices self; _device_info := _device_info self;
     _sensor_data := _sensor_data self;
     _initialized_devices := {[ path ]} ∪ _initialized_devices self |}.

(** [for x in l: body(x)] *)
Fixpoint for_each {S A} (l : list A) (body : A -> M S unit) : M S unit :=
  match l with
  | [] => ret tt
  | x :: rest => let* _ := body x in for_each rest body
  end.

(** [packet = bytearray(REPORT_SIZE); packet[:len(cmd)] = cmd] *)
Definition padded (cmd : list Z) : list Z :=
  cmd ++ drop (length cmd) (bytearray REPORT_SIZE).

Definition init_commands : list (list Z) :=
  [ [0xB0; 0x01; 0x00];
    [0x00; 0x38; 0xB5; 0x01; 0x00];
    [0x00; 0x38; 0xB5; 0x01; 0x01] ].

(** Every init write sits in its own [try]: a failure is logged and the
    next command is sent. *)
Definition _send_gamdias_init (env : io) (path : string) (fd : Z)
    : M frame unit :=
  for_each (imap (fun k cmd => (k, cmd)) init_commands)
    (fun '(k, cmd) =>
       try_except
         (let* _ := emit (os_write fd (padded cmd) (init_write env path k)) in
          let* _ := lift (init_write env path k) in
          emit (time_sleep 50))
         (fun _ => ret tt)).

(** The body of the loop over [self._devices.items()]. *)
Definition send_one (env : io) (item : string * Z) : M frame unit :=
  let '(path, fd) := item in
  let* info := gets (fun f => _device_info (self_ f) !! path) in
  match info with
  | None => ret tt
  | Some info =>
      try_except
        (let* initialized :=
           gets (fun f =>
                   bool_decide (path ∈ _initialized_devices (self_ f))) in
         let* _ :=
           if negb initialized then
             let* _ :=
               if DeviceInfo.is_gamdias info
               then _send_gamdias_init env path fd
               else ret tt in
             on_self (modify (mark_initialized path))
           else ret tt in
         let* packet :=
           if DeviceInfo.is_gamdias info
           then on_self (_build_gamdias_packet (now env path))
           else on_self (_build_hwcx_packet (now env path)) in
         let* _ := emit (os_write fd packet (data_write env path packet)) in
         let* written := lift (data_write env path packet) in
         if written =? Z.of_nat (length packet) then set_success
         else ret tt)
        (fun e =>
           match e with
           | OSError errno =>
               if errno =? 19 then append_to_remove path else ret tt
           | _ => ret tt
           end)
  end.

Definition forget (path : string) (self : t) : t :=
  {| _devices := _devices self;
     _device_info := delete path (_device_info self);
     _sensor_data := _sensor_data self;
     _initialized_devices := _initialized_devices self ∖ {[ path ]} |}.

(** [del self._devices[path]] *)
Definition del_device (path : string) : M t unit :=
  fun self =>
    match _devices self !! path with
    | Some _ =>
        (Ok tt,
         {| _devices := delete path (_devices self);
            _device_info := _device_info self;
            _sensor_data := _sensor_data self;
            _initialized_devices := _initialized_devices self |})
    | None => (Raise KeyError, self)
    end.

(** The body of the loop over [to_remove]. *)
Definition remove_one (path : string) : M frame unit :=
  let* _ :=
    try_except
      (let* fd := gets (fun f => _devices (self_ f) !! path) in
       match fd with
       | Some fd => emit (os_close fd)
       | None => raise KeyError
       end)
      (fun _ => ret tt) in
  let* _ := on_self (del_device path) in
  on_self (modify (forget path)).

(** The first loop visits the handles in the order of [map_to_list]; Python
    visits them in the order they were opened. A turn reads and writes only
    what belongs to its own path, so the object after the loop is the same in
    any order; only the order of the events differs. *)
Definition send_data_body (env : io) : M frame bool :=
  let* devices := gets (fun f => _devices (self_ f)) in
  if bool_decide (devices = ∅) then ret false
  else
    let* _ := for_each (map_to_list devices) (send_one env) in
    let* paths := gets to_remove in
    let* _ := for_each paths remove_one in
    gets success.

(** [send_data()]: the value returned (or the exception), the object after
    the call, and what was done to the operating system, in order. *)
Definition send_data (env : io) (self : t) : result bool * t * list event :=
  let '(r, f) :=
    send_data_body env
      {| self_ := self; success := false; to_remove := []; events := [] |} in
  (r, self_ f, events f).

End HidDevice.

(** ** lk_display.py *)

Module LKDisplay.

Import HidDevice.

Record t : Type := {
  hid : HidDevice.t;
  monitor : HardwareMonitor.t
}.

(** The surroundings of one update cycle: the device side, the reading
    [monitor.get_cpu_data()] returns, the vendor readers, and what
    [_get_memory_usage()] and [_get_disk_usage()] return. *)
Record env : Type := {
  device_io : HidDevice.io;
  cpu_reading : CpuData.t;
  gpu_readers : HardwareMonitor.gpu_readers;
  memory_usage : Z;
  disk_usage_now : Z
}.

Record frame : Type := {
  self_ : t;
  events : list event
}.

Definition on_hid (f : HidDevice.t -> HidDevice.t) : M frame unit :=
  modify (fun s =>
    {| self_ := {| hid := f (hid (self_ s)); monitor := monitor (self_ s) |};
       events := events s |}).

Definition emit (es : list event) : M frame unit :=
  modify (fun s => {| self_ := self_ s; events := events s ++ es |}).

(** [self.hid.open_devices()] *)
Definition hid_open_devices (e : env) : M frame Z :=
  fun s =>
    let '(count, h) := open_devices (device_io e) (hid (self_ s)) in
    (Ok count,
     {| self_ := {| hid := h; monitor := monitor (self_ s) |};
        events := events s |}).

(** [self.hid.send_data()] *)
Definition hid_send_data (e : env) : M frame bool :=
  fun s =>
    let '(r, h, es) := send_data (device_io e) (hid (self_ s)) in
    (r,
     {| self_ := {| hid := h; monitor := monitor (self_ s) |};
        events := events s ++ es |}).

(** The cycle after the device check: read the sensors, fill the snapshot,
    send. The CPU reading is the one [get_cpu_data()] returned; that the call
    also advances the monitor's usage tracker is modelled in
    [CpuUsageTracker], not here. *)
Definition collect_and_send (e : env) : M frame unit :=
  let cpu := cpu_reading e in
  let* temp := lift (int_of_float (CpuData.temperature cpu)) in
  let* usage := lift (int_of_float (CpuData.usage cpu)) in
  let* freq := lift (int_of_float (CpuData.frequency cpu)) in
  let* power := lift (int_of_float (CpuData.power cpu)) in
  let* _ :=
    on_hid (set_cpu_data temp usage freq (CpuData.fan_rpm cpu) power) in
  let* gpu :=
    gets (fun s =>
            HardwareMonitor.get_gpu_data (gpu_readers e)
              (monitor (self_ s))) in
  let* _ :=
    if GpuData.is_valid gpu then
      let* temp := lift (int_of_float (GpuData.temperature gpu)) in
      let* usage := lift (int_of_float (GpuData.usage gpu)) in
      let* freq := lift (int_of_float (GpuData.frequency gpu)) in
      let* power := lift (int_of_float (GpuData.power gpu)) in
      on_hid (set_gpu_data temp usage freq (GpuData.fan_rpm gpu) power)
    else on_hid (set_gpu_data 0 0 0 0 0) in
  let* _ := on_hid (set_memory_data (memory_usage e) 0) in
  let* _ := on_hid (set_disk_data (disk_usage_now e) 0) in
  let* _ := hid_send_data e in
  ret tt.

Definition _update_cycle (e : env) : M frame unit :=
  let* online := gets (fun s => get_online_device_count (hid (self_ s))) in
  if online =? 0 then
    let* count := hid_open_devices e in
    if count =? 0 then emit [time_sleep 5000]
    else collect_and_send e
  else collect_and_send e.

End LKDisplay.

(** ** Notions the properties are stated with *)

Module Wire.

Import HidDevice.

(** Bytes [i] and [i+1] of a packet read as a 16-bit integer. *)
Definition be16 (p : list Z) (i : nat) : option Z :=
  match p !! i, p !! S i with
  | Some hi, Some lo => Some (Z.lor (Z.shiftl hi 8) lo)
  | _, _ => None
  end.

Definition le16 (p : list Z) (i : nat) : option Z :=
  match p !! i, p !! S i with
  | Some lo, Some hi => Some (Z.lor (Z.shiftl hi 8) lo)
  | _, _ => None
  end.

(** Bytes [i .. i+3] read as a 32-bit big-endian integer. *)
Definition be32 (p : list Z) (i : nat) : option Z :=
  match be16 p i, be16 p (i + 2) with
  | Some hi, Some lo => Some (Z.lor (Z.shiftl hi 16) lo)
  | _, _ => None
  end.

(** A clock value [datetime.now()] can return. *)
Definition valid_clock (now : datetime) : Prop :=
  1 <= year now <= 9999 /\ 1 <= month now <= 12 /\ 1 <= day now <= 31 /\
  0 <= hour now <= 23 /\ 0 <= minute now <= 59 /\ 0 <= second now <= 59 /\
  0 <= weekday now <= 6.

(** The twelve fields the four clamping setters write are within the
    bounds those setters enforce. *)
Definition clamped (d : SensorData) : Prop :=
  0 <= cpu_temp d <= 255 /\ 0 <= cpu_usage d <= 100 /\
  0 <= cpu_freq d <= 65535 /\ 0 <= cpu_fan_rpm d <= 65535 /\
  0 <= cpu_power d <= 65535 /\
  0 <= gpu_temp d <= 255 /\ 0 <= gpu_usage d <= 100 /\
  0 <= gpu_freq d <= 65535 /\ 0 <= gpu_fan_rpm d <= 65535 /\
  0 <= gpu_power d <= 65535 /\
  0 <= mem_usage d <= 100 /\ 0 <= mem_temp d <= 255 /\
  0 <= disk_usage d <= 100 /\ 0 <= disk_temp d <= 255.

(** Every field within the width the packet gives it: a byte, 16 bits, or
    (the two network rates) 32 bits. *)
Definition wire_range (d : SensorData) : Prop :=
  clamped d /\
  0 <= net_upload d <= 4294967295 /\ 0 <= net_download d <= 4294967295 /\
  0 <= display_mode d <= 255.

(** The values [_build_gamdias_packet] stores without a mask, in the order
    of the stores. *)
Definition gamdias_stores_ok (d : SensorData) (now : datetime) : bool :=
  byte_ok (gpu_temp d) && byte_ok (cpu_usage d) && byte_ok (gpu_usage d)
  && byte_ok (hour now) && byte_ok (minute now) && byte_ok (second now)
  && byte_ok (mem_usage d) && byte_ok (disk_usage d).

(** The buffer [_build_gamdias_packet] returns, as one list. *)
Definition gamdias_layout (d : SensorData) (now : datetime) : list Z :=
  [ 0xB0; 0x01; 0x00;
    gpu_temp d;
    Z.land (cpu_temp d) 0xFF; Z.land (Z.shiftr (cpu_temp d) 8) 0xFF;
    cpu_usage d;
    Z.land (cpu_fan_rpm d) 0xFF; Z.land (Z.shiftr (cpu_fan_rpm d) 8) 0xFF;
    Z.land (gpu_fan_rpm d) 0xFF; Z.land (Z.shiftr (gpu_fan_rpm d) 8) 0xFF;
    Z.land (gpu_power d) 0xFF; Z.land (Z.shiftr (gpu_power d) 8) 0xFF;
    0x00;
    Z.land (Z.shiftr (cpu_freq d) 8) 0xFF; Z.land (cpu_freq d) 0xFF;
    gpu_usage d;
    Z.land (Z.shiftr (gpu_freq d) 8) 0xFF; Z.land (gpu_freq d) 0xFF;
    hour now; minute now; second now;
    mem_usage d; disk_usage d;
    Z.land (cpu_power d) 0xFF; Z.land (Z.shiftr (cpu_power d) 8) 0xFF ]
  ++ replicate 39 0.

Definition hwcx_stores_ok (d : SensorData) (now : datetime) : bool :=
  byte_ok (cpu_temp d) && byte_ok (gpu_temp d)
  && byte_ok (hour now) && byte_ok (minute now) && byte_ok (second now)
  && byte_ok (month now) && byte_ok (day now) && byte_ok (weekday now)
  && byte_ok (cpu_usage d) && byte_ok (gpu_usage d)
  && byte_ok (mem_usage d) && byte_ok (mem_temp d)
  && byte_ok (disk_usage d) && byte_ok (disk_temp d)
  && byte_ok (display_mode d).

Definition hwcx_layout (d : SensorData) (now : datetime) : list Z :=
  [ 0x00; 0x02;
    cpu_temp d; gpu_temp d;
    hour now; minute now; second now;
    0x00;
    Z.land (Z.shiftr (year now) 8) 0xFF; Z.land (year now) 0xFF;
    month now; day now; weekday now;
    cpu_usage d;
    Z.land (Z.shiftr (cpu_freq d) 8) 0xFF; Z.land (cpu_freq d) 0xFF;
    gpu_usage d;
    Z.land (Z.shiftr (gpu_freq d) 8) 0xFF; Z.land (gpu_freq d) 0xFF;
    mem_usage d; mem_temp d; 0x00; 0x00;
    disk_usage d; disk_temp d;
    Z.land (Z.shiftr (cpu_fan_rpm d) 8) 0xFF; Z.land (cpu_fan_rpm d) 0xFF;
    0x00; 0x00;
    Z.land (Z.shiftr (cpu_power d) 8) 0xFF; Z.land (cpu_power d) 0xFF;
    Z.land (Z.shiftr (gpu_fan_rpm d) 8) 0xFF; Z.land (gpu_fan_rpm d) 0xFF;
    0x00; 0x00;
    Z.land (Z.shiftr (gpu_power d) 8) 0xFF; Z.land (gpu_power d) 0xFF;
    0; 0; 0; 0;
    Z.land (Z.shiftr (net_upload d) 24) 0xFF;
    Z.land (Z.shiftr (net_upload d) 16) 0xFF;
    Z.land (Z.shiftr (net_upload d) 8) 0xFF;
    Z.land (net_upload d) 0xFF;
    Z.land (Z.shiftr (net_download d) 24) 0xFF;
    Z.land (Z.shiftr (net_download d) 16) 0xFF;
    Z.land (Z.shiftr (net_download d) 8) 0xFF;
    Z.land (net_download d) 0xFF;
    display_mode d ]
  ++ replicate 15 0.

(** A clock reading for the examples: 12:34:56 on Tuesday 3 November 2026
    ([weekday()] counts from Monday, 0). *)
Definition example_clock : datetime :=
  {| year := 2026; month := 11; day := 3; hour := 12; minute := 34;
     second := 56; weekday := 1 |}.

(** A call of one of the six setters, and a sequence of such calls on an
    object. *)
Inductive setter_call : Type :=
| call_set_cpu_data (temp usage freq fan_rpm power : Z)
| call_set_gpu_data (temp usage freq fan_rpm power : Z)
| call_set_memory_data (usage temp : Z)
| call_set_disk_data (usage temp : Z)
| call_set_network_speed (upload download : Z)
| call_set_display_mode (mode : Z).

Definition call (c : setter_call) (self : HidDevice.t) : HidDevice.t :=
  match c with
  | call_set_cpu_data temp usage freq fan_rpm power =>
      set_cpu_data temp usage freq fan_rpm power self
  | call_set_gpu_data temp usage freq fan_rpm power =>
      set_gpu_data temp usage freq fan_rpm power self
  | call_set_memory_data usage temp => set_memory_data usage temp self
  | call_set_disk_data usage temp => set_disk_data usage temp self
  | call_set_network_speed upload download =>
      set_network_speed upload download self
  | call_set_display_mode mode => set_display_mode mode self
  end.

Definition calls (cs : list setter_call) (self : HidDevice.t) : HidDevice.t :=
  foldl (fun s c => call c s) self cs.

End Wire.

Module Counters.

Import CpuUsageTracker.

(** What a read of [/proc/stat] parses to: the pair (idle, total) both methods
    of the tracker compute, or the first exception on the way. *)
Definition counters (stat : result string) : result (Z * Z) :=
  match stat with
  | Raise e => Raise e
  | Ok content =>
      let parts := split (readline content) in
      match idle_of parts with
      | Raise e => Raise e
      | Ok idle =>
          match total_of parts with
          | Raise e => Raise e
          | Ok total => Ok (idle, total)
          end
      end
  end.

(** [max(0.0, min(100.0, usage))] *)
Definition clamp_percent (usage : float) : float := fmax f0 (fmin f100 usage).

(** The tracker once a read gave [idle] and [total]. *)
Definition primed (idle total : Z) : CpuUsageTracker.t :=
  {| _last_idle := idle; _last_total := total; _initialized := true |}.

(** A pair of counters as [/proc/stat] holds them: the kernel prints each
    field as an unsigned 64-bit number, so the idle counter (the sum of two
    fields) and the total (the sum of ten) are not negative and stay far
    below [2^999]. *)
Definition valid_counters (idle total : Z) : Prop :=
  0 <= idle < 2 ^ 999 /\ 0 <= total < 2 ^ 999.

(** 75.0 *)
Definition f75 : float := S754_finite false 5277655813324800 (-46).

Definition newline : string := String "010"%char EmptyString.

(** A [/proc/stat] whose first line gives idle 100 (idle 100, iowait 0) and
    total 1000, and one that gives idle 150 and total 1200. *)
Definition stat_100_1000 : string :=
  "cpu  900 0 0 100 0 0 0 0 0 0" +:+ newline
  +:+ "cpu0 900 0 0 100 0 0 0 0 0 0" +:+ newline.

Definition stat_150_1200 : string :=
  "cpu  1050 0 0 150 0 0 0 0 0 0" +:+ newline
  +:+ "cpu0 1050 0 0 150 0 0 0 0 0 0" +:+ newline.

(** Two contents with a 310-digit counter: in the first the idle counter is
    [10^309] and the others are 0; in the second the user counter is
    [10^309 + 1] and the others, idle included, are 0. [tracker_huge] is the
    tracker constructed on the first. *)
Definition stat_idle_huge : string :=
  "cpu  0 0 0 1" +:+ String.concat "" (replicate 309 "0") +:+ " 0 0 0 0 0 0"
  +:+ newline.

Definition stat_huge : string :=
  "cpu  1" +:+ String.concat "" (replicate 308 "0") +:+ "1 0 0 0 0 0 0 0 0 0"
  +:+ newline.

Definition tracker_huge : CpuUsageTracker.t :=
  CpuUsageTracker.__init__ (Ok stat_idle_huge).

End Counters.

Module Sending.

Import HidDevice.

(** The packet [send_data] builds for a handle: by its family, at the clock
    reading of that handle. *)
Definition packet_for (env : io) (self : HidDevice.t) (path : string)
    (info : DeviceInfo.t) : result (list Z) :=
  if DeviceInfo.is_gamdias info
  then (_build_gamdias_packet (now env path) self).1
  else (_build_hwcx_packet (now env path) self).1.

(** The data write to a handle fails with errno 19, "no such device". *)
Definition disconnected (env : io) (self : HidDevice.t) (path : string)
    : bool :=
  match _device_info self !! path with
  | Some info =>
      match packet_for env self path info with
      | Ok packet =>
          match data_write env path packet with
          | Raise (OSError errno) => errno =? 19
          | _ => false
          end
      | Raise _ => false
      end
  | None => false
  end.

(** The data write to a handle takes the whole packet. *)
Definition accepted (env : io) (self : HidDevice.t) (path : string) : bool :=
  match _device_info self !! path with
  | Some info =>
      match packet_for env self path info with
      | Ok packet =>
          match data_write env path packet with
          | Ok written => written =? Z.of_nat (length packet)
          | Raise _ => false
          end
      | Raise _ => false
      end
  | None => false
  end.

(** What [_send_gamdias_init] does to the operating system: three writes,
    each followed by a pause when it did not raise. *)
Definition init_events (env : io) (path : string) (fd : Z) : list event :=
  flat_map
    (fun '(k, cmd) =>
       os_write fd (padded cmd) (init_write env path k)
       :: match init_write env path k with
          | Ok _ => [time_sleep 50]
          | Raise _ => []
          end)
    (imap (fun k cmd => (k, cmd)) init_commands).

(** What one turn of the loop of [send_data] does to the operating system. *)
Definition item_events (env : io) (self : HidDevice.t) (path : string)
    (fd : Z) : list event :=
  match _device_info self !! path with
  | None => []
  | Some info =>
      (if bool_decide (path ∈ _initialized_devices self) then []
       else if DeviceInfo.is_gamdias info then init_events env path fd
            else [])
      ++ match packet_for env self path info with
         | Ok packet => [os_write fd packet (data_write env path packet)]
         | Raise _ => []
         end
  end.

(** The GPU bytes of a packet are all zero: Family A has the GPU temperature
    at 3, fan at 9-10, power at 11-12, usage at 16, frequency at 17-18;
    Family B has temperature 3, usage 16, frequency 17-18, fan 31-32, power
    35-36. *)
Definition gpu_bytes_zero (gamdias : bool) (p : list Z) : Prop :=
  Forall (fun i : nat => p !! i = Some 0)
    (if gamdias then [3; 9; 10; 11; 12; 16; 17; 18]%nat
     else [3; 16; 17; 18; 31; 32; 35; 36]%nat).

(** One turn of the first loop of [send_data], as a function on the frame. *)
Definition send_step (env : io) (f : frame) (item : string * Z) : frame :=
  {| self_ := match _device_info (self_ f) !! item.1 with
              | Some _ => mark_initialized item.1 (self_ f)
              | None => self_ f
              end;
     success := success f || accepted env (self_ f) item.1;
     to_remove := to_remove f
                  ++ (if disconnected env (self_ f) item.1 then [item.1]
                      else []);
     events := events f ++ item_events env (self_ f) item.1 item.2 |}.

(** One turn of the second loop, for a path that is still in the table. *)
Definition remove_step (f : frame) (path : string) : frame :=
  {| self_ :=
       {| _devices := delete path (_devices (self_ f));
          _device_info := delete path (_device_info (self_ f));
          _sensor_data := _sensor_data (self_ f);
          _initialized_devices := _initialized_devices (self_ f) ∖ {[ path ]} |};
     success := success f;
     to_remove := to_remove f;
     events := events f
               ++ match _devices (self_ f) !! path with
                  | Some fd => [os_close fd]
                  | None => []
                  end |}.

(** Two objects with the same tables and the same snapshot. *)
Definition same_tables (s1 s2 : HidDevice.t) : Prop :=
  _devices s1 = _devices s2 /\ _device_info s1 = _device_info s2 /\
  _sensor_data s1 = _sensor_data s2.

(** An object for the examples: the GAMDIAS display open on descriptor 3,
    holding the snapshot of the module's self-test, and surroundings in which
    every init write succeeds and the data write gives [outcome]. *)
Definition example_info : DeviceInfo.t :=
  {| DeviceInfo.path := "/dev/hidraw0"; DeviceInfo.vendor_id := 0x1B80;
     DeviceInfo.product_id := 0xB538; DeviceInfo.name := "GAMDIAS ATLAS";
     DeviceInfo.is_gamdias := true |}.

Definition example_hid : HidDevice.t :=
  add_device "/dev/hidraw0" 3 example_info
    (set_cpu_data 45 25 3500 0 0 HidDevice.__init__).

Definition example_io (outcome : result Z) : io :=
  {| hidraw := [("/dev/hidraw0", Some (0x1B80, 0xB538 - 0x10000,
                                       "GAMDIAS ATLAS"))];
     os_open := fun _ => Ok 3;
     now := fun _ => Wire.example_clock;
     init_write := fun _ _ => Ok 65;
     data_write := fun _ _ => outcome |}.

(** Every handle in the table has its device record: [open_devices] writes
    both tables together and [send_data] deletes from both. *)
Definition tables_agree (self : HidDevice.t) : Prop :=
  forall p, is_Some (_devices self !! p) -> is_Some (_device_info self !! p).

End Sending.

Module Cycle.

Import HidDevice HardwareMonitor LKDisplay.

(** No entry of [/sys/class/drm] carries the AMD or the Intel vendor id. *)
Definition no_vendor_match (cards : list drm_card) : Prop :=
  Forall (fun card =>
            match card_vendor card with
            | Some text => strip text <> "0x1002" /\ strip text <> "0x8086"
            | None => True
            end) cards.

(** The five GPU fields of a snapshot are zero. *)
Definition gpu_fields_zero (d : SensorData) : Prop :=
  gpu_temp d = 0 /\ gpu_usage d = 0 /\ gpu_freq d = 0 /\
  gpu_fan_rpm d = 0 /\ gpu_power d = 0.

(** The device check that opens [_update_cycle]: the object the rest of the
    cycle works on, or nothing when no device is connected and none could be
    opened. *)
Definition after_device_check (e : env) (h : HidDevice.t)
    : option HidDevice.t :=
  if get_online_device_count h =? 0 then
    if (open_devices (device_io e) h).1 =? 0 then None
    else Some (open_devices (device_io e) h).2
  else Some h.

(** The object once the cycle has filled the snapshot, for a GPU reading that
    is not valid. *)
Definition filled_without_gpu (e : env) (temp usage freq power : Z)
    (h : HidDevice.t) : HidDevice.t :=
  set_disk_data (disk_usage_now e) 0
    (set_memory_data (memory_usage e) 0
       (set_gpu_data 0 0 0 0 0
          (set_cpu_data temp usage freq (CpuData.fan_rpm (cpu_reading e))
             power h))).

(** Surroundings for the examples: the reading of an idle CPU at 45 degrees
    and 3.5 GHz (45.0, 0.0, 3500.0), memory at 60 percent, disk at 40, and the
    device side of [Sending.example_io] with every write accepted. *)
Definition example_env : env :=
  {| device_io := Sending.example_io (Ok 65);
     cpu_reading :=
       {| CpuData.name := "CPU";
          CpuData.temperature := S754_finite false 6333186975989760 (-47);
          CpuData.usage := f0;
          CpuData.frequency := S754_finite false 7696581394432000 (-41);
          CpuData.power := f0;
          CpuData.fan_rpm := 0;
          CpuData.is_valid := true |};
     gpu_readers :=
       {| _get_nvidia_gpu_data := GpuData.default;
          _get_amd_gpu_data := GpuData.default;
          _get_intel_gpu_data := GpuData.default |};
     memory_usage := 60;
     disk_usage_now := 40 |}.

Definition example_app : LKDisplay.frame :=
  {| LKDisplay.self_ :=
       {| hid := set_gpu_data 55 30 1800 1500 120 Sending.example_hid;
          monitor := HardwareMonitor.__init__ (Ok Counters.stat_100_1000)
                       false None |};
     LKDisplay.events := [] |}.

End Cycle.

(** ** What [send_data] does to the operating system *)

Module Trace.
Import HidDevice Sending.

Definition data_events (env : io) (self : HidDevice.t) (path : string)
    (fd : Z) : list event :=
  match _device_info self !! path with
  | Some info =>
      match packet_for env self path info with
      | Ok packet => [os_write fd packet (data_write env path packet)]
      | Raise _ => []
      end
  | None => []
  end.

Definition close_events (env : io) (self : HidDevice.t) (item : string * Z)
    : list event :=
  if disconnected env self item.1 then [os_close item.2] else [].

Definition send_events (env : io) (self : HidDevice.t) : list event :=
  flat_map (fun item => item_events env self item.1 item.2)
    (map_to_list (_devices self))
  ++ flat_map (close_events env self) (map_to_list (_devices self)).

Definition removed (env : io) (self : HidDevice.t) (path : string) : bool :=
  match _devices self !! path with
  | Some _ => disconnected env self path
  | None => false
  end.

End Trace.

(** ** The life of a [HidDevice] *)

Module Lifecycle.
Import HidDevice Wire.

(** [os.open(info.path, O_RDWR)] succeeds. *)
Definition opens (env : io) (info : DeviceInfo.t) : bool :=
  match os_open env (DeviceInfo.path info) with
  | Ok _ => true
  | Raise _ => false
  end.

(** The two supported pairs of vendor and product id. *)
Definition is_gamdias_pair (vendor_id product_id : Z) : Prop :=
  vendor_id = 0x1B80 /\ product_id = 0xB538.

Definition is_hwcx_pair (vendor_id product_id : Z) : Prop :=
  vendor_id = 0x0145 /\ product_id = 0x1005.

(** A record as [scan_devices] reports them for the node [path]. *)
Definition scanned_record (path : string) (info : DeviceInfo.t) : Prop :=
  DeviceInfo.path info = path /\
  (is_gamdias_pair (DeviceInfo.vendor_id info) (DeviceInfo.product_id info)
   /\ DeviceInfo.is_gamdias info = true
   \/ is_hwcx_pair (DeviceInfo.vendor_id info) (DeviceInfo.product_id info)
      /\ DeviceInfo.is_gamdias info = false).

(** The public operations of a [HidDevice], each with the surroundings it
    runs in. *)
Inductive op : Type :=
| op_open_devices (env : io)
| op_close_devices
| op_setter (c : setter_call)
| op_send_data (env : io).

Definition step (self : HidDevice.t) (o : op) : HidDevice.t :=
  match o with
  | op_open_devices env => (open_devices env self).2
  | op_close_devices => (close_devices self).1
  | op_setter c => call c self
  | op_send_data env => (send_data env self).1.2
  end.

(** The object after a sequence of operations on a fresh one. *)
Definition run (ops : list op) : HidDevice.t :=
  foldl step HidDevice.__init__ ops.

(** The two tables have the same paths, only paths in the table are marked
    initialized, and every record is the one of a supported device at its
    own path. *)
Definition well_formed (self : HidDevice.t) : Prop :=
  (forall p, is_Some (_devices self !! p) <-> is_Some (_device_info self !! p))
  /\ (forall p, p ∈ _initialized_devices self -> is_Some (_devices self !! p))
  /\ (forall p info, _device_info self !! p = Some info -> scanned_record p info).

End Lifecycle.

(** ** The readings the update cycle converts *)

Module Readings.

(** [math.isfinite(x)]: neither an infinity nor a NaN. *)
Definition isfinite (x : float) : bool :=
  match x with
  | S754_zero _ | S754_finite _ _ _ => true
  | S754_infinity _ | S754_nan => false
  end.

(** The four [float]s of a CPU reading that the cycle converts with
    [int()]. *)
Definition cpu_converts (cpu : CpuData.t) : bool :=
  isfinite (CpuData.temperature cpu) && isfinite (CpuData.usage cpu)
  && isfinite (CpuData.frequency cpu) && isfinite (CpuData.power cpu).

(** The four [float]s of a GPU reading that the cycle converts when the
    reading is valid. *)
Definition gpu_converts (gpu : GpuData.t) : bool :=
  negb (GpuData.is_valid gpu)
  || (isfinite (GpuData.temperature gpu) && isfinite (GpuData.usage gpu)
      && isfinite (GpuData.frequency gpu) && isfinite (GpuData.power gpu)).

(** Four [int()] conversions in a row: the first that raises ends them. *)
Definition convert4 (a b c d : float) : result (Z * Z * Z * Z) :=
  match int_of_float a with
  | Raise x => Raise x
  | Ok a' =>
      match int_of_float b with
      | Raise x => Raise x
      | Ok b' =>
          match int_of_float c with
          | Raise x => Raise x
          | Ok c' =>
              match int_of_float d with
              | Raise x => Raise x
              | Ok d' => Ok (a', b', c', d')
              end
          end
      end
  end.

(** The setter calls the cycle makes: never [set_network_speed] nor
    [set_display_mode]. *)
Definition clamping (c : Wire.setter_call) : Prop :=
  match c with
  | Wire.call_set_network_speed _ _ | Wire.call_set_display_mode _ => False
  | _ => True
  end.

End Readings.

(** ** Surroundings for further examples *)

Module Examples.

Import HidDevice.

(** The GAMDIAS display is plugged in, but its node cannot be opened:
    [os.open] fails with errno 13, permission denied. *)
Definition locked_io : io :=
  {| hidraw := [("/dev/hidraw0", Some (0x1B80, 0xB538 - 0x10000,
                                       "GAMDIAS ATLAS"))];
     os_open := fun _ => Raise (OSError 13);
     now := fun _ => Wire.example_clock;
     init_write := fun _ _ => Ok 65;
     data_write := fun _ _ => Ok 65 |}.

Definition locked_env : LKDisplay.env :=
  {| LKDisplay.device_io := locked_io;
     LKDisplay.cpu_reading := LKDisplay.cpu_reading Cycle.example_env;
     LKDisplay.gpu_readers := LKDisplay.gpu_readers Cycle.example_env;
     LKDisplay.memory_usage := 60;
     LKDisplay.disk_usage_now := 40 |}.

(** The application right after its two objects were constructed, before
    any device was opened. *)
Definition fresh_app : LKDisplay.frame :=
  {| LKDisplay.self_ :=
       {| LKDisplay.hid := HidDevice.__init__;
          LKDisplay.monitor :=
            HardwareMonitor.__init__ (Ok Counters.stat_100_1000) false None |};
     LKDisplay.events := [] |}.


(** A CPU reading whose temperature is not a number. *)
Definition nan_env : LKDisplay.env :=
  {| LKDisplay.device_io := LKDisplay.device_io Cycle.example_env;
     LKDisplay.cpu_reading :=
       {| CpuData.name := "CPU"; CpuData.temperature := S754_nan;
          CpuData.usage := f0; CpuData.frequency := f0; CpuData.power := f0;
          CpuData.fan_rpm := 0; CpuData.is_valid := true |};
     LKDisplay.gpu_readers := LKDisplay.gpu_readers Cycle.example_env;
     LKDisplay.memory_usage := 60;
     LKDisplay.disk_usage_now := 40 |}.

End Examples.

(** ** The entries of [/sys/class/drm] *)

Module Detection.

Import HardwareMonitor.

(** An entry of [/sys/class/drm] that [_detect_gpu] passes over: not a
    [card*] entry or a connector ([card0-DP-1]), no [device] directory, no
    [vendor] file, a vendor that is neither AMD nor Intel, or an AMD card
    without an entry under [device/hwmon]. *)
Definition passed_over (card : drm_card) : Prop :=
  startswith "card" (card_name card) = false \/
  contains "-" (card_name card) = true \/
  card_device card = false \/
  card_vendor card = None \/
  (exists text, card_vendor card = Some text /\
                strip text <> "0x1002" /\ strip text <> "0x8086") \/
  (exists text, card_vendor card = Some text /\ strip text = "0x1002" /\
                (card_hwmon card = None \/ card_hwmon card = Some [])).

(** A card [_detect_gpu] looks at: a [card*] entry that is not a connector,
    with a [device] directory and a [vendor] file holding [text]. *)
Definition inspected (card : drm_card) (text : string) : Prop :=
  startswith "card" (card_name card) = true /\
  contains "-" (card_name card) = false /\
  card_device card = true /\
  card_vendor card = Some text.

Definition device_path (card : drm_card) : string :=
  "/sys/class/drm/" +:+ card_name card +:+ "/device".

(** Listings of [/sys/class/drm] for the examples: a connector, a render
    node and an AMD card without hwmon, then an Intel card, then an AMD card
    with hwmon. *)
Definition example_cards : list drm_card :=
  [ {| card_name := "card0-DP-1"; card_device := true;
       card_vendor := Some "0x1002"; card_hwmon := Some ["hwmon3"] |};
    {| card_name := "renderD128"; card_device := true;
       card_vendor := Some "0x8086"; card_hwmon := None |};
    {| card_name := "card0"; card_device := true;
       card_vendor := Some "0x1002
"; card_hwmon := Some [] |};
    {| card_name := "card1"; card_device := true;
       card_vendor := Some "0x8086
"; card_hwmon := None |};
    {| card_name := "card2"; card_device := true;
       card_vendor := Some "0x1002
"; card_hwmon := Some ["hwmon4"] |} ].

End Detection.

(** ** lk_display.py: the two usage readers of [LKDisplay] *)

Module Usage.

(** [f.readlines()] in text mode with universal newlines: the lines, each
    with its line ending as ["\n"]; a last line without ending stays so.
    [cur] is the line being read. *)
Fixpoint readlines_from (cur : string) (s : string) : list string :=
  match s with
  | EmptyString => if String.eqb cur "" then [] else [cur]
  | String c rest =>
      if Ascii.eqb c "010"%char then
        (cur +:+ String "010"%char EmptyString) :: readlines_from "" rest
      else if Ascii.eqb c "013"%char then
        match rest with
        | String c' rest' =>
            if Ascii.eqb c' "010"%char then
              (cur +:+ String "010"%char EmptyString) :: readlines_from "" rest'
            else
              (cur +:+ String "010"%char EmptyString) :: readlines_from "" rest
        | EmptyString => [cur +:+ String "010"%char EmptyString]
        end
      else readlines_from (cur +:+ String c EmptyString) rest
  end.

Definition readlines (s : string) : list string := readlines_from "" s.

(** [int(line.split()[1])] *)
Definition second_field (line : string) : result Z :=
  match getitem (split line) 1 with
  | Raise e => Raise e
  | Ok p => int_of_str p
  end.

(** The loop of [_get_memory_usage] over the lines of [/proc/meminfo]. *)
Fixpoint meminfo_loop (lines : list string) (mem_total mem_available : Z)
    : result (Z * Z) :=
  match lines with
  | [] => Ok (mem_total, mem_available)
  | line :: rest =>
      if startswith "MemTotal:" line then
        match second_field line with
        | Raise e => Raise e
        | Ok v => meminfo_loop rest v mem_available
        end
      else if startswith "MemAvailable:" line then
        match second_field line with
        | Raise e => Raise e
        | Ok v => meminfo_loop rest mem_total v
        end
      else meminfo_loop rest mem_total mem_available
  end.

(** [int(100 * used / total)] *)
Definition percent (used total : Z) : result Z :=
  match int_true_div (100 * used) total with
  | Raise e => Raise e
  | Ok q => int_of_float q
  end.

(** [meminfo] is what opening and reading [/proc/meminfo] gives. Every
    exception ends in [return 0]. *)
Definition _get_memory_usage (meminfo : result string) : Z :=
  match meminfo with
  | Raise _ => 0
  | Ok content =>
      match meminfo_loop (readlines content) 0 0 with
      | Raise _ => 0
      | Ok (mem_total, mem_available) =>
          if 0 <? mem_total then
            match percent (mem_total - mem_available) mem_total with
            | Ok v => v
            | Raise _ => 0
            end
          else 0
      end
  end.

(** [statvfs] is what [os.statvfs('/')] gives: [f_blocks], [f_frsize] and
    [f_bfree], or the exception. *)
Definition _get_disk_usage (statvfs : result (Z * Z * Z)) : Z :=
  match statvfs with
  | Raise _ => 0
  | Ok (f_blocks, f_frsize, f_bfree) =>
      let total := f_blocks * f_frsize in
      let free := f_bfree * f_frsize in
      let used := total - free in
      if 0 <? total then
        match percent used total with
        | Ok v => v
        | Raise _ => 0
        end
      else 0
  end.

(** A [/proc/meminfo] for the examples: 16 GB of which 6.4 GB are
    available. *)
Definition example_meminfo : string :=
  "MemTotal:       16000000 kB" +:+ Counters.newline
  +:+ "MemFree:         1200000 kB" +:+ Counters.newline
  +:+ "MemAvailable:    6400000 kB" +:+ Counters.newline
  +:+ "Buffers:          300000 kB" +:+ Counters.newline.

End Usage.

(** ** hardware_monitor.py: the hwmon cache of [HardwareMonitor] *)

Module Hwmon.

(** [self._hwmon_cache]: a [dict] from chip name to directory. A [dict]
    keeps its keys in the order they were first inserted, and the fallback of
    [_find_cpu_temp_hwmon] depends on that order: an association list with
    distinct keys. *)
Definition cache : Type := list (string * string).

(** [d[k] = v]: the value is replaced where the key stands, or the pair is
    appended. *)
Fixpoint dict_set (k v : string) (d : cache) : cache :=
  match d with
  | [] => [(k, v)]
  | (k', v') :: rest =>
      if String.eqb k' k then (k', v) :: rest
      else (k', v') :: dict_set k v rest
  end.

(** [d[k]] when [k in d] *)
Fixpoint dict_get (k : string) (d : cache) : option string :=
  match d with
  | [] => None
  | (k', v') :: rest => if String.eqb k' k then Some v' else dict_get k rest
  end.

(** One entry of [/sys/class/hwmon]: its path, and the text of its [name]
    file when the file exists. *)
Record hwmon_dir : Type := {
  hwmon_path : string;
  hwmon_name : option string
}.

(** [listing] is the content of [/sys/class/hwmon] in the order [iterdir]
    gives it, when the directory exists. *)
Definition _scan_hwmon (listing : option (list hwmon_dir)) (c : cache)
    : cache :=
  match listing with
  | None => c
  | Some dirs =>
      foldl (fun c d =>
               match hwmon_name d with
               | Some text => dict_set (strip text) (hwmon_path d) c
               | None => c
               end) c dirs
  end.

Definition cpu_sensors : list string :=
  [ "coretemp"; "k10temp"; "zenpower"; "it87"; "nct6775"; "acpitz" ].

(** [for sensor in cpu_sensors: if sensor in cache: return cache[sensor]] *)
Fixpoint first_sensor (sensors : list string) (c : cache) : option string :=
  match sensors with
  | [] => None
  | sensor :: rest =>
      match dict_get sensor c with
      | Some path => Some path
      | None => first_sensor rest c
      end
  end.

(** [for name, path in cache.items(): if (path / "temp1_input").exists():
    return path] *)
Fixpoint first_with_temp1 (has_temp1 : string -> bool) (c : cache)
    : option string :=
  match c with
  | [] => None
  | (_, path) :: rest =>
      if has_temp1 path then Some path else first_with_temp1 has_temp1 rest
  end.

(** [has_temp1 path] tells whether [path/temp1_input] exists. *)
Definition _find_cpu_temp_hwmon (has_temp1 : string -> bool) (c : cache)
    : option string :=
  match first_sensor cpu_sensors c with
  | Some path => Some path
  | None => first_with_temp1 has_temp1 c
  end.

(** The directories of a listing whose [name] file, stripped, reads
    [name]. *)
Definition named (name : string) (dirs : list hwmon_dir) : list hwmon_dir :=
  filter (fun d => strip <$> hwmon_name d = Some name) dirs.

(** A listing for the examples: an NVMe drive, the ACPI zone, the two
    sockets of an Intel board, a second NVMe drive. *)
Definition example_listing : list hwmon_dir :=
  [ {| hwmon_path := "/sys/class/hwmon/hwmon0"; hwmon_name := Some "nvme
" |};
    {| hwmon_path := "/sys/class/hwmon/hwmon1"; hwmon_name := Some "acpitz
" |};
    {| hwmon_path := "/sys/class/hwmon/hwmon2"; hwmon_name := Some "coretemp
" |};
    {| hwmon_path := "/sys/class/hwmon/hwmon3"; hwmon_name := Some "coretemp
" |};
    {| hwmon_path := "/sys/class/hwmon/hwmon4"; hwmon_name := Some "nvme
" |} ].

End Hwmon.

(** * Properties *)

Import HidDevice Wire CpuUsageTracker Counters Sending Cycle.

(** ** The packet builders *)

Lemma byte_ok_land x : byte_ok (Z.land x 0xFF) = true.
Proof.
  unfold byte_ok. apply andb_true_iff. split.
  - apply Z.leb_le, Z.land_nonneg. right. lia.
  - apply Z.ltb_lt. change 0xFF with (Z.ones 8). rewrite Z.land_ones by lia.
    apply Z.mod_pos_bound. lia.
Qed.

Lemma byte_ok_spec v : byte_ok v = true <-> 0 <= v <= 255.
Proof. unfold byte_ok. rewrite andb_true_iff, Z.leb_le, Z.ltb_lt. lia. Qed.

Ltac unfold_builder :=
  unfold _build_gamdias_packet, _build_hwcx_packet, store, bind, gets, ret,
    lift, setitem, bytearray, REPORT_SIZE;
  rewrite ?byte_ok_land; cbn.

(** One unmasked store: either the value is no byte and the builder has raised
    [ValueError], or the next store is reached. *)
Ltac check_store v :=
  destruct (byte_ok v) eqn:?; cbn; [ | reflexivity ].

(** [_build_gamdias_packet] in closed form. *)
Lemma _build_gamdias_packet_eq now self :
  _build_gamdias_packet now self =
  (if gamdias_stores_ok (_sensor_data self) now
   then Ok (gamdias_layout (_sensor_data self) now)
   else Raise ValueError,
   self).
Proof.
  set (d := _sensor_data self).
  unfold gamdias_stores_ok, gamdias_layout. unfold_builder. fold d.
  check_store (gpu_temp d). check_store (cpu_usage d).
  check_store (gpu_usage d). check_store (hour now).
  check_store (minute now). check_store (second now).
  check_store (mem_usage d). check_store (disk_usage d).
  reflexivity.
Qed.

(** [_build_hwcx_packet] in closed form. *)
Lemma _build_hwcx_packet_eq now self :
  _build_hwcx_packet now self =
  (if hwcx_stores_ok (_sensor_data self) now
   then Ok (hwcx_layout (_sensor_data self) now)
   else Raise ValueError,
   self).
Proof.
  set (d := _sensor_data self).
  unfold hwcx_stores_ok, hwcx_layout. unfold_builder. fold d.
  check_store (cpu_temp d). check_store (gpu_temp d).
  check_store (hour now). check_store (minute now). check_store (second now).
  check_store (month now). check_store (day now). check_store (weekday now).
  check_store (cpu_usage d). check_store (gpu_usage d).
  check_store (mem_usage d). check_store (mem_temp d).
  check_store (disk_usage d). check_store (disk_temp d).
  check_store (display_mode d).
  reflexivity.
Qed.

Lemma build_gamdias_inv now self p :
  (_build_gamdias_packet now self).1 = Ok p ->
  gamdias_stores_ok (_sensor_data self) now = true /\
  p = gamdias_layout (_sensor_data self) now.
Proof.
  rewrite _build_gamdias_packet_eq. cbn.
  destruct (gamdias_stores_ok _ _); [ | discriminate ].
  intros [= <-]. split; reflexivity.
Qed.

Lemma build_hwcx_inv now self p :
  (_build_hwcx_packet now self).1 = Ok p ->
  hwcx_stores_ok (_sensor_data self) now = true /\
  p = hwcx_layout (_sensor_data self) now.
Proof.
  rewrite _build_hwcx_packet_eq. cbn.
  destruct (hwcx_stores_ok _ _); [ | discriminate ].
  intros [= <-]. split; reflexivity.
Qed.

Lemma byte_ok_intro v : 0 <= v <= 255 -> byte_ok v = true.
Proof. apply byte_ok_spec. Qed.

Lemma clamped_gamdias_stores_ok d now :
  clamped d -> valid_clock now -> gamdias_stores_ok d now = true.
Proof.
  unfold clamped, valid_clock, gamdias_stores_ok. intros Hd Hc.
  rewrite !andb_true_iff. repeat split; apply byte_ok_intro; lia.
Qed.

Lemma clamped_hwcx_stores_ok d now :
  clamped d -> 0 <= display_mode d <= 255 -> valid_clock now ->
  hwcx_stores_ok d now = true.
Proof.
  unfold clamped, valid_clock, hwcx_stores_ok. intros Hd Hm Hc.
  rewrite !andb_true_iff. repeat split; apply byte_ok_intro; lia.
Qed.

(** Splitting a 16-bit value into a high and a low byte and reading the two
    bytes back gives the value. *)
Lemma be16_split v :
  0 <= v <= 65535 ->
  Z.lor (Z.shiftl (Z.land (Z.shiftr v 8) 0xFF) 8) (Z.land v 0xFF) = v.
Proof.
  intros Hv. apply Z.bits_inj'. intros n Hn.
  change 0xFF with (Z.ones 8).
  rewrite Z.lor_spec, Z.shiftl_spec, !Z.land_spec by lia.
  destruct (Z.ltb_spec n 8) as [Hlt | Hge].
  - rewrite (Z.testbit_neg_r (Z.shiftr v 8) (n - 8)) by lia. cbn [andb orb].
    rewrite Z.ones_spec_low by lia. apply andb_true_r.
  - rewrite (Z.ones_spec_high 8 n) by lia. rewrite andb_false_r, orb_false_r.
    rewrite Z.shiftr_spec by lia. replace (n - 8 + 8) with n by lia.
    destruct (Z.ltb_spec n 16) as [Hlt | Hge16].
    + rewrite Z.ones_spec_low by lia. apply andb_true_r.
    + rewrite Z.ones_spec_high by lia. rewrite andb_false_r.
      symmetry. apply Z.bits_above_log2; [ lia | ].
      destruct (Z.eq_dec v 0) as [-> | Hnz]; [ cbn; lia | ].
      apply Z.log2_lt_pow2; [ lia | ].
      apply Z.lt_le_trans with (2 ^ 16); [ lia | ].
      apply Z.pow_le_mono_r; lia.
Qed.

(** [set_cpu_data] leaves the twelve clamped fields within their bounds, like
    the three other clamping setters; the two plain setters do not touch
    them. *)
Lemma set_cpu_data_clamped temp usage freq fan_rpm power self :
  clamped (_sensor_data self) ->
  clamped (_sensor_data (set_cpu_data temp usage freq fan_rpm power self)).
Proof. unfold clamped. cbn. lia. Qed.

Lemma set_gpu_data_clamped temp usage freq fan_rpm power self :
  clamped (_sensor_data self) ->
  clamped (_sensor_data (set_gpu_data temp usage freq fan_rpm power self)).
Proof. unfold clamped. cbn. lia. Qed.

Lemma set_memory_data_clamped usage temp self :
  clamped (_sensor_data self) ->
  clamped (_sensor_data (set_memory_data usage temp self)).
Proof. unfold clamped. cbn. lia. Qed.

Lemma set_disk_data_clamped usage temp self :
  clamped (_sensor_data self) ->
  clamped (_sensor_data (set_disk_data usage temp self)).
Proof. unfold clamped. cbn. lia. Qed.

Lemma set_network_speed_clamped upload download self :
  clamped (_sensor_data self) ->
  clamped (_sensor_data (set_network_speed upload download self)).
Proof. unfold clamped. cbn. lia. Qed.

Lemma set_display_mode_clamped mode self :
  clamped (_sensor_data self) ->
  clamped (_sensor_data (set_display_mode mode self)).
Proof. unfold clamped. cbn. lia. Qed.

Lemma init_clamped : clamped (_sensor_data HidDevice.__init__).
Proof. unfold clamped. cbn. lia. Qed.

(** The two layouts, field by field, for a snapshot within the bounds of the
    clamping setters: every field written can be read back at its offset, with
    its width and byte order. *)
Lemma gamdias_layout_fields d now :
  clamped d ->
  let p := gamdias_layout d now in
  p !! 0%nat = Some 0xB0 /\ p !! 1%nat = Some 0x01 /\ p !! 2%nat = Some 0 /\
  p !! 3%nat = Some (gpu_temp d) /\ le16 p 4 = Some (cpu_temp d) /\
  p !! 6%nat = Some (cpu_usage d) /\ le16 p 7 = Some (cpu_fan_rpm d) /\
  le16 p 9 = Some (gpu_fan_rpm d) /\ le16 p 11 = Some (gpu_power d) /\
  p !! 13%nat = Some 0 /\ be16 p 14 = Some (cpu_freq d) /\
  p !! 16%nat = Some (gpu_usage d) /\ be16 p 17 = Some (gpu_freq d) /\
  p !! 19%nat = Some (hour now) /\ p !! 20%nat = Some (minute now) /\
  p !! 21%nat = Some (second now) /\ p !! 22%nat = Some (mem_usage d) /\
  p !! 23%nat = Some (disk_usage d) /\ le16 p 24 = Some (cpu_power d).
Proof.
  unfold clamped. intros Hd. unfold gamdias_layout, be16, le16. cbn.
  repeat apply conj; try reflexivity; f_equal; apply be16_split; lia.
Qed.

Lemma hwcx_layout_fields d now :
  clamped d -> 0 <= year now <= 65535 ->
  let p := hwcx_layout d now in
  p !! 0%nat = Some 0 /\ p !! 1%nat = Some 0x02 /\
  p !! 2%nat = Some (cpu_temp d) /\ p !! 3%nat = Some (gpu_temp d) /\
  p !! 4%nat = Some (hour now) /\ p !! 5%nat = Some (minute now) /\
  p !! 6%nat = Some (second now) /\ p !! 7%nat = Some 0 /\
  be16 p 8 = Some (year now) /\ p !! 10%nat = Some (month now) /\
  p !! 11%nat = Some (day now) /\ p !! 12%nat = Some (weekday now) /\
  p !! 13%nat = Some (cpu_usage d) /\ be16 p 14 = Some (cpu_freq d) /\
  p !! 16%nat = Some (gpu_usage d) /\ be16 p 17 = Some (gpu_freq d) /\
  p !! 19%nat = Some (mem_usage d) /\ p !! 20%nat = Some (mem_temp d) /\
  p !! 23%nat = Some (disk_usage d) /\ p !! 24%nat = Some (disk_temp d) /\
  be16 p 25 = Some (cpu_fan_rpm d) /\ be16 p 29 = Some (cpu_power d) /\
  be16 p 31 = Some (gpu_fan_rpm d) /\ be16 p 35 = Some (gpu_power d) /\
  p !! 49%nat = Some (display_mode d).
Proof.
  unfold clamped. intros Hd Hy. unfold hwcx_layout, be16. cbn.
  repeat apply conj; try reflexivity; f_equal; apply be16_split; lia.
Qed.

(** *** C1 *)

(** C1. For every snapshot whose [cpu_freq] is 3500, bytes 14-15 of the packet
    [_build_gamdias_packet] builds, read as a 16-bit big-endian integer, give
    3500, and so do bytes 14-15 of the packet [_build_hwcx_packet] builds.
    Both packets exist as soon as the values stored unmasked are bytes. *)
Theorem C1_cpu_freq_roundtrip (self : HidDevice.t) (now : datetime) :
  cpu_freq (_sensor_data self) = 3500 ->
  (forall p, (_build_gamdias_packet now self).1 = Ok p ->
             be16 p 14 = Some 3500) /\
  (forall p, (_build_hwcx_packet now self).1 = Ok p ->
             be16 p 14 = Some 3500) /\
  (gamdias_stores_ok (_sensor_data self) now = true ->
   exists p, (_build_gamdias_packet now self).1 = Ok p) /\
  (hwcx_stores_ok (_sensor_data self) now = true ->
   exists p, (_build_hwcx_packet now self).1 = Ok p).
Proof.
  intros Hfreq. repeat split.
  - intros p [_ ->]%build_gamdias_inv.
    unfold be16, gamdias_layout. cbn. rewrite Hfreq. reflexivity.
  - intros p [_ ->]%build_hwcx_inv.
    unfold be16, hwcx_layout. cbn. rewrite Hfreq. reflexivity.
  - intros Hok. rewrite _build_gamdias_packet_eq, Hok. eauto.
  - intros Hok. rewrite _build_hwcx_packet_eq, Hok. eauto.
Qed.

(** The snapshot of the module's own self-test,
    [set_cpu_data(temp=45, usage=25, freq=3500)]. *)
Lemma C1_cpu_freq_roundtrip_witness :
  let self := set_cpu_data 45 25 3500 0 0 HidDevice.__init__ in
  let now := example_clock in
  (exists p, (_build_gamdias_packet now self).1 = Ok p /\
             be16 p 14 = Some 3500) /\
  (exists p, (_build_hwcx_packet now self).1 = Ok p /\
             be16 p 14 = Some 3500).
Proof.
  intros self now.
  destruct (C1_cpu_freq_roundtrip self now eq_refl) as (Ha & Hb & Hea & Heb).
  destruct (Hea eq_refl) as [p Hp]. destruct (Heb eq_refl) as [q Hq].
  split; [ exists p | exists q ]; auto.
Defined.

(** *** C3 *)

Lemma example_clock_valid : valid_clock example_clock.
Proof. unfold valid_clock. cbn. lia. Qed.

(** C3. [set_cpu_data] stores [min(100, max(0, usage))] as the CPU usage, for
    every integer; the usage byte of either packet (byte 6 of Family A, byte 13
    of Family B) is that stored value; and from a fresh object a usage of 150
    is encoded as the byte 100 and a usage of -10 as the byte 0, at every
    valid clock. *)
Theorem C3_cpu_usage_saturates :
  (forall temp usage freq fan_rpm power self,
     cpu_usage (_sensor_data (set_cpu_data temp usage freq fan_rpm power self))
     = Z.min 100 (Z.max 0 usage)) /\
  (forall temp usage freq fan_rpm power self now p,
     (_build_gamdias_packet now
        (set_cpu_data temp usage freq fan_rpm power self)).1 = Ok p ->
     p !! 6%nat = Some (Z.min 100 (Z.max 0 usage))) /\
  (forall temp usage freq fan_rpm power self now p,
     (_build_hwcx_packet now
        (set_cpu_data temp usage freq fan_rpm power self)).1 = Ok p ->
     p !! 13%nat = Some (Z.min 100 (Z.max 0 usage))) /\
  (forall temp freq fan_rpm power now,
     valid_clock now ->
     exists p q,
       (_build_gamdias_packet now
          (set_cpu_data temp 150 freq fan_rpm power HidDevice.__init__)).1
       = Ok p /\ p !! 6%nat = Some 100 /\
       (_build_hwcx_packet now
          (set_cpu_data temp 150 freq fan_rpm power HidDevice.__init__)).1
       = Ok q /\ q !! 13%nat = Some 100) /\
  (forall temp freq fan_rpm power now,
     valid_clock now ->
     exists p q,
       (_build_gamdias_packet now
          (set_cpu_data temp (-10) freq fan_rpm power HidDevice.__init__)).1
       = Ok p /\ p !! 6%nat = Some 0 /\
       (_build_hwcx_packet now
          (set_cpu_data temp (-10) freq fan_rpm power HidDevice.__init__)).1
       = Ok q /\ q !! 13%nat = Some 0).
Proof.
  assert (Hex : forall temp usage freq fan_rpm power now,
            valid_clock now ->
            exists p q,
              (_build_gamdias_packet now
                 (set_cpu_data temp usage freq fan_rpm power
                    HidDevice.__init__)).1 = Ok p /\
              p !! 6%nat = Some (Z.min 100 (Z.max 0 usage)) /\
              (_build_hwcx_packet now
                 (set_cpu_data temp usage freq fan_rpm power
                    HidDevice.__init__)).1 = Ok q /\
              q !! 13%nat = Some (Z.min 100 (Z.max 0 usage))).
  { intros temp usage freq fan_rpm power now Hnow.
    pose proof (set_cpu_data_clamped temp usage freq fan_rpm power
                  HidDevice.__init__ init_clamped) as Hc.
    rewrite _build_gamdias_packet_eq, _build_hwcx_packet_eq.
    rewrite clamped_gamdias_stores_ok, clamped_hwcx_stores_ok;
      [ | assumption | cbn; lia | assumption | assumption | assumption ].
    eexists _, _. repeat split; reflexivity. }
  repeat split.
  - intros temp usage freq fan_rpm power self now p
      [_ ->]%build_gamdias_inv. reflexivity.
  - intros temp usage freq fan_rpm power self now p
      [_ ->]%build_hwcx_inv. reflexivity.
  - intros temp freq fan_rpm power now Hnow.
    exact (Hex temp 150 freq fan_rpm power now Hnow).
  - intros temp freq fan_rpm power now Hnow.
    exact (Hex temp (-10) freq fan_rpm power now Hnow).
Qed.

(** *** C8 *)

(** Case analysis on the index of a 65-byte buffer. *)
Ltac each_index i :=
  do 65 (destruct i as [ | i ]; [ first [ reflexivity | lia ] | ]);
  first [ reflexivity | lia ].

Lemma gamdias_layout_clock d now1 now2 (i : nat) :
  i <> 19%nat -> i <> 20%nat -> i <> 21%nat ->
  gamdias_layout d now1 !! i = gamdias_layout d now2 !! i.
Proof. intros. unfold gamdias_layout. cbn. each_index i. Qed.

Lemma hwcx_layout_clock d now1 now2 (i : nat) :
  ~ (4 <= i <= 6)%nat -> ~ (8 <= i <= 12)%nat ->
  hwcx_layout d now1 !! i = hwcx_layout d now2 !! i.
Proof. intros. unfold hwcx_layout. cbn. each_index i. Qed.

Lemma gamdias_layout_length d now : length (gamdias_layout d now) = 65%nat.
Proof. reflexivity. Qed.

Lemma hwcx_layout_length d now : length (hwcx_layout d now) = 65%nat.
Proof. reflexivity. Qed.

(** C8. Two runs of a packet builder on objects whose snapshots are equal,
    at two clock readings. When the values the builder stores without a mask
    are bytes at both readings (as they are for every snapshot within the
    setters' bounds, a display mode that is a byte and a valid clock), both
    runs return a packet: the two packets have 65 bytes and agree on every
    byte outside the wall-clock fields (Family A bytes 19-21; Family B bytes
    4-6 and 8-12), and those fields hold the clock of their own run: hour,
    minute, second, and for Family B the year (big-endian), month, day and
    weekday. Whatever packets two runs return are related in that way. At one
    clock reading the two runs give the same outcome altogether, a raised
    [ValueError] included. *)
Theorem C8_encoding_deterministic (self1 self2 : HidDevice.t)
    (now1 now2 : datetime) :
  _sensor_data self1 = _sensor_data self2 ->
  (gamdias_stores_ok (_sensor_data self1) now1 = true ->
   gamdias_stores_ok (_sensor_data self2) now2 = true ->
   exists p1 p2,
     (_build_gamdias_packet now1 self1).1 = Ok p1 /\
     (_build_gamdias_packet now2 self2).1 = Ok p2 /\
     length p1 = 65%nat /\ length p2 = 65%nat /\
     (forall i : nat, i <> 19%nat -> i <> 20%nat -> i <> 21%nat ->
                      p1 !! i = p2 !! i) /\
     p1 !! 19%nat = Some (hour now1) /\ p1 !! 20%nat = Some (minute now1) /\
     p1 !! 21%nat = Some (second now1) /\
     p2 !! 19%nat = Some (hour now2) /\ p2 !! 20%nat = Some (minute now2) /\
     p2 !! 21%nat = Some (second now2)) /\
  (hwcx_stores_ok (_sensor_data self1) now1 = true ->
   hwcx_stores_ok (_sensor_data self2) now2 = true ->
   exists p1 p2,
     (_build_hwcx_packet now1 self1).1 = Ok p1 /\
     (_build_hwcx_packet now2 self2).1 = Ok p2 /\
     length p1 = 65%nat /\ length p2 = 65%nat /\
     (forall i : nat, ~ (4 <= i <= 6)%nat -> ~ (8 <= i <= 12)%nat ->
                      p1 !! i = p2 !! i) /\
     p1 !! 4%nat = Some (hour now1) /\ p1 !! 5%nat = Some (minute now1) /\
     p1 !! 6%nat = Some (second now1) /\
     (0 <= year now1 <= 65535 -> be16 p1 8 = Some (year now1)) /\
     p1 !! 10%nat = Some (month now1) /\ p1 !! 11%nat = Some (day now1) /\
     p1 !! 12%nat = Some (weekday now1) /\
     p2 !! 4%nat = Some (hour now2) /\ p2 !! 5%nat = Some (minute now2) /\
     p2 !! 6%nat = Some (second now2) /\
     (0 <= year now2 <= 65535 -> be16 p2 8 = Some (year now2)) /\
     p2 !! 10%nat = Some (month now2) /\ p2 !! 11%nat = Some (day now2) /\
     p2 !! 12%nat = Some (weekday now2)) /\
  (forall p1 p2,
     (_build_gamdias_packet now1 self1).1 = Ok p1 ->
     (_build_gamdias_packet now2 self2).1 = Ok p2 ->
     length p1 = 65%nat /\ length p2 = 65%nat /\
     (forall i : nat, i <> 19%nat -> i <> 20%nat -> i <> 21%nat ->
                      p1 !! i = p2 !! i) /\
     p1 !! 19%nat = Some (hour now1) /\ p1 !! 20%nat = Some (minute now1) /\
     p1 !! 21%nat = Some (second now1)) /\
  (forall p1 p2,
     (_build_hwcx_packet now1 self1).1 = Ok p1 ->
     (_build_hwcx_packet now2 self2).1 = Ok p2 ->
     length p1 = 65%nat /\ length p2 = 65%nat /\
     (forall i : nat, ~ (4 <= i <= 6)%nat -> ~ (8 <= i <= 12)%nat ->
                      p1 !! i = p2 !! i) /\
     p1 !! 4%nat = Some (hour now1) /\ p1 !! 5%nat = Some (minute now1) /\
     p1 !! 6%nat = Some (second now1) /\
     (0 <= year now1 <= 65535 -> be16 p1 8 = Some (year now1)) /\
     p1 !! 10%nat = Some (month now1) /\ p1 !! 11%nat = Some (day now1) /\
     p1 !! 12%nat = Some (weekday now1)) /\
  (now1 = now2 ->
   (_build_gamdias_packet now1 self1).1 = (_build_gamdias_packet now2 self2).1
   /\ (_build_hwcx_packet now1 self1).1 = (_build_hwcx_packet now2 self2).1).
Proof.
  intros Hd.
  assert (Hyear : forall d now, 0 <= year now <= 65535 ->
                    be16 (hwcx_layout d now) 8 = Some (year now)).
  { intros d now Hy. unfold be16, hwcx_layout. cbn. f_equal.
    apply be16_split, Hy. }
  refine (conj _ (conj _ (conj _ (conj _ _)))).
  - intros Hok1 Hok2. rewrite !_build_gamdias_packet_eq, Hok1, Hok2. cbn [fst].
    eexists _, _. split; [ reflexivity | ]. split; [ reflexivity | ].
    rewrite Hd. repeat apply conj; try reflexivity.
    apply gamdias_layout_clock.
  - intros Hok1 Hok2. rewrite !_build_hwcx_packet_eq, Hok1, Hok2. cbn [fst].
    eexists _, _. split; [ reflexivity | ]. split; [ reflexivity | ].
    rewrite Hd. repeat apply conj; try reflexivity;
      first [ apply hwcx_layout_clock | apply Hyear ].
  - intros p1 p2 [_ ->]%build_gamdias_inv [_ ->]%build_gamdias_inv.
    rewrite Hd. repeat apply conj; try reflexivity.
    apply gamdias_layout_clock.
  - intros p1 p2 [_ ->]%build_hwcx_inv [_ ->]%build_hwcx_inv.
    rewrite Hd. repeat apply conj; try reflexivity;
      first [ apply hwcx_layout_clock | apply Hyear ].
  - intros ->. split.
    + rewrite !_build_gamdias_packet_eq. cbn. rewrite Hd. reflexivity.
    + rewrite !_build_hwcx_packet_eq. cbn. rewrite Hd. reflexivity.
Qed.

(** Two objects that differ in their device tables and share the snapshot of
    the self-test, encoded one second apart: each builder returns two
    packets that differ in the byte of the seconds only. *)
Lemma C8_encoding_deterministic_witness :
  let self1 := set_cpu_data 45 25 3500 0 0 HidDevice.__init__ in
  let self2 :=
    add_device "/dev/hidraw0" 3
      {| DeviceInfo.path := "/dev/hidraw0"; DeviceInfo.vendor_id := 0x1B80;
         DeviceInfo.product_id := 0xB538; DeviceInfo.name := "GAMDIAS ATLAS";
         DeviceInfo.is_gamdias := true |} self1 in
  let now1 := example_clock in
  let now2 := {| year := 2026; month := 11; day := 3; hour := 12;
                 minute := 34; second := 57; weekday := 1 |} in
  (exists p1 p2,
     (_build_gamdias_packet now1 self1).1 = Ok p1 /\
     (_build_gamdias_packet now2 self2).1 = Ok p2 /\
     length p1 = 65%nat /\ length p2 = 65%nat /\
     (forall i : nat, i <> 19%nat -> i <> 20%nat -> i <> 21%nat ->
                      p1 !! i = p2 !! i) /\
     p1 !! 21%nat = Some 56 /\ p2 !! 21%nat = Some 57) /\
  (exists q1 q2,
     (_build_hwcx_packet now1 self1).1 = Ok q1 /\
     (_build_hwcx_packet now2 self2).1 = Ok q2 /\
     length q1 = 65%nat /\ length q2 = 65%nat /\
     (forall i : nat, ~ (4 <= i <= 6)%nat -> ~ (8 <= i <= 12)%nat ->
                      q1 !! i = q2 !! i) /\
     q1 !! 6%nat = Some 56 /\ q2 !! 6%nat = Some 57 /\
     be16 q1 8 = Some 2026 /\ be16 q2 8 = Some 2026).
Proof.
  intros self1 self2 now1 now2.
  destruct (C8_encoding_deterministic self1 self2 now1 now2 eq_refl)
    as (Ha & Hb & _). split.
  - destruct (Ha eq_refl eq_refl)
      as (p1 & p2 & H1 & H2 & Hl1 & Hl2 & Hi & _ & _ & Hs1 & _ & _ & Hs2).
    exists p1, p2. repeat split; assumption.
  - destruct (Hb eq_refl eq_refl)
      as (q1 & q2 & H1 & H2 & Hl1 & Hl2 & Hi & _ & _ & Hs1 & Hy1 & _ & _ & _
          & _ & _ & Hs2 & Hy2 & _).
    exists q1, q2.
    refine (conj H1 (conj H2 (conj Hl1 (conj Hl2 (conj Hi (conj Hs1
              (conj Hs2 (conj _ _)))))))).
    + apply Hy1. cbn. lia.
    + apply Hy2. cbn. lia.
Defined.

(** *** C9 *)

(** C9. A packet builder returns the object it was called on, whether it
    returns a packet or raises; the packet has 65 bytes, and every byte the
    layout does not assign (Family A: 26-64; Family B: 37-40 and 50-64) is
    zero. Building again on the object the first call left gives the same
    outcome: nothing of the first buffer is carried over. *)
Theorem C9_builders_do_not_mutate (self : HidDevice.t) (now : datetime) :
  (_build_gamdias_packet now self).2 = self /\
  (_build_hwcx_packet now self).2 = self /\
  (forall p, (_build_gamdias_packet now self).1 = Ok p ->
     length p = 65%nat /\
     forall i : nat, (26 <= i < 65)%nat -> p !! i = Some 0) /\
  (forall p, (_build_hwcx_packet now self).1 = Ok p ->
     length p = 65%nat /\
     forall i : nat, (37 <= i < 41 \/ 50 <= i < 65)%nat -> p !! i = Some 0) /\
  _build_gamdias_packet now (_build_gamdias_packet now self).2
  = _build_gamdias_packet now self /\
  _build_hwcx_packet now (_build_hwcx_packet now self).2
  = _build_hwcx_packet now self.
Proof.
  repeat apply conj.
  - rewrite _build_gamdias_packet_eq. reflexivity.
  - rewrite _build_hwcx_packet_eq. reflexivity.
  - intros p [_ ->]%build_gamdias_inv. split; [ reflexivity | ].
    intros i Hi. unfold gamdias_layout. cbn. each_index i.
  - intros p [_ ->]%build_hwcx_inv. split; [ reflexivity | ].
    intros i Hi. unfold hwcx_layout. cbn. each_index i.
  - rewrite !_build_gamdias_packet_eq. reflexivity.
  - rewrite !_build_hwcx_packet_eq. reflexivity.
Qed.

(** *** C2 *)

(** The four clamping setters keep the twelve fields they write within their
    bounds, whatever the sequence of calls. *)
Lemma calls_clamped cs self :
  clamped (_sensor_data self) -> clamped (_sensor_data (calls cs self)).
Proof.
  unfold calls. revert self.
  induction cs as [ | c cs IH ]; intros self Hc; [ exact Hc | ].
  cbn. apply IH. destruct c; cbn [call];
    auto using set_cpu_data_clamped, set_gpu_data_clamped,
      set_memory_data_clamped, set_disk_data_clamped,
      set_network_speed_clamped, set_display_mode_clamped.
Qed.

(** A sequence that never calls [set_network_speed] or [set_display_mode], as
    the update cycle of [lk_display.py], keeps every field in wire range. *)
Lemma calls_wire_range cs self :
  Forall (fun c => match c with
                   | call_set_network_speed _ _ | call_set_display_mode _ =>
                       False
                   | _ => True
                   end) cs ->
  wire_range (_sensor_data self) -> wire_range (_sensor_data (calls cs self)).
Proof.
  unfold calls. intros Hcs. revert self.
  induction Hcs as [ | c cs Hc Hcs IH ]; intros self Hw; [ exact Hw | ].
  cbn. apply IH. destruct Hw as (Hcl & Hnet).
  destruct c; try contradiction; (split; [ | exact Hnet ]); cbn [call];
    auto using set_cpu_data_clamped, set_gpu_data_clamped,
      set_memory_data_clamped, set_disk_data_clamped.
Qed.

(** C2, where the code departs from the claim. [set_network_speed] stores
    its arguments unclamped: after [set_network_speed(4294967296, -1)] on a
    fresh object the two rates are outside the 32-bit range, and
    [_build_hwcx_packet] splits them by masking, so bytes 41-44 read 0 and
    bytes 45-48 read 4294967295. [set_display_mode] does not clamp either:
    after [set_display_mode(256)] the builder raises [ValueError]. *)
Theorem C2_network_speed_not_clamped :
  let self := calls [call_set_network_speed 4294967296 (-1)] HidDevice.__init__ in
  net_upload (_sensor_data self) = 4294967296 /\
  net_download (_sensor_data self) = -1 /\
  ~ wire_range (_sensor_data self) /\
  (exists p, (_build_hwcx_packet example_clock self).1 = Ok p /\
             be32 p 41 = Some 0 /\ be32 p 45 = Some 4294967295) /\
  (_build_hwcx_packet example_clock
     (calls [call_set_display_mode 256] HidDevice.__init__)).1
  = Raise ValueError.
Proof.
  cbn zeta. repeat apply conj; try reflexivity.
  - unfold wire_range. cbn. lia.
  - eexists. repeat apply conj; reflexivity.
Qed.

(** ** The CPU usage tracker *)

Lemma flt_fle a b : flt a b = true -> fle a b = true.
Proof.
  unfold flt, fle, SFltb, SFleb.
  destruct (SFcompare a b) as [ [ | | ] | ]; congruence.
Qed.

(** [max(0.0, min(100.0, usage))] lies in [0.0, 100.0], whatever [usage] is
    (an infinity or a NaN included). *)
Lemma clamp_percent_range usage :
  fle f0 (clamp_percent usage) = true /\ fle (clamp_percent usage) f100 = true.
Proof.
  unfold clamp_percent, fmin, fmax.
  destruct (flt usage f100) eqn:Hhi.
  - destruct (flt f0 usage) eqn:Hlo.
    + split; apply flt_fle; assumption.
    + split; reflexivity.
  - split; reflexivity.
Qed.

Lemma f0_range : fle f0 f0 = true /\ fle f0 f100 = true.
Proof. split; reflexivity. Qed.

(** [get_usage] in closed form. *)
Lemma get_usage_eq stat self :
  get_usage stat self =
  match counters stat with
  | Raise _ => (Ok f0, self)
  | Ok (idle, total) =>
      if _initialized self then
        if total - _last_total self <=? 0 then (Ok f0, primed idle total)
        else
          match int_true_div (idle - _last_idle self)
                             (total - _last_total self) with
          | Ok quotient =>
              (Ok (clamp_percent (fmul f100 (fsub f1 quotient))),
               primed idle total)
          | Raise _ => (Ok f0, primed idle total)
          end
      else (Ok f0, primed idle total)
  end.
Proof.
  unfold counters, clamp_percent, primed.
  cbv beta iota delta [get_usage try_except bind read_parts lift ret gets
    modify].
  destruct stat as [ content | e ]; [ | reflexivity ].
  destruct (idle_of _) as [ idle | e ]; [ | reflexivity ].
  destruct (total_of _) as [ total | e ]; [ | reflexivity ].
  destruct self as [ last_idle last_total [ | ] ]; cbn [negb _initialized
    _last_idle _last_total set_last_idle set_last_total set_initialized];
    [ | reflexivity ].
  destruct (total - last_total <=? 0); [ reflexivity | ].
  destruct (int_true_div _ _); reflexivity.
Qed.

(** [CpuUsageTracker()] in closed form: primed when the read parses; not
    initialized otherwise. *)
Lemma tracker_init_eq stat :
  match counters stat with
  | Ok (idle, total) => CpuUsageTracker.__init__ stat = primed idle total
  | Raise _ => _initialized (CpuUsageTracker.__init__ stat) = false
  end.
Proof.
  unfold counters, primed.
  cbv beta iota delta [CpuUsageTracker.__init__ _init_values try_except bind
    read_parts lift ret gets modify].
  destruct stat as [ content | e ]; [ | reflexivity ].
  destruct (idle_of _) as [ idle | e ]; [ | reflexivity ].
  destruct (total_of _) as [ total | e ]; reflexivity.
Qed.

(** *** Rounding: when [a / b] is a float *)

Section Rounding.

Lemma digits2_pos_size p : digits2_pos p = Pos.size p.
Proof. induction p; cbn; congruence. Qed.

Lemma Zdigits2_log2 m : 0 < m -> Zdigits2 m = Z.log2 m + 1.
Proof.
  destruct m as [ | p | p ]; try lia. intros _. cbn [Zdigits2].
  rewrite digits2_pos_size. destruct p; cbn; lia.
Qed.

Lemma Zdigits2_bound m j : 0 <= j -> 0 <= m < 2 ^ j -> Zdigits2 m <= j.
Proof.
  intros Hj [Hm Hlt]. destruct (Z.eq_dec m 0) as [ -> | Hne ]; [ exact Hj | ].
  rewrite Zdigits2_log2 by lia.
  assert (Z.log2 m < j) by (apply Z.log2_lt_pow2; lia). lia.
Qed.

Lemma Zdigits2_nonneg m : 0 <= Zdigits2 m.
Proof. destruct m; cbn; lia. Qed.

Lemma Zdigits2_gt m : 0 <= m -> m < 2 ^ Zdigits2 m.
Proof.
  intros Hm. destruct (Z.eq_dec m 0) as [ -> | Hne ]; [ reflexivity | ].
  rewrite Zdigits2_log2 by lia. apply Z.log2_spec. lia.
Qed.

Lemma shr_1_m mrs : 0 <= shr_m mrs -> shr_m (shr_1 mrs) = Z.div2 (shr_m mrs).
Proof.
  destruct mrs as [ m r s ]. cbn [shr_m]. intros Hm.
  destruct m as [ | [ p | p | ] | p ]; try lia; reflexivity.
Qed.

Lemma iter_shr_1_m p : forall mrs,
  0 <= shr_m mrs ->
  shr_m (SpecFloat.iter_pos shr_1 p mrs) = Z.shiftr (shr_m mrs) (Z.pos p).
Proof.
  induction p as [ p IH | p IH | ]; intros mrs Hm; cbn [SpecFloat.iter_pos].
  - assert (H1 : 0 <= shr_m (shr_1 mrs)).
    { rewrite shr_1_m by exact Hm. rewrite Z.div2_spec. apply Z.shiftr_nonneg, Hm. }
    rewrite IH.
    2: { rewrite IH by exact H1. apply Z.shiftr_nonneg, H1. }
    rewrite IH by exact H1. rewrite shr_1_m by exact Hm.
    rewrite Z.div2_spec, !Z.shiftr_shiftr by lia. f_equal. lia.
  - rewrite IH.
    2: { rewrite IH by exact Hm. apply Z.shiftr_nonneg, Hm. }
    rewrite IH by exact Hm. rewrite Z.shiftr_shiftr by lia. f_equal. lia.
  - rewrite shr_1_m by exact Hm. apply Z.div2_spec.
Qed.

Local Abbreviation fexp64 := (fexp 53 1024).

Lemma fexp64_eq x : fexp64 x = Z.max (x - 53) (-1074).
Proof. reflexivity. Qed.

Lemma shr_fexp_exponent m e l :
  snd (shr_fexp 53 1024 m e l) = Z.max e (fexp64 (Zdigits2 m + e)).
Proof.
  unfold shr_fexp, shr.
  destruct (fexp64 (Zdigits2 m + e) - e) as [ | p | p ] eqn:Hn; cbn [snd]; lia.
Qed.

Lemma shr_fexp_mantissa m e l :
  0 <= m ->
  shr_m (fst (shr_fexp 53 1024 m e l))
  = Z.shiftr m (Z.max 0 (fexp64 (Zdigits2 m + e) - e)).
Proof.
  intros Hm. unfold shr_fexp, shr.
  assert (Hrec : shr_m (shr_record_of_loc m l) = m)
    by (destruct l as [ | [ | | ] ]; reflexivity).
  destruct (fexp64 (Zdigits2 m + e) - e) as [ | p | p ] eqn:Hn; cbn [fst].
  - rewrite Hrec. reflexivity.
  - rewrite iter_shr_1_m by (rewrite Hrec; exact Hm). rewrite Hrec. reflexivity.
  - rewrite Hrec. reflexivity.
Qed.

Lemma round_nearest_even_bounds m l :
  m <= round_nearest_even m l <= m + 1.
Proof.
  unfold round_nearest_even. destruct l as [ | [ | | ] ]; try lia.
  destruct (Z.even m); lia.
Qed.

(** The shifted mantissa together with the new exponent carries no more
    digits than the mantissa and exponent before the shift. *)
Lemma shr_fexp_digits m e l :
  0 <= m ->
  let m1 := shr_m (fst (shr_fexp 53 1024 m e l)) in
  let e1 := snd (shr_fexp 53 1024 m e l) in
  0 <= m1 /\ (m1 = 0 \/ Zdigits2 m1 + e1 <= Zdigits2 m + e).
Proof.
  intros Hm m1 e1. subst m1 e1.
  rewrite shr_fexp_mantissa by exact Hm. rewrite shr_fexp_exponent.
  set (n := fexp64 (Zdigits2 m + e) - e).
  split; [ apply Z.shiftr_nonneg, Hm | ].
  destruct (Z.max_spec 0 n) as [ [Hn ->] | [Hn ->] ].
  - (* a shift by n > 0 *)
    destruct (Z.eq_dec (Z.shiftr m n) 0) as [ Hz | Hnz ]; [ left; exact Hz | ].
    right. replace (Z.max e (fexp64 (Zdigits2 m + e))) with (e + n) by lia.
    assert (Hlt : Z.shiftr m n < 2 ^ (Zdigits2 m - n)).
    { rewrite Z.shiftr_div_pow2 by lia.
      assert (Hd : n <= Zdigits2 m).
      { destruct (Z.le_gt_cases n (Zdigits2 m)) as [ ? | Hgt ]; [ assumption | ].
        exfalso. apply Hnz. rewrite Z.shiftr_div_pow2 by lia.
        apply Z.div_small. split; [ exact Hm | ].
        apply Z.lt_le_trans with (2 ^ Zdigits2 m); [ apply Zdigits2_gt, Hm | ].
        apply Z.pow_le_mono_r; lia. }
      apply Z.div_lt_upper_bound; [ apply Z.pow_pos_nonneg; lia | ].
      rewrite <- Z.pow_add_r by lia. replace (n + (Zdigits2 m - n)) with (Zdigits2 m) by lia.
      apply Zdigits2_gt, Hm. }
    assert (Hd : 0 <= Zdigits2 m - n).
    { destruct (Z.le_gt_cases 0 (Zdigits2 m - n)) as [ ? | Hneg ]; [ assumption | ].
      rewrite Z.pow_neg_r in Hlt by lia.
      pose proof (Z.shiftr_nonneg m n) as Hs. lia. }
    pose proof (Zdigits2_bound (Z.shiftr m n) (Zdigits2 m - n) Hd) as Hb.
    pose proof (Z.shiftr_nonneg m n) as Hs. lia.
  - (* no shift *)
    rewrite Z.shiftr_0_r. right. lia.
Qed.

Lemma Zdigits2_succ m : 0 <= m -> Zdigits2 (m + 1) <= Zdigits2 m + 1.
Proof.
  intros Hm. apply Zdigits2_bound; [ pose proof (Zdigits2_nonneg m); lia | ].
  split; [ lia | ].
  pose proof (Zdigits2_gt m Hm) as Hlt.
  rewrite Z.pow_add_r by (pose proof (Zdigits2_nonneg m); lia). lia.
Qed.

Lemma Zdigits2_mono m n : 0 <= m <= n -> Zdigits2 m <= Zdigits2 n.
Proof.
  intros [Hm Hmn]. apply Zdigits2_bound; [ apply Zdigits2_nonneg | ].
  split; [ exact Hm | ]. pose proof (Zdigits2_gt n). lia.
Qed.

(** A value whose digits and exponent stay under the largest [float] rounds
    to a finite [float] or to zero. *)
Lemma binary_round_aux_finite sx mx ex lx :
  0 <= mx -> Zdigits2 mx + ex <= 1022 -> ex <= 970 ->
  forall s, binary_round_aux 53 1024 sx mx ex lx <> S754_infinity s.
Proof.
  intros Hmx Hdig Hex s. unfold binary_round_aux.
  pose proof (shr_fexp_digits mx ex lx Hmx) as H1. cbn zeta in H1.
  pose proof (shr_fexp_exponent mx ex lx) as He1.
  destruct (shr_fexp 53 1024 mx ex lx) as [ mrs1 e1 ]. cbn [fst snd] in *.
  destruct H1 as [Hm1 Hd1].
  set (m2 := round_nearest_even (shr_m mrs1) (loc_of_shr_record mrs1)).
  pose proof (round_nearest_even_bounds (shr_m mrs1) (loc_of_shr_record mrs1))
    as Hm2. fold m2 in Hm2.
  pose proof (shr_fexp_exponent m2 e1 loc_Exact) as He2.
  destruct (shr_fexp 53 1024 m2 e1 loc_Exact) as [ mrs2 e2 ]. cbn [fst snd] in *.
  assert (He1' : e1 <= 970).
  { rewrite He1, fexp64_eq. lia. }
  assert (Hd2 : Zdigits2 m2 + e1 <= 1023).
  { assert (Zdigits2 m2 <= Zdigits2 (shr_m mrs1 + 1))
      by (apply Zdigits2_mono; lia).
    pose proof (Zdigits2_succ (shr_m mrs1) Hm1).
    destruct Hd1 as [ Hz | Hd1 ]; [ rewrite Hz in *; cbn in *; lia | lia ]. }
  assert (He2' : e2 <= 971).
  { rewrite He2, fexp64_eq. lia. }
  destruct (shr_m mrs2); try discriminate.
  destruct (Z.leb_spec e2 (1024 - 53)); [ discriminate | lia ].
Qed.

(** The quotient of two [int]s is a [float] when the dividend is no larger
    in magnitude than the (positive) divisor. *)
Lemma int_true_div_finite a b :
  0 < b -> Z.abs a <= b -> exists q, int_true_div a b = Ok q.
Proof.
  intros Hb Hab. unfold int_true_div.
  destruct (Z.eqb_spec b 0) as [ | _ ]; [ lia | ].
  destruct (Z.eqb_spec a 0) as [ | Ha ]; [ eauto | ].
  rewrite (Z.abs_eq b) by lia.
  set (k := 64 + Z.log2 b).
  set (q := Z.abs a * 2 ^ k / b).
  set (loc := if _ =? 0 then _ else _).
  assert (Hk : 0 <= k) by (pose proof (Z.log2_nonneg b); lia).
  assert (Hq : 0 <= q <= 2 ^ k).
  { unfold q. split.
    - apply Z.div_pos; [ | lia ]. apply Z.mul_nonneg_nonneg; [ lia | ].
      apply Z.pow_nonneg. lia.
    - apply Z.div_le_upper_bound; [ lia | ].
      apply Z.mul_le_mono_nonneg_r; [ apply Z.pow_nonneg; lia | lia ]. }
  assert (Hd : Zdigits2 q <= k + 1).
  { apply Zdigits2_bound; [ lia | ]. rewrite Z.pow_add_r by lia. lia. }
  pose proof (binary_round_aux_finite (xorb (a <? 0) (b <? 0)) q (- k) loc)
    as Hfin.
  destruct (binary_round_aux prec emax _ q (- k) loc) eqn:Hr; eauto.
  exfalso. unfold prec, emax in Hr.
  apply (Hfin ltac:(lia) ltac:(lia) ltac:(lia) s). exact Hr.
Qed.

(** The quotient of two [int]s is a [float] when the dividend is below
    [2^999] in magnitude and the divisor is positive. *)
Lemma int_true_div_bounded a b :
  0 < b -> Z.abs a < 2 ^ 999 -> exists q, int_true_div a b = Ok q.
Proof.
  intros Hb Hab. unfold int_true_div.
  destruct (Z.eqb_spec b 0) as [ | _ ]; [ lia | ].
  destruct (Z.eqb_spec a 0) as [ | Ha ]; [ eauto | ].
  rewrite (Z.abs_eq b) by lia.
  set (k := 64 + Z.log2 b).
  set (q := Z.abs a * 2 ^ k / b).
  set (loc := if _ =? 0 then _ else _).
  assert (Hk : 0 <= k) by (pose proof (Z.log2_nonneg b); lia).
  assert (Hpk : 0 < 2 ^ k) by (apply Z.pow_pos_nonneg; lia).
  assert (Hq : 0 <= q < 2 ^ (999 + k)).
  { unfold q. split.
    - apply Z.div_pos; [ | lia ]. apply Z.mul_nonneg_nonneg; lia.
    - apply Z.le_lt_trans with (Z.abs a * 2 ^ k).
      + apply Z.div_le_upper_bound; [ lia | ].
        assert (0 <= Z.abs a * 2 ^ k) by (apply Z.mul_nonneg_nonneg; lia).
        nia.
      + rewrite Z.pow_add_r by lia. apply Z.mul_lt_mono_pos_r; assumption. }
  assert (Hd : Zdigits2 q <= 999 + k) by (apply Zdigits2_bound; lia).
  pose proof (binary_round_aux_finite (xorb (a <? 0) (b <? 0)) q (- k) loc)
    as Hfin.
  destruct (binary_round_aux prec emax _ q (- k) loc) eqn:Hr; eauto.
  exfalso. unfold prec, emax in Hr.
  apply (Hfin ltac:(lia) ltac:(lia) ltac:(lia) s). exact Hr.
Qed.

End Rounding.

Lemma counters_examples :
  counters (Ok stat_100_1000) = Ok (100, 1000) /\
  counters (Ok stat_150_1200) = Ok (150, 1200) /\
  counters (Ok stat_huge) = Ok (0, 10 ^ 309 + 1).
Proof. repeat split; vm_compute; reflexivity. Qed.

(** *** C4 *)

(** Beyond what [/proc/stat] can hold the quotient may leave the range of
    [float]. The tracker was constructed on a content with idle [10^309] and
    total [10^309]; the next read parses to idle 0 and total [10^309 + 1].
    Then [total_delta = 1 > 0] and [idle_delta = -10^309]: the division of the
    two [int]s raises [OverflowError], the handler catches it, and the call
    returns 0.0. *)
Lemma get_usage_beyond_float_range :
  tracker_huge = primed (10 ^ 309) (10 ^ 309) /\
  counters (Ok stat_huge) = Ok (0, 10 ^ 309 + 1) /\
  int_true_div (- 10 ^ 309) 1 = Raise OverflowError /\
  (get_usage (Ok stat_huge) tracker_huge).1 = Ok f0.
Proof.
  split; [ vm_compute; reflexivity | ].
  split; [ apply counters_examples | ].
  split; vm_compute; reflexivity.
Qed.

(** C4. For an initialized tracker holding a valid pair of counters and a
    read that parses to a valid pair [(idle, total)]: if [total_delta > 0]
    the quotient [idle_delta / total_delta] of the two [int]s is a [float],
    the call returns
    [max(0.0, min(100.0, 100.0 * (1.0 - idle_delta / total_delta)))], and
    that value lies in [0.0, 100.0]; if [total_delta <= 0] the call returns
    exactly 0.0. Either way the tracker then holds [(idle, total)]. Reads of
    (100, 1000) and then (150, 1200) make the second call return 75.0, from
    whatever state the tracker started. *)
Theorem C4_usage_from_deltas :
  (forall self stat idle total,
     _initialized self = true ->
     counters stat = Ok (idle, total) ->
     valid_counters (_last_idle self) (_last_total self) ->
     valid_counters idle total ->
     let idle_delta := idle - _last_idle self in
     let total_delta := total - _last_total self in
     (get_usage stat self).2 = primed idle total /\
     (total_delta > 0 ->
      exists quotient,
        int_true_div idle_delta total_delta = Ok quotient /\
        (get_usage stat self).1
        = Ok (fmax f0 (fmin f100 (fmul f100 (fsub f1 quotient)))) /\
        fle f0 (fmax f0 (fmin f100 (fmul f100 (fsub f1 quotient)))) = true /\
        fle (fmax f0 (fmin f100 (fmul f100 (fsub f1 quotient)))) f100 = true) /\
     (total_delta <= 0 -> (get_usage stat self).1 = Ok f0)) /\
  (forall self stat1 stat2,
     counters stat1 = Ok (100, 1000) ->
     counters stat2 = Ok (150, 1200) ->
     (get_usage stat2 (get_usage stat1 self).2).1 = Ok f75) /\
  (forall self,
     (get_usage (Ok stat_150_1200)
        (get_usage (Ok stat_100_1000) self).2).1 = Ok f75).
Proof.
  assert (Hex : forall self stat1 stat2,
            counters stat1 = Ok (100, 1000) ->
            counters stat2 = Ok (150, 1200) ->
            (get_usage stat2 (get_usage stat1 self).2).1 = Ok f75).
  { intros self stat1 stat2 H1 H2.
    assert (Hs : (get_usage stat1 self).2 = primed 100 1000).
    { rewrite get_usage_eq, H1.
      destruct (_initialized self); [ | reflexivity ].
      destruct (_ <=? 0); [ reflexivity | ].
      destruct (int_true_div _ _); reflexivity. }
    rewrite Hs, get_usage_eq, H2. vm_compute. reflexivity. }
  repeat apply conj.
  - intros self stat idle total Hinit Hparse [Hlast _] [Hidle _]
      idle_delta total_delta.
    subst idle_delta total_delta.
    rewrite get_usage_eq, Hparse, Hinit.
    destruct (Z.leb_spec (total - _last_total self) 0) as [ Hle | Hgt ].
    + repeat apply conj; [ reflexivity | lia | reflexivity ].
    + destruct (int_true_div_bounded (idle - _last_idle self)
                  (total - _last_total self) Hgt ltac:(lia))
        as [quotient Hq].
      rewrite Hq. repeat apply conj; [ reflexivity | | lia ].
      intros _. exists quotient. split; [ reflexivity | ].
      split; [ reflexivity | apply clamp_percent_range ].
  - exact Hex.
  - intros self. apply Hex; apply counters_examples.
Qed.

(** Between the two reads of the scenario the counters advance by (50, 200):
    the quotient is 0.25 and the call returns 75.0. *)
Lemma C4_usage_from_deltas_witness :
  exists quotient,
    int_true_div (150 - 100) (1200 - 1000) = Ok quotient /\
    (get_usage (Ok stat_150_1200) (primed 100 1000)).1
    = Ok (fmax f0 (fmin f100 (fmul f100 (fsub f1 quotient)))) /\
    fmax f0 (fmin f100 (fmul f100 (fsub f1 quotient))) = f75.
Proof.
  destruct (proj1 C4_usage_from_deltas (primed 100 1000) (Ok stat_150_1200)
              150 1200 eq_refl (proj1 (proj2 counters_examples)))
    as (_ & Hpos & _).
  - unfold valid_counters. cbn [_last_idle _last_total primed]. lia.
  - unfold valid_counters. lia.
  - destruct (Hpos ltac:(cbn; lia)) as (quotient & Hq & Hv & _).
    exists quotient. split; [ exact Hq | ]. split; [ exact Hv | ].
    cbn [_last_idle _last_total primed] in Hq.
    assert (Hq' : int_true_div (150 - 100) (1200 - 1000)
                  = Ok (S754_finite false 4503599627370496 (-54)))
      by (vm_compute; reflexivity).
    rewrite Hq' in Hq. injection Hq as <-. vm_compute. reflexivity.
Defined.

(** *** C5 *)

(** C5 as stated fails: the constructor has already read the counters. With
    [/proc/stat] at (100, 1000) when the tracker is built and at (150, 1200)
    at the first call, that call returns 75.0. *)
Lemma C5_counterexample_first_call :
  (get_usage (Ok stat_150_1200)
     (CpuUsageTracker.__init__ (Ok stat_100_1000))).1 = Ok f75 /\
  (get_usage (Ok stat_150_1200)
     (CpuUsageTracker.__init__ (Ok stat_100_1000))).1 <> Ok f0.
Proof.
  assert (H : (get_usage (Ok stat_150_1200)
                 (CpuUsageTracker.__init__ (Ok stat_100_1000))).1 = Ok f75)
    by (vm_compute; reflexivity).
  split; [ exact H | ]. rewrite H. discriminate.
Qed.

(** C5, amended. [stat0] is [/proc/stat] when the tracker is constructed,
    [stat1] at the first call of [get_usage]. That call returns 0.0 when the
    constructor's read did not parse (the tracker is then not initialized),
    when the read of the call does not parse, when the content is the same
    at both times, and more generally when the total has not advanced. When
    both reads parse to valid counters and the total has advanced, the
    quotient of the two deltas is a [float] and the first call returns the
    clamped usage over the time since construction, as any later call
    does. *)
Theorem C5_first_call_after_construction :
  (forall stat0 stat1 e,
     counters stat0 = Raise e ->
     _initialized (CpuUsageTracker.__init__ stat0) = false /\
     (get_usage stat1 (CpuUsageTracker.__init__ stat0)).1 = Ok f0) /\
  (forall stat0 stat1 e,
     counters stat1 = Raise e ->
     (get_usage stat1 (CpuUsageTracker.__init__ stat0)).1 = Ok f0) /\
  (forall stat,
     (get_usage stat (CpuUsageTracker.__init__ stat)).1 = Ok f0) /\
  (forall stat0 stat1 idle0 total0 idle1 total1,
     counters stat0 = Ok (idle0, total0) ->
     counters stat1 = Ok (idle1, total1) ->
     (total1 - total0 <= 0 ->
      (get_usage stat1 (CpuUsageTracker.__init__ stat0)).1 = Ok f0) /\
     (total1 - total0 > 0 ->
      valid_counters idle0 total0 -> valid_counters idle1 total1 ->
      exists quotient,
        int_true_div (idle1 - idle0) (total1 - total0) = Ok quotient /\
        (get_usage stat1 (CpuUsageTracker.__init__ stat0)).1
        = Ok (fmax f0 (fmin f100 (fmul f100 (fsub f1 quotient)))))).
Proof.
  repeat apply conj.
  - intros stat0 stat1 e H0.
    pose proof (tracker_init_eq stat0) as Hinit. rewrite H0 in Hinit.
    split; [ exact Hinit | ].
    rewrite get_usage_eq, Hinit.
    destruct (counters stat1) as [ [idle total] | e' ]; reflexivity.
  - intros stat0 stat1 e H1. rewrite get_usage_eq, H1. reflexivity.
  - intros stat. pose proof (tracker_init_eq stat) as Hinit.
    rewrite get_usage_eq.
    destruct (counters stat) as [ [idle total] | e ]; [ | reflexivity ].
    rewrite Hinit. cbn. rewrite Z.sub_diag. reflexivity.
  - intros stat0 stat1 idle0 total0 idle1 total1 H0 H1.
    pose proof (tracker_init_eq stat0) as Hinit. rewrite H0 in Hinit.
    rewrite get_usage_eq, H1, Hinit. cbn [primed _initialized _last_idle
      _last_total].
    destruct (Z.leb_spec (total1 - total0) 0) as [ Hle | Hgt ].
    + split; [ reflexivity | lia ].
    + split; [ lia | ]. intros _ [Hidle0 _] [Hidle1 _].
      destruct (int_true_div_bounded (idle1 - idle0) (total1 - total0)
                  ltac:(lia) ltac:(lia)) as [quotient Hq].
      exists quotient. split; [ exact Hq | ]. rewrite Hq. reflexivity.
Qed.

(** *** C10 *)

(** C10. For every tracker state and every result of opening and reading
    [/proc/stat] (the file missing, empty, malformed, with non-numeric or too
    few fields, or well formed), [get_usage] returns a value, raises nothing,
    and the value lies in [0.0, 100.0]. When the read does not parse the value
    is 0.0 and the tracker is left as it was. *)
Theorem C10_get_usage_total_and_bounded :
  (forall self stat,
     exists v self',
       get_usage stat self = (Ok v, self') /\
       fle f0 v = true /\ fle v f100 = true) /\
  (forall self stat e,
     counters stat = Raise e -> get_usage stat self = (Ok f0, self)) /\
  (forall self e, get_usage (Raise e) self = (Ok f0, self)) /\
  (forall self, get_usage (Ok "") self = (Ok f0, self)) /\
  (forall self, get_usage (Ok "cpu 1 2 3 4") self = (Ok f0, self)) /\
  (forall self, get_usage (Ok "cpu a b c d e f g h i j") self = (Ok f0, self)).
Proof.
  assert (Hfail : forall self stat e,
            counters stat = Raise e -> get_usage stat self = (Ok f0, self)).
  { intros self stat e H. rewrite get_usage_eq, H. reflexivity. }
  repeat apply conj.
  - intros self stat. rewrite get_usage_eq.
    destruct (counters stat) as [ [idle total] | e ].
    + destruct (_initialized self).
      * destruct (_ <=? 0).
        -- eexists _, _. split; [ reflexivity | apply f0_range ].
        -- destruct (int_true_div _ _).
           ++ eexists _, _. split; [ reflexivity | apply clamp_percent_range ].
           ++ eexists _, _. split; [ reflexivity | apply f0_range ].
      * eexists _, _. split; [ reflexivity | apply f0_range ].
    + eexists _, _. split; [ reflexivity | apply f0_range ].
  - exact Hfail.
  - intros self e. apply (Hfail self (Raise e) e). reflexivity.
  - intros self. apply (Hfail self _ IndexError). vm_compute. reflexivity.
  - intros self. apply (Hfail self _ IndexError). vm_compute. reflexivity.
  - intros self. apply (Hfail self _ ValueError). vm_compute. reflexivity.
Qed.

(** ** Transmission *)

Section Transmission.

(** The surroundings of the call of [send_data]. *)
Context (env : io).

Lemma packet_for_snapshot self1 self2 path info :
  _sensor_data self1 = _sensor_data self2 ->
  packet_for env self1 path info = packet_for env self2 path info.
Proof.
  intros Hd. unfold packet_for.
  rewrite !_build_gamdias_packet_eq, !_build_hwcx_packet_eq. cbn.
  rewrite Hd. reflexivity.
Qed.

Lemma _send_gamdias_init_eq path fd f :
  _send_gamdias_init env path fd f =
  (Ok tt,
   {| self_ := self_ f; success := success f; to_remove := to_remove f;
      events := events f ++ init_events env path fd |}).
Proof.
  destruct f as [ s ok rm evs ].
  unfold _send_gamdias_init, init_events, init_commands. cbn.
  unfold try_except, bind, emit, lift, modify, ret. cbn.
  destruct (init_write env path 0), (init_write env path 1),
    (init_write env path 2); cbn; rewrite <- ?app_assoc; reflexivity.
Qed.

Lemma mark_initialized_id path self :
  path ∈ _initialized_devices self -> mark_initialized path self = self.
Proof.
  intros Hin. destruct self as [ devs infos d init ]. unfold mark_initialized.
  cbn in *. f_equal. apply subseteq_union_1_L, singleton_subseteq_l, Hin.
Qed.

Lemma packet_for_cases self path info :
  (exists packet, packet_for env self path info = Ok packet) \/
  packet_for env self path info = Raise ValueError.
Proof.
  unfold packet_for.
  rewrite _build_gamdias_packet_eq, _build_hwcx_packet_eq. cbn [fst].
  destruct (DeviceInfo.is_gamdias info);
    [ destruct (gamdias_stores_ok _ _) | destruct (hwcx_stores_ok _ _) ];
    eauto.
Qed.

Ltac run_frame :=
  unfold try_except, bind, gets, ret, raise, on_self, modify, emit, lift,
    set_success, append_to_remove;
  cbn -[_build_gamdias_packet _build_hwcx_packet _send_gamdias_init
        mark_initialized].

Lemma send_one_eq path fd f :
  send_one env (path, fd) f =
  (Ok tt,
   {| self_ := match _device_info (self_ f) !! path with
               | Some _ => mark_initialized path (self_ f)
               | None => self_ f
               end;
      success := success f || accepted env (self_ f) path;
      to_remove := to_remove f
                   ++ (if disconnected env (self_ f) path then [path] else []);
      events := events f ++ item_events env (self_ f) path fd |}).
Proof.
  destruct f as [ s ok rm evs ].
  unfold send_one, accepted, disconnected, item_events.
  unfold bind at 1. unfold gets at 1. cbn [self_ success to_remove events].
  destruct (_device_info s !! path) as [ info | ] eqn:Hinfo.
  2: { unfold ret. rewrite orb_false_r, !app_nil_r. reflexivity. }
  rewrite (packet_for_snapshot s (mark_initialized path s) path info)
    by reflexivity.
  assert (Hbuild :
    forall f' : frame,
      self_ f' = mark_initialized path s ->
      (if DeviceInfo.is_gamdias info
       then on_self (_build_gamdias_packet (now env path))
       else on_self (_build_hwcx_packet (now env path))) f'
      = (packet_for env (mark_initialized path s) path info, f')).
  { intros [ s' ok' rm' evs' ] Hs. cbn in Hs. subst s'.
    unfold packet_for, on_self. cbn [self_ success to_remove events].
    destruct (DeviceInfo.is_gamdias info);
      rewrite ?_build_gamdias_packet_eq, ?_build_hwcx_packet_eq;
      cbn [fst self_ success to_remove events];
      rewrite ?_build_gamdias_packet_eq, ?_build_hwcx_packet_eq;
      reflexivity. }
  assert (Htail :
    forall evs' : list event,
      try_except
        (let* packet :=
           if DeviceInfo.is_gamdias info
           then on_self (_build_gamdias_packet (now env path))
           else on_self (_build_hwcx_packet (now env path)) in
         let* _ := emit (os_write fd packet (data_write env path packet)) in
         let* written := lift (data_write env path packet) in
         if written =? Z.of_nat (length packet) then set_success else ret tt)
        (fun e =>
           match e with
           | OSError errno =>
               if errno =? 19 then append_to_remove path else ret tt
           | _ => ret tt
           end)
        {| self_ := mark_initialized path s; success := ok; to_remove := rm;
           events := evs' |}
      = (Ok tt,
         {| self_ := mark_initialized path s;
            success :=
              ok || match packet_for env (mark_initialized path s) path info with
                    | Ok packet =>
                        match data_write env path packet with
                        | Ok written => written =? Z.of_nat (length packet)
                        | Raise _ => false
                        end
                    | Raise _ => false
                    end;
            to_remove :=
              rm ++ (if match packet_for env (mark_initialized path s) path info with
                        | Ok packet =>
                            match data_write env path packet with
                            | Raise (OSError errno) => errno =? 19
                            | _ => false
                            end
                        | Raise _ => false
                        end
                     then [path] else []);
            events :=
              evs' ++ match packet_for env (mark_initialized path s) path info with
                      | Ok packet =>
                          [os_write fd packet (data_write env path packet)]
                      | Raise _ => []
                      end |})).
  { intros evs'. unfold try_except, bind at 1. rewrite Hbuild by reflexivity.
    destruct (packet_for_cases (mark_initialized path s) path info)
      as [ [packet ->] | -> ].
    - run_frame. destruct (data_write env path packet) as [ written | e ].
      + destruct (written =? _); rewrite ?orb_true_r, ?orb_false_r, ?app_nil_r;
          reflexivity.
      + destruct e; rewrite ?orb_false_r, ?app_nil_r; try reflexivity.
        destruct (errno =? 19); rewrite ?app_nil_r; reflexivity.
    - run_frame. rewrite ?orb_false_r, ?app_nil_r. reflexivity. }
  unfold try_except in *. unfold bind at 1, gets at 1.
  cbn [self_ success to_remove events].
  destruct (bool_decide_reflect (path ∈ _initialized_devices s))
    as [ Hin | Hin ]; cbn [negb].
  - rewrite (mark_initialized_id path s Hin) in *.
    unfold bind at 1, ret at 1. rewrite Htail. reflexivity.
  - unfold bind at 1. unfold bind at 1.
    destruct (DeviceInfo.is_gamdias info).
    + rewrite _send_gamdias_init_eq. unfold on_self at 1, modify at 1.
      cbn [self_ success to_remove events]. rewrite Htail, app_assoc.
      reflexivity.
    + unfold ret at 1, on_self at 1, modify at 1.
      cbn [self_ success to_remove events]. rewrite Htail. reflexivity.
Qed.

Lemma for_each_send_one l f :
  for_each l (send_one env) f = (Ok tt, foldl (send_step env) f l).
Proof.
  revert f. induction l as [ | [path fd] l IH ]; intros f; [ reflexivity | ].
  cbn [for_each foldl]. unfold bind. rewrite send_one_eq. apply IH.
Qed.

Lemma same_tables_refl s : same_tables s s.
Proof. repeat split. Qed.

Lemma same_tables_trans s1 s2 s3 :
  same_tables s1 s2 -> same_tables s2 s3 -> same_tables s1 s3.
Proof.
  intros (H1 & H2 & H3) (H4 & H5 & H6). repeat split; congruence.
Qed.

Lemma disconnected_same s1 s2 path :
  same_tables s1 s2 -> disconnected env s1 path = disconnected env s2 path.
Proof.
  intros (_ & Hi & Hd). unfold disconnected. rewrite Hi.
  destruct (_device_info s2 !! path) as [ info | ]; [ | reflexivity ].
  rewrite (packet_for_snapshot s1 s2 path info Hd). reflexivity.
Qed.

Lemma accepted_same s1 s2 path :
  same_tables s1 s2 -> accepted env s1 path = accepted env s2 path.
Proof.
  intros (_ & Hi & Hd). unfold accepted. rewrite Hi.
  destruct (_device_info s2 !! path) as [ info | ]; [ | reflexivity ].
  rewrite (packet_for_snapshot s1 s2 path info Hd). reflexivity.
Qed.

Lemma existsb_accepted_same s1 s2 (l : list string) :
  same_tables s1 s2 ->
  existsb (accepted env s1) l = existsb (accepted env s2) l.
Proof.
  intros Hs. induction l as [ | p l IH ]; [ reflexivity | ].
  cbn. rewrite IH, (accepted_same s1 s2 p Hs). reflexivity.
Qed.

Lemma send_step_same_tables f item :
  same_tables (self_ f) (self_ (send_step env f item)).
Proof.
  unfold send_step. cbn [self_].
  destruct (_device_info (self_ f) !! item.1); repeat split.
Qed.

(** The first loop of [send_data]: the tables and the snapshot stay; the
    paths whose data write failed with errno 19 are appended to [to_remove],
    in order; every handle with a device record is marked initialized; and
    the data packet of every such handle whose packet could be built was
    written. *)
Lemma send_loop l f :
  let f' := foldl (send_step env) f l in
  same_tables (self_ f) (self_ f') /\
  to_remove f' = to_remove f ++ filter (fun p => disconnected env (self_ f) p = true) l.*1 /\
  success f' = success f || existsb (accepted env (self_ f)) l.*1 /\
  (forall p, p ∈ _initialized_devices (self_ f') <->
             p ∈ _initialized_devices (self_ f) \/
             (p ∈ l.*1 /\ is_Some (_device_info (self_ f) !! p))) /\
  (forall e, e ∈ events f -> e ∈ events f') /\
  (forall p fd info packet,
     (p, fd) ∈ l ->
     _device_info (self_ f) !! p = Some info ->
     packet_for env (self_ f) p info = Ok packet ->
     os_write fd packet (data_write env p packet) ∈ events f').
Proof.
  revert f. induction l as [ | [path fd] l IH ]; intros f; cbn zeta.
  - cbn. rewrite app_nil_r, orb_false_r.
    refine (conj _ (conj _ (conj _ (conj _ (conj _ _)))));
      try reflexivity; try apply same_tables_refl.
    + intros p. rewrite elem_of_nil. tauto.
    + auto.
    + intros p fd info packet Hin. apply elem_of_nil in Hin. contradiction.
  - cbn [foldl fmap list_fmap].
    pose proof (send_step_same_tables f (path, fd)) as Hst.
    specialize (IH (send_step env f (path, fd))). cbn zeta in IH.
    destruct IH as (Hsame & Hrm & Hok & Hinit & Hev & Hwr).
    set (f1 := send_step env f (path, fd)) in *.
    refine (conj _ (conj _ (conj _ (conj _ (conj _ _))))).
    + eapply same_tables_trans; eassumption.
    + rewrite Hrm. unfold f1 at 1. unfold send_step. cbn [to_remove fst].
      rewrite <- app_assoc. f_equal. rewrite filter_cons.
      unfold f1. rewrite (list_filter_iff _
        (fun p => disconnected env (self_ f) p = true)).
      2: { intros p. rewrite (disconnected_same _ _ p Hst). reflexivity. }
      destruct (decide _) as [ -> | Hn ]; [ reflexivity | ].
      destruct (disconnected env (self_ f) path); [ congruence | reflexivity ].
    + rewrite Hok. unfold f1 at 1. unfold send_step. cbn [success fst].
      rewrite <- orb_assoc. f_equal. cbn [existsb]. f_equal.
      symmetry. apply existsb_accepted_same, Hst.
    + intros p. rewrite Hinit.
      destruct Hst as (_ & Hi1 & _). fold f1 in Hi1. rewrite <- Hi1.
      unfold f1 at 1. unfold send_step. cbn [self_ fst].
      rewrite elem_of_cons.
      destruct (_device_info (self_ f) !! path) as [ info | ] eqn:Hinfo.
      * unfold mark_initialized. cbn [_initialized_devices].
        rewrite elem_of_union, elem_of_singleton.
        split; [ intros [ [-> | ?] | [? ?] ] | intros [? | [ [-> | ?] ? ] ] ];
          eauto 6.
      * split; [ intros [? | [? ?] ] | intros [? | [ [-> | ?] Hs ] ] ];
          eauto 6.
        rewrite Hinfo in Hs. destruct Hs as [? [=]].
    + intros e He. apply Hev. unfold f1, send_step. cbn [events].
      apply elem_of_app. left. exact He.
    + intros p fd' info packet Hin Hinfo Hp.
      apply elem_of_cons in Hin as [ [= -> ->] | Hin ].
      * apply Hev. unfold f1, send_step. cbn [events fst snd].
        apply elem_of_app. right. unfold item_events. rewrite Hinfo, Hp.
        apply elem_of_app. right. apply list_elem_of_singleton. reflexivity.
      * destruct Hst as (_ & Hi1 & Hd1). fold f1 in Hi1, Hd1.
        apply (Hwr p fd' info packet Hin).
        -- rewrite <- Hi1. exact Hinfo.
        -- rewrite <- (packet_for_snapshot (self_ f) (self_ f1) p info Hd1).
           exact Hp.
Qed.

Lemma remove_one_eq path f :
  is_Some (_devices (self_ f) !! path) ->
  remove_one path f = (Ok tt, remove_step f path).
Proof.
  intros [fd Hfd]. destruct f as [ s ok rm evs ]. cbn in Hfd.
  unfold remove_one, remove_step, del_device, forget. run_frame.
  rewrite Hfd. cbn. rewrite Hfd. reflexivity.
Qed.

(** The second loop of [send_data] over paths that are all in the table and
    pairwise distinct: no [KeyError]; the paths leave both tables and the
    initialized set, and every descriptor is closed. *)
Lemma remove_loop r :
  forall f,
    NoDup r ->
    (forall p, p ∈ r -> is_Some (_devices (self_ f) !! p)) ->
    let f' := foldl remove_step f r in
    for_each r remove_one f = (Ok tt, f') /\
    success f' = success f /\
    _sensor_data (self_ f') = _sensor_data (self_ f) /\
    (forall p, _devices (self_ f') !! p =
               if decide (p ∈ r) then None else _devices (self_ f) !! p) /\
    (forall p, _device_info (self_ f') !! p =
               if decide (p ∈ r) then None else _device_info (self_ f) !! p) /\
    (forall p, p ∈ _initialized_devices (self_ f') <->
               p ∈ _initialized_devices (self_ f) /\ p ∉ r) /\
    (forall e, e ∈ events f -> e ∈ events f') /\
    (forall p fd, p ∈ r -> _devices (self_ f) !! p = Some fd ->
                  os_close fd ∈ events f').
Proof.
  induction r as [ | path r IH ]; intros f Hnd Hdom; cbn zeta.
  - cbn. refine (conj _ (conj _ (conj _ (conj _ (conj _ (conj _ (conj _ _)))))));
      try reflexivity; auto.
    + intros p. rewrite elem_of_nil. tauto.
    + intros p fd Hin. apply elem_of_nil in Hin. contradiction.
  - apply NoDup_cons in Hnd as [Hnotin Hnd].
    cbn [for_each foldl]. unfold bind.
    rewrite remove_one_eq by (apply Hdom; left).
    set (f1 := remove_step f path).
    assert (Hdom1 : forall p, p ∈ r -> is_Some (_devices (self_ f1) !! p)).
    { intros p Hp. unfold f1, remove_step. cbn [self_ _devices].
      rewrite lookup_delete_ne by (intros ->; contradiction).
      apply Hdom. right. exact Hp. }
    destruct (IH f1 Hnd Hdom1) as (Hrun & Hok & Hd & Hdev & Hinfo & Hinit
                                   & Hev & Hclose).
    refine (conj _ (conj _ (conj _ (conj _ (conj _ (conj _ (conj _ _))))))).
    + exact Hrun.
    + rewrite Hok. reflexivity.
    + rewrite Hd. reflexivity.
    + intros p. rewrite Hdev. unfold f1, remove_step. cbn [self_ _devices].
      destruct (decide (p = path)) as [ -> | Hne ].
      * rewrite lookup_delete_eq.
        rewrite (decide_True (P := path ∈ path :: r)) by left.
        destruct (decide (path ∈ r)); reflexivity.
      * rewrite lookup_delete_ne by congruence.
        destruct (decide (p ∈ r)) as [ Hin | Hnin ].
        -- rewrite decide_True by (right; exact Hin). reflexivity.
        -- rewrite decide_False; [ reflexivity | ].
           intros [ ? | ? ]%elem_of_cons; contradiction.
    + intros p. rewrite Hinfo. unfold f1, remove_step.
      cbn [self_ _device_info].
      destruct (decide (p = path)) as [ -> | Hne ].
      * rewrite lookup_delete_eq.
        rewrite (decide_True (P := path ∈ path :: r)) by left.
        destruct (decide (path ∈ r)); reflexivity.
      * rewrite lookup_delete_ne by congruence.
        destruct (decide (p ∈ r)) as [ Hin | Hnin ].
        -- rewrite decide_True by (right; exact Hin). reflexivity.
        -- rewrite decide_False; [ reflexivity | ].
           intros [ ? | ? ]%elem_of_cons; contradiction.
    + intros p. rewrite Hinit. unfold f1, remove_step.
      cbn [self_ _initialized_devices].
      rewrite elem_of_difference, elem_of_singleton, not_elem_of_cons. tauto.
    + intros e He. apply Hev. unfold f1, remove_step. cbn [events].
      apply elem_of_app. left. exact He.
    + intros p fd [ -> | Hin ]%elem_of_cons Hfd.
      * apply Hev. unfold f1, remove_step. cbn [events]. rewrite Hfd.
        apply elem_of_app. right. apply list_elem_of_singleton. reflexivity.
      * apply (Hclose p fd Hin). unfold f1, remove_step. cbn [self_ _devices].
        rewrite lookup_delete_ne by (intros ->; contradiction). exact Hfd.
Qed.

(** [send_data] as a whole: it raises nothing; the snapshot is untouched; a
    handle leaves the tables exactly when its data write failed with errno
    19; every data packet that could be built was written. *)
Lemma send_data_spec self :
  exists ok self' evs,
    send_data env self = (Ok ok, self', evs) /\
    _sensor_data self' = _sensor_data self /\
    ok = existsb (accepted env self) (map_to_list (_devices self)).*1 /\
    (forall p fd,
       _devices self !! p = Some fd ->
       if disconnected env self p then
         _devices self' !! p = None /\ _device_info self' !! p = None /\
         (p ∉ _initialized_devices self') /\ os_close fd ∈ evs
       else
         _devices self' !! p = Some fd /\
         _device_info self' !! p = _device_info self !! p /\
         (p ∈ _initialized_devices self' <->
          p ∈ _initialized_devices self \/ is_Some (_device_info self !! p)))
    /\
    (forall p, _devices self !! p = None -> _devices self' !! p = None) /\
    (forall p fd info packet,
       _devices self !! p = Some fd ->
       _device_info self !! p = Some info ->
       packet_for env self p info = Ok packet ->
       os_write fd packet (data_write env p packet) ∈ evs).
Proof.
  unfold send_data, send_data_body.
  unfold bind at 1, gets at 1. cbn [self_].
  destruct (bool_decide_reflect (_devices self = ∅)) as [ Hempty | Hne ].
  { unfold ret. eexists _, _, _. split; [ reflexivity | ].
    rewrite Hempty, map_to_list_empty. cbn.
    refine (conj _ (conj _ (conj _ (conj _ _)))); try reflexivity.
    - intros p fd Hp. rewrite lookup_empty in Hp. discriminate.
    - intros p _. rewrite Hempty. apply lookup_empty.
    - intros p fd info packet Hp. rewrite lookup_empty in Hp. discriminate. }
  set (f0 := {| self_ := self; success := false; to_remove := [];
                events := [] |}).
  set (l := map_to_list (_devices self)).
  unfold bind at 1. rewrite for_each_send_one.
  destruct (send_loop l f0) as (Hsame & Hrm & Hok & Hinit & _ & Hwr).
  set (f1 := foldl (send_step env) f0 l) in *.
  cbn [self_ to_remove success f0 app orb events] in Hsame, Hrm, Hok, Hinit, Hwr.
  destruct Hsame as (Hdev1 & Hinfo1 & Hd1).
  unfold bind at 1, gets at 1. unfold bind at 1.
  assert (Hkeys : forall p, p ∈ l.*1 <-> is_Some (_devices self !! p)).
  { intros p. unfold l. rewrite list_elem_of_fmap. split.
    - intros ([q fd] & -> & Hin). apply elem_of_map_to_list in Hin. eauto.
    - intros [fd Hfd]. exists (p, fd). split; [ reflexivity | ].
      apply elem_of_map_to_list. exact Hfd. }
  assert (Hr : forall p, p ∈ to_remove f1 <->
                         (disconnected env self p = true /\
                          is_Some (_devices self !! p))).
  { intros p. rewrite Hrm, list_elem_of_filter, Hkeys. reflexivity. }
  destruct (remove_loop (to_remove f1) f1) as
    (Hrun & Hok2 & Hd2 & Hdev2 & Hinfo2 & Hinit2 & Hev2 & Hclose).
  { rewrite Hrm. apply NoDup_filter, NoDup_fst_map_to_list. }
  { intros p [_ Hp]%Hr. rewrite <- Hdev1. exact Hp. }
  rewrite Hrun. unfold gets.
  set (f2 := foldl remove_step f1 (to_remove f1)) in *.
  eexists _, _, _. split; [ reflexivity | ].
  refine (conj _ (conj _ (conj _ (conj _ _)))).
  - rewrite Hd2, <- Hd1. reflexivity.
  - rewrite Hok2, Hok. reflexivity.
  - intros p fd Hp. rewrite Hdev2, Hinfo2, <- Hdev1, <- Hinfo1.
    destruct (disconnected env self p) eqn:Hdis.
    + assert (Hin : p ∈ to_remove f1) by (apply Hr; eauto).
      rewrite !decide_True by exact Hin.
      refine (conj _ (conj _ (conj _ _))); try reflexivity.
      * rewrite Hinit2. tauto.
      * apply (Hclose p fd Hin). rewrite <- Hdev1. exact Hp.
    + assert (Hnin : p ∉ to_remove f1).
      { rewrite Hr. intros [? _]. congruence. }
      rewrite !decide_False by exact Hnin.
      refine (conj _ (conj _ _)); try reflexivity; [ exact Hp | ].
      rewrite Hinit2, Hinit, Hkeys. split.
      * intros [ [? | [_ ?] ] _ ]; auto.
      * intros [? | ?]; split; eauto.
  - intros p Hp. rewrite Hdev2, <- Hdev1.
    destruct (decide _); [ reflexivity | exact Hp ].
  - intros p fd info packet Hp Hinfo Hpacket. apply Hev2.
    apply (Hwr p fd info packet); try assumption.
    apply elem_of_map_to_list. exact Hp.
Qed.

End Transmission.

(** *** The table after the call *)


(** The display on [/dev/hidraw0] unplugged: the table is empty after the
    call. With an I/O error (errno 5) instead, the handle stays. *)
Lemma send_data_examples :
  (exists self' evs,
     send_data (example_io (Raise (OSError 19))) example_hid
     = (Ok false, self', evs) /\
     get_online_device_count self' = 0 /\
     _initialized_devices self' = ∅ /\
     last evs = Some (os_close 3)) /\
  (exists self' evs,
     send_data (example_io (Raise (OSError 5))) example_hid
     = (Ok false, self', evs) /\
     get_online_device_count self' = 1 /\
     _devices self' !! "/dev/hidraw0" = Some 3 /\
     "/dev/hidraw0" ∈ _initialized_devices self') /\
  (exists self' evs,
     send_data (example_io (Ok 65)) example_hid = (Ok true, self', evs) /\
     get_online_device_count self' = 1 /\
     length evs = 7%nat).
Proof.
  refine (conj _ (conj _ _)); eexists _, _;
    (split; [ vm_compute; reflexivity | ]).
  - refine (conj _ (conj _ _)); vm_compute; reflexivity.
  - refine (conj _ (conj _ _)); [ vm_compute; reflexivity.. | ].
    apply (bool_decide_unpack _). vm_compute. exact I.
  - split; vm_compute; reflexivity.
Qed.

(** The tables agree on a fresh object, and [open_devices], the setters and
    [send_data] keep them so: in every state the program reaches, a handle in
    the table has its device record. *)
Lemma tables_agree_init : tables_agree HidDevice.__init__.
Proof. intros p [fd Hfd]. cbn in Hfd. rewrite lookup_empty in Hfd. discriminate. Qed.

Lemma tables_agree_open env self :
  tables_agree self -> tables_agree (open_devices env self).2.
Proof.
  unfold open_devices. generalize (scan_devices env) 0. intros l.
  revert self. induction l as [ | info l IH ]; intros self opened Hagree;
    [ exact Hagree | ].
  cbn [open_each]. destruct (os_open env (DeviceInfo.path info)) as [ fd | e ].
  - apply IH. intros p. unfold add_device. cbn [_devices _device_info].
    destruct (decide (p = DeviceInfo.path info)) as [ -> | Hne ].
    + rewrite !lookup_insert_eq. eauto.
    + rewrite !lookup_insert_ne by congruence. apply Hagree.
  - apply IH, Hagree.
Qed.

Lemma tables_agree_calls cs self :
  tables_agree self -> tables_agree (calls cs self).
Proof.
  unfold calls. revert self.
  induction cs as [ | c cs IH ]; intros self Hagree; [ exact Hagree | ].
  cbn. apply IH. destruct c; exact Hagree.
Qed.

Lemma tables_agree_send env self :
  tables_agree self -> tables_agree (send_data env self).1.2.
Proof.
  intros Hagree.
  destruct (send_data_spec env self)
    as (ok & self' & evs & -> & _ & _ & Hdev & Hnone & _).
  cbn [fst snd]. intros p [fd' Hp].
  destruct (_devices self !! p) as [ fd | ] eqn:Hfd.
  - pose proof (Hdev p fd Hfd) as Hq.
    destruct (disconnected env self p).
    + destruct Hq as (Hq & _). congruence.
    + destruct Hq as (_ & -> & _). apply Hagree. rewrite Hfd. eauto.
  - rewrite (Hnone p Hfd) in Hp. discriminate.
Qed.

(** With the twelve clamped fields in range, a display mode that is a byte
    and a valid clock, the packet of either family is built. *)
Lemma packet_for_built env self path info :
  clamped (_sensor_data self) ->
  0 <= display_mode (_sensor_data self) <= 255 ->
  valid_clock (now env path) ->
  exists packet, packet_for env self path info = Ok packet.
Proof.
  intros Hc Hm Hclock. unfold packet_for.
  rewrite _build_gamdias_packet_eq, _build_hwcx_packet_eq. cbn [fst].
  rewrite clamped_gamdias_stores_ok, clamped_hwcx_stores_ok by assumption.
  destruct (DeviceInfo.is_gamdias info); eauto.
Qed.

(** ** The update cycle *)

Lemma detect_cards_no_match cards m :
  no_vendor_match cards ->
  HardwareMonitor.detect_cards cards m = m.
Proof.
  induction 1 as [ | card cards Hcard _ IH ]; [ reflexivity | ].
  cbn [HardwareMonitor.detect_cards].
  destruct (negb _ || _); [ exact IH | ].
  destruct (negb _); [ exact IH | ].
  destruct (HardwareMonitor.card_vendor card) as [ text | ]; [ | exact IH ].
  destruct Hcard as [Hamd Hintel].
  destruct (String.eqb_spec (strip text) "0x1002"); [ contradiction | ].
  destruct (String.eqb_spec (strip text) "0x8086"); [ contradiction | ].
  exact IH.
Qed.

Lemma gpu_bytes_zero_packet env h path info packet :
  gpu_fields_zero (_sensor_data h) ->
  packet_for env h path info = Ok packet ->
  gpu_bytes_zero (DeviceInfo.is_gamdias info) packet.
Proof.
  intros (Ht & Hu & Hf & Hr & Hp). unfold packet_for, gpu_bytes_zero.
  destruct (DeviceInfo.is_gamdias info).
  - intros [_ ->]%build_gamdias_inv. unfold gamdias_layout.
    rewrite Ht, Hu, Hf, Hr, Hp. repeat constructor.
  - intros [_ ->]%build_hwcx_inv. unfold hwcx_layout.
    rewrite Ht, Hu, Hf, Hr, Hp. repeat constructor.
Qed.

(** The part of the cycle after the device check, for a monitor without a GPU
    backend and a CPU reading whose four [float]s convert. *)
Lemma collect_and_send_without_gpu e s temp usage freq power :
  HardwareMonitor._gpu_vendor (LKDisplay.monitor (LKDisplay.self_ s)) = None ->
  int_of_float (CpuData.temperature (LKDisplay.cpu_reading e)) = Ok temp ->
  int_of_float (CpuData.usage (LKDisplay.cpu_reading e)) = Ok usage ->
  int_of_float (CpuData.frequency (LKDisplay.cpu_reading e)) = Ok freq ->
  int_of_float (CpuData.power (LKDisplay.cpu_reading e)) = Ok power ->
  let h := filled_without_gpu e temp usage freq power
             (LKDisplay.hid (LKDisplay.self_ s)) in
  LKDisplay.collect_and_send e s =
  (Ok tt,
   {| LKDisplay.self_ :=
        {| LKDisplay.hid := (send_data (LKDisplay.device_io e) h).1.2;
           LKDisplay.monitor := LKDisplay.monitor (LKDisplay.self_ s) |};
      LKDisplay.events :=
        LKDisplay.events s ++ (send_data (LKDisplay.device_io e) h).2 |}).
Proof.
  intros Hvendor Ht Hu Hf Hp h.
  destruct (send_data_spec (LKDisplay.device_io e) h)
    as (ok & h' & evs & Hrun & _).
  destruct s as [ [hid0 mon] evs0 ]. cbn in Hvendor.
  unfold LKDisplay.collect_and_send, LKDisplay.on_hid, LKDisplay.hid_send_data.
  unfold bind, lift, gets, modify, ret. rewrite Ht, Hu, Hf, Hp.
  cbn [LKDisplay.self_ LKDisplay.hid LKDisplay.monitor LKDisplay.events].
  unfold HardwareMonitor.get_gpu_data. rewrite Hvendor.
  cbn [GpuData.is_valid GpuData.default
       LKDisplay.self_ LKDisplay.hid LKDisplay.monitor LKDisplay.events].
  subst h. unfold filled_without_gpu in *.
  cbn [LKDisplay.self_ LKDisplay.hid] in *. rewrite Hrun. reflexivity.
Qed.

Lemma filled_without_gpu_zero e temp usage freq power h :
  gpu_fields_zero (_sensor_data (filled_without_gpu e temp usage freq power h)).
Proof. repeat split. Qed.

(** *** C7 *)

(** C7. Without the NVIDIA tool and without an AMD or Intel vendor id under
    [/sys/class/drm], the monitor detects no vendor; then every call of
    [get_gpu_data] returns a reading that is not valid and whose numeric fields
    are all zero. In the update cycle, once the device check has passed and
    the CPU reading has been converted, [set_gpu_data(0, 0, 0, 0, 0)] is
    applied: the snapshot [send_data] works on, and the one left in the object,
    have their five GPU fields at zero, the cycle returns normally, and every
    data packet written in the cycle has its GPU bytes at zero. The last part
    runs the cycle on an object whose snapshot held a GPU temperature of 55. *)
Theorem C7_no_gpu_backend :
  (forall stat cards,
     no_vendor_match cards ->
     HardwareMonitor._gpu_vendor
       (HardwareMonitor.__init__ stat false (Some cards)) = None) /\
  (forall stat,
     HardwareMonitor._gpu_vendor (HardwareMonitor.__init__ stat false None)
     = None) /\
  (forall readers m,
     HardwareMonitor._gpu_vendor m = None ->
     HardwareMonitor.get_gpu_data readers m = GpuData.default /\
     GpuData.is_valid (HardwareMonitor.get_gpu_data readers m) = false /\
     GpuData.temperature (HardwareMonitor.get_gpu_data readers m) = f0 /\
     GpuData.usage (HardwareMonitor.get_gpu_data readers m) = f0 /\
     GpuData.frequency (HardwareMonitor.get_gpu_data readers m) = f0 /\
     GpuData.memory_usage (HardwareMonitor.get_gpu_data readers m) = f0 /\
     GpuData.fan_rpm (HardwareMonitor.get_gpu_data readers m) = 0 /\
     GpuData.power (HardwareMonitor.get_gpu_data readers m) = f0) /\
  (forall e s h0 temp usage freq power,
     HardwareMonitor._gpu_vendor (LKDisplay.monitor (LKDisplay.self_ s))
     = None ->
     after_device_check e (LKDisplay.hid (LKDisplay.self_ s)) = Some h0 ->
     int_of_float (CpuData.temperature (LKDisplay.cpu_reading e)) = Ok temp ->
     int_of_float (CpuData.usage (LKDisplay.cpu_reading e)) = Ok usage ->
     int_of_float (CpuData.frequency (LKDisplay.cpu_reading e)) = Ok freq ->
     int_of_float (CpuData.power (LKDisplay.cpu_reading e)) = Ok power ->
     let h := filled_without_gpu e temp usage freq power h0 in
     gpu_fields_zero (_sensor_data h) /\
     exists ok h' evs,
       send_data (LKDisplay.device_io e) h = (Ok ok, h', evs) /\
       LKDisplay._update_cycle e s =
       (Ok tt,
        {| LKDisplay.self_ :=
             {| LKDisplay.hid := h';
                LKDisplay.monitor := LKDisplay.monitor (LKDisplay.self_ s) |};
           LKDisplay.events := LKDisplay.events s ++ evs |}) /\
       gpu_fields_zero (_sensor_data h') /\
       forall path fd info packet,
         _devices h !! path = Some fd ->
         _device_info h !! path = Some info ->
         packet_for (LKDisplay.device_io e) h path info = Ok packet ->
         os_write fd packet
           (data_write (LKDisplay.device_io e) path packet) ∈ evs /\
         gpu_bytes_zero (DeviceInfo.is_gamdias info) packet) /\
  (gpu_temp (_sensor_data (LKDisplay.hid (LKDisplay.self_ example_app))) = 55 /\
   exists s' packet,
     LKDisplay._update_cycle example_env example_app = (Ok tt, s') /\
     last (LKDisplay.events s') = Some (os_write 3 packet (Ok 65)) /\
     gpu_bytes_zero true packet /\
     gpu_fields_zero (_sensor_data (LKDisplay.hid (LKDisplay.self_ s')))).
Proof.
  refine (conj _ (conj _ (conj _ (conj _ _)))).
  - intros stat cards Hcards.
    unfold HardwareMonitor.__init__, HardwareMonitor._detect_gpu.
    cbn [HardwareMonitor._nvidia_available].
    rewrite detect_cards_no_match by exact Hcards. reflexivity.
  - intros stat. reflexivity.
  - intros readers m Hvendor. unfold HardwareMonitor.get_gpu_data.
    rewrite Hvendor. repeat split.
  - intros e s h0 temp usage freq power Hvendor Hcheck Ht Hu Hf Hp h.
    split; [ apply filled_without_gpu_zero | ].
    destruct (send_data_spec (LKDisplay.device_io e) h)
      as (ok & h' & evs & Hrun & Hd & _ & _ & _ & Hwr).
    exists ok, h', evs. split; [ exact Hrun | ].
    refine (conj _ (conj _ _)).
    + destruct s as [ [hid0 mon] evs0 ].
      cbn [LKDisplay.self_ LKDisplay.hid LKDisplay.monitor LKDisplay.events]
        in *.
      unfold after_device_check in Hcheck.
      unfold LKDisplay._update_cycle. unfold bind at 1, gets at 1.
      cbn [LKDisplay.self_ LKDisplay.hid].
      destruct (get_online_device_count hid0 =? 0).
      * unfold bind at 1, LKDisplay.hid_open_devices.
        cbn [LKDisplay.self_ LKDisplay.hid LKDisplay.monitor LKDisplay.events].
        destruct (open_devices (LKDisplay.device_io e) hid0)
          as [ count hid1 ].
        cbn [fst snd] in Hcheck.
        destruct (count =? 0); [ discriminate | ].
        injection Hcheck as ->.
        rewrite (collect_and_send_without_gpu e _ temp usage freq power)
          by assumption.
        cbn [LKDisplay.self_ LKDisplay.hid LKDisplay.monitor LKDisplay.events].
        fold h. rewrite Hrun. reflexivity.
      * injection Hcheck as ->.
        rewrite (collect_and_send_without_gpu e _ temp usage freq power)
          by assumption.
        cbn [LKDisplay.self_ LKDisplay.hid LKDisplay.monitor LKDisplay.events].
        fold h. rewrite Hrun. reflexivity.
    + unfold gpu_fields_zero. rewrite Hd. apply filled_without_gpu_zero.
    + intros path fd info packet Hfd Hinfo Hpacket. split.
      * apply (Hwr path fd info packet); assumption.
      * apply (gpu_bytes_zero_packet (LKDisplay.device_io e) h path info).
        -- apply filled_without_gpu_zero.
        -- exact Hpacket.
  - split; [ reflexivity | ].
    eexists _, _. split; [ vm_compute; reflexivity | ].
    split; [ vm_compute; reflexivity | ].
    split; [ repeat constructor | repeat split ].
Qed.

(** * Further properties of the code *)

Import Trace.

Section TransmissionTrace.

Context (env : io).

Lemma item_events_same s1 s2 path fd :
  same_tables s1 s2 ->
  (path ∈ _initialized_devices s1 <-> path ∈ _initialized_devices s2) ->
  item_events env s1 path fd = item_events env s2 path fd.
Proof.
  intros (_ & Hi & Hd) Hinit. unfold item_events. rewrite Hi.
  destruct (_device_info s2 !! path) as [ info | ]; [ | reflexivity ].
  rewrite (packet_for_snapshot env s1 s2 path info Hd).
  rewrite (bool_decide_ext _ _ Hinit). reflexivity.
Qed.

Lemma send_loop_events l : forall f,
  NoDup l.*1 ->
  events (foldl (send_step env) f l)
  = events f ++ flat_map (fun item => item_events env (self_ f) item.1 item.2) l.
Proof.
  induction l as [ | [path fd] l IH ]; intros f Hnd.
  - cbn. rewrite app_nil_r. reflexivity.
  - cbn [fmap list_fmap fst] in Hnd. apply NoDup_cons in Hnd as [Hnotin Hnd].
    cbn [foldl flat_map]. rewrite IH by exact Hnd.
    pose proof (send_step_same_tables env f (path, fd)) as Hst.
    set (f1 := send_step env f (path, fd)) in *.
    replace (events f1) with (events f ++ item_events env (self_ f) path fd)
      by reflexivity.
    rewrite <- app_assoc. f_equal. f_equal. subst f1.
    assert (Hflat : forall l' : list (string * Z),
      path ∉ l'.*1 ->
      flat_map (fun item => item_events env (self_ (send_step env f (path, fd)))
                              item.1 item.2) l'
      = flat_map (fun item => item_events env (self_ f) item.1 item.2) l').
    { induction l' as [ | [q fd'] l' IH' ]; intros Hq; [ reflexivity | ].
      cbn [fmap list_fmap fst] in Hq. apply not_elem_of_cons in Hq as [Hne Hq].
      cbn [flat_map fst snd]. rewrite IH' by exact Hq. f_equal.
      symmetry. apply item_events_same; [ exact Hst | ].
      unfold send_step. cbn [self_ fst].
      destruct (_device_info (self_ f) !! path); [ | reflexivity ].
      unfold mark_initialized. cbn [_initialized_devices].
      rewrite elem_of_union, elem_of_singleton. split; [ auto | ].
      intros [ ? | ? ]; [ congruence | assumption ]. }
    apply Hflat, Hnotin.
Qed.

Lemma remove_loop_events r : forall f,
  NoDup r ->
  events (foldl remove_step f r)
  = events f ++ flat_map (fun p => match _devices (self_ f) !! p with
                                   | Some fd => [os_close fd]
                                   | None => []
                                   end) r.
Proof.
  induction r as [ | path r IH ]; intros f Hnd.
  - cbn. rewrite app_nil_r. reflexivity.
  - apply NoDup_cons in Hnd as [Hnotin Hnd].
    cbn [foldl flat_map]. rewrite IH by exact Hnd.
    set (f1 := remove_step f path) in *.
    replace (events f1)
      with (events f ++ match _devices (self_ f) !! path with
                        | Some fd => [os_close fd]
                        | None => []
                        end) by reflexivity.
    rewrite <- app_assoc. f_equal. f_equal. subst f1.
    assert (Hflat : forall r' : list string,
      path ∉ r' ->
      flat_map (fun p => match _devices (self_ (remove_step f path)) !! p with
                         | Some fd => [os_close fd]
                         | None => []
                         end) r'
      = flat_map (fun p => match _devices (self_ f) !! p with
                           | Some fd => [os_close fd]
                           | None => []
                           end) r').
    { induction r' as [ | q r' IH' ]; intros Hq; [ reflexivity | ].
      apply not_elem_of_cons in Hq as [Hne Hq].
      cbn [flat_map]. rewrite IH' by exact Hq. f_equal.
      unfold remove_step. cbn [self_ _devices].
      rewrite lookup_delete_ne by congruence. reflexivity. }
    apply Hflat, Hnotin.
Qed.

Lemma remove_loop_size r : forall f,
  NoDup r ->
  (forall p, p ∈ r -> is_Some (_devices (self_ f) !! p)) ->
  (size (_devices (self_ (foldl remove_step f r))) + length r
   = size (_devices (self_ f)))%nat.
Proof.
  induction r as [ | path r IH ]; intros f Hnd Hdom; [ cbn; lia | ].
  apply NoDup_cons in Hnd as [Hnotin Hnd].
  cbn [foldl length]. rewrite Nat.add_succ_r, IH.
  - unfold remove_step. cbn [self_ _devices].
    destruct (Hdom path) as [fd Hfd]; [ left | ].
    rewrite map_size_delete_Some by eauto.
    assert (size (_devices (self_ f)) <> 0)%nat
      by (apply map_size_ne_0_lookup_2 with path; eauto).
    lia.
  - exact Hnd.
  - intros p Hp. unfold remove_step. cbn [self_ _devices].
    rewrite lookup_delete_ne by (intros ->; contradiction).
    apply Hdom. right. exact Hp.
Qed.

Lemma close_events_filter (self : HidDevice.t) (l : list (string * Z)) :
  (forall p fd, (p, fd) ∈ l -> _devices self !! p = Some fd) ->
  flat_map (fun p => match _devices self !! p with
                     | Some fd => [os_close fd]
                     | None => []
                     end)
    (filter (fun p => disconnected env self p = true) l.*1)
  = flat_map (close_events env self) l.
Proof.
  induction l as [ | [p fd] l IH ]; intros Hl; [ reflexivity | ].
  cbn [fmap list_fmap fst]. rewrite filter_cons. cbn [flat_map].
  unfold close_events at 1. cbn [fst snd].
  rewrite <- IH by (intros q fd' Hq; apply Hl; right; exact Hq).
  destruct (decide _) as [ Hd | Hd ].
  - rewrite Hd. cbn [flat_map]. rewrite (Hl p fd) by left. reflexivity.
  - destruct (disconnected env self p); [ congruence | reflexivity ].
Qed.

(** [send_data] in full: the value returned, the trace, and the three
    tables after the call, path by path. *)
Lemma send_data_run self :
  exists self',
    send_data env self
    = (Ok (existsb (accepted env self) (map_to_list (_devices self)).*1),
       self', send_events env self) /\
    _sensor_data self' = _sensor_data self /\
    (forall p, _devices self' !! p
               = if removed env self p then None else _devices self !! p) /\
    (forall p, _device_info self' !! p
               = if removed env self p then None else _device_info self !! p) /\
    (forall p, p ∈ _initialized_devices self' <->
               (p ∈ _initialized_devices self \/
                (is_Some (_devices self !! p) /\
                 is_Some (_device_info self !! p))) /\
               removed env self p = false) /\
    (size (_devices self')
     + length (filter (fun p => disconnected env self p = true)
                 (map_to_list (_devices self)).*1)
     = size (_devices self))%nat.
Proof.
  unfold send_data, send_data_body, send_events.
  unfold bind at 1, gets at 1. cbn [self_].
  destruct (bool_decide_reflect (_devices self = ∅)) as [ Hempty | Hne ].
  { unfold ret. exists self. unfold removed.
    rewrite Hempty, map_to_list_empty. cbn.
    refine (conj eq_refl (conj eq_refl (conj _ (conj _ (conj _ _))))).
    - intros p. rewrite ?lookup_empty. reflexivity.
    - intros p. rewrite ?lookup_empty. reflexivity.
    - intros p. rewrite ?lookup_empty. split.
      + intros Hp. split; [ left; exact Hp | reflexivity ].
      + intros [ [ Hp | [ [? [=]] _ ] ] _ ]. exact Hp.
    - reflexivity. }
  set (f0 := {| self_ := self; success := false; to_remove := [];
                events := [] |}).
  set (l := map_to_list (_devices self)).
  unfold bind at 1. rewrite for_each_send_one.
  destruct (send_loop env l f0) as (Hsame & Hrm & Hok & Hinit & _ & _).
  pose proof (send_loop_events l f0 (NoDup_fst_map_to_list _)) as Hev1.
  set (f1 := foldl (send_step env) f0 l) in *.
  cbn [self_ to_remove success f0 app orb events] in Hsame, Hrm, Hok, Hinit, Hev1.
  destruct Hsame as (Hdev1 & Hinfo1 & Hd1).
  unfold bind at 1, gets at 1. unfold bind at 1.
  assert (Hkeys : forall p, p ∈ l.*1 <-> is_Some (_devices self !! p)).
  { intros p. unfold l. rewrite list_elem_of_fmap. split.
    - intros ([q fd] & -> & Hin). apply elem_of_map_to_list in Hin. eauto.
    - intros [fd Hfd]. exists (p, fd). split; [ reflexivity | ].
      apply elem_of_map_to_list. exact Hfd. }
  assert (Hr : forall p, p ∈ to_remove f1 <-> removed env self p = true).
  { intros p. rewrite Hrm, list_elem_of_filter, Hkeys. unfold removed.
    destruct (_devices self !! p).
    - split; [ tauto | eauto ].
    - split; [ intros [_ [? [=]]] | discriminate ]. }
  assert (Hnd : NoDup (to_remove f1)).
  { rewrite Hrm. apply NoDup_filter, NoDup_fst_map_to_list. }
  destruct (remove_loop (to_remove f1) f1) as
    (Hrun & Hok2 & Hd2 & Hdev2 & Hinfo2 & Hinit2 & _ & _).
  { exact Hnd. }
  { intros p Hp%Hr. rewrite <- Hdev1. unfold removed in Hp.
    destruct (_devices self !! p); [ eauto | discriminate ]. }
  pose proof (remove_loop_events (to_remove f1) f1 Hnd) as Hev2.
  rewrite Hrun. unfold gets.
  set (f2 := foldl remove_step f1 (to_remove f1)) in *.
  assert (Hdec : forall p (A : Type) (x y : A),
            (if decide (p ∈ to_remove f1) then x else y)
            = if removed env self p then x else y).
  { intros p A x y. destruct (decide (p ∈ to_remove f1)) as [ Hin | Hnin ].
    - apply Hr in Hin. rewrite Hin. reflexivity.
    - destruct (removed env self p) eqn:Hg; [ | reflexivity ].
      exfalso. apply Hnin, Hr, Hg. }
  exists (self_ f2). split.
  { rewrite Hok2, Hok, Hev2, Hev1. f_equal. cbn [app]. f_equal.
    rewrite <- Hdev1, Hrm. apply close_events_filter.
    intros p fd Hin. apply elem_of_map_to_list. exact Hin. }
  refine (conj _ (conj _ (conj _ (conj _ _)))).
  - rewrite Hd2, <- Hd1. reflexivity.
  - intros p. rewrite Hdev2, <- Hdev1. apply Hdec.
  - intros p. rewrite Hinfo2, <- Hinfo1. apply Hdec.
  - intros p. rewrite Hinit2, Hinit, Hkeys, Hr.
    destruct (removed env self p); split; intros [? ?]; split;
      try congruence; try assumption; auto.
  - rewrite <- Hrm. unfold f2.
    replace (size (_devices self)) with (size (_devices (self_ f1)))
      by (rewrite <- Hdev1; reflexivity).
    apply remove_loop_size; [ exact Hnd | ].
    intros p Hp%Hr. rewrite <- Hdev1. unfold removed in Hp.
    destruct (_devices self !! p); [ eauto | discriminate ].
Qed.

End TransmissionTrace.

Import Lifecycle.

(** ** Discovery *)

Lemma supported_pairs info :
  supported info = true <->
  is_gamdias_pair (DeviceInfo.vendor_id info) (DeviceInfo.product_id info) \/
  is_hwcx_pair (DeviceInfo.vendor_id info) (DeviceInfo.product_id info).
Proof.
  unfold supported, SUPPORTED_DEVICES, is_gamdias_pair, is_hwcx_pair.
  cbn [existsb]. rewrite orb_false_r, orb_true_iff, !andb_true_iff, !Z.eqb_eq.
  reflexivity.
Qed.

Lemma _get_device_info_record path raw info :
  _get_device_info path raw = Some info ->
  supported info = true -> scanned_record path info.
Proof.
  destruct raw as [ [ [v p] name ] | ]; [ | discriminate ].
  cbn [_get_device_info]. intros [= <-] Hs. apply supported_pairs in Hs.
  unfold scanned_record, is_gamdias_pair, is_hwcx_pair in *.
  cbn [DeviceInfo.path DeviceInfo.vendor_id DeviceInfo.product_id
       DeviceInfo.is_gamdias] in *.
  split; [ reflexivity | ].
  destruct Hs as [ [Hv Hp] | [Hv Hp] ]; rewrite Hv, Hp; [ left | right ];
    repeat split; reflexivity.
Qed.

Lemma elem_of_scan_nodes nodes info :
  info ∈ scan_nodes nodes <->
  exists path raw, (path, raw) ∈ nodes /\
                   _get_device_info path raw = Some info /\
                   supported info = true.
Proof.
  induction nodes as [ | [path raw] nodes IH ].
  - cbn. split; [ intros []%elem_of_nil | ].
    intros (? & ? & []%elem_of_nil & _).
  - cbn [scan_nodes].
    assert (Hrest : info ∈ scan_nodes nodes ->
                    exists path0 raw0, (path0, raw0) ∈ (path, raw) :: nodes /\
                      _get_device_info path0 raw0 = Some info /\
                      supported info = true).
    { intros (p0 & r0 & Hin & Hrec)%IH. exists p0, r0.
      split; [ right; exact Hin | exact Hrec ]. }
    destruct (_get_device_info path raw) as [ info0 | ] eqn:Hinfo.
    + destruct (supported info0) eqn:Hs.
      * rewrite elem_of_cons. split.
        -- intros [ -> | Hin ]; [ | auto ].
           exists path, raw. split; [ left | ]. auto.
        -- intros (p0 & r0 & [ [= -> ->] | Hin ]%elem_of_cons & Hrec & Hs0).
           ++ left. congruence.
           ++ right. apply IH. eauto.
      * split; [ exact Hrest | ].
        intros (p0 & r0 & [ [= -> ->] | Hin ]%elem_of_cons & Hrec & Hs0).
        -- congruence.
        -- apply IH. eauto.
    + split; [ exact Hrest | ].
      intros (p0 & r0 & [ [= -> ->] | Hin ]%elem_of_cons & Hrec & Hs0).
      * congruence.
      * apply IH. eauto.
Qed.

Lemma scan_nodes_sublist nodes :
  (DeviceInfo.path <$> scan_nodes nodes) `sublist_of` nodes.*1.
Proof.
  induction nodes as [ | [path raw] nodes IH ]; [ constructor | ].
  cbn [scan_nodes fmap list_fmap fst].
  destruct (_get_device_info path raw) as [ info | ] eqn:Hinfo.
  - destruct (supported info) eqn:Hs.
    + cbn [fmap list_fmap].
      destruct (_get_device_info_record path raw info Hinfo Hs) as [-> _].
      apply sublist_skip, IH.
    + apply sublist_cons, IH.
  - apply sublist_cons, IH.
Qed.

Lemma scan_devices_records env info :
  info ∈ scan_devices env -> scanned_record (DeviceInfo.path info) info.
Proof.
  intros (path & raw & _ & Hrec & Hs)%elem_of_scan_nodes.
  pose proof (_get_device_info_record path raw info Hrec Hs) as Hr.
  destruct Hr as [Hp Hr]. rewrite Hp. split; [ exact Hp | exact Hr ].
Qed.

(** ** Opening *)

Lemma open_each_spec env l : forall opened self,
  let r := open_each env l opened self in
  r.1 = opened + Z.of_nat (length (filter (fun info => opens env info = true) l))
  /\ _sensor_data r.2 = _sensor_data self
  /\ _initialized_devices r.2 = _initialized_devices self
  /\ (forall p,
        (forall info, info ∈ l -> DeviceInfo.path info = p ->
                      opens env info = false) ->
        _devices r.2 !! p = _devices self !! p /\
        _device_info r.2 !! p = _device_info self !! p)
  /\ (forall info fd,
        info ∈ l -> os_open env (DeviceInfo.path info) = Ok fd ->
        _devices r.2 !! DeviceInfo.path info = Some fd /\
        exists info', info' ∈ l /\
                      DeviceInfo.path info' = DeviceInfo.path info /\
                      _device_info r.2 !! DeviceInfo.path info = Some info')
  /\ (Forall (fun info => opens env info = false) l -> r.2 = self).
Proof.
  induction l as [ | info l IH ]; intros opened self; cbn zeta.
  - cbn. refine (conj _ (conj _ (conj _ (conj _ (conj _ _))))); auto.
    + lia.
    + intros i fd []%elem_of_nil.
  - cbn [open_each].
    destruct (os_open env (DeviceInfo.path info)) as [ fd0 | e ] eqn:Hopen.
    + assert (Hop0 : opens env info = true)
        by (unfold opens; rewrite Hopen; reflexivity).
      rewrite filter_cons_True by exact Hop0.
      specialize (IH (opened + 1)
                     (add_device (DeviceInfo.path info) fd0 info self)).
      cbn zeta in IH.
      destruct IH as (Hn & Hd & Hi & Hframe & Hopened & Hsame).
      set (r := open_each env l (opened + 1)
                  (add_device (DeviceInfo.path info) fd0 info self)) in *.
      cbn [length].
      refine (conj _ (conj _ (conj _ (conj _ (conj _ _))))).
      * rewrite Hn. lia.
      * rewrite Hd. reflexivity.
      * rewrite Hi. reflexivity.
      * intros p Hp.
        assert (Hne : DeviceInfo.path info <> p).
        { intros Heq. specialize (Hp info ltac:(left) Heq). congruence. }
        destruct (Hframe p) as [H1 H2].
        { intros i Hin. apply Hp. right. exact Hin. }
        rewrite H1, H2. unfold add_device. cbn [_devices _device_info].
        rewrite !lookup_insert_ne by exact Hne. split; reflexivity.
      * intros i fd Hin Hfd.
        destruct (decide (Exists (fun i' => DeviceInfo.path i' = DeviceInfo.path i
                                            /\ opens env i' = true) l))
          as [ Hex | Hnex ].
        -- apply Exists_exists in Hex as (i' & Hin' & Hpath & Hop).
           unfold opens in Hop. rewrite Hpath, Hfd in Hop.
           destruct (Hopened i' fd Hin') as (H1 & i2 & Hin2 & Hp2 & H2).
           { rewrite Hpath. exact Hfd. }
           rewrite Hpath in *. split; [ exact H1 | ].
           exists i2. split; [ right; exact Hin2 | ]. split; assumption.
        -- destruct (Hframe (DeviceInfo.path i)) as [H1 H2].
           { intros i' Hin' Hpath.
             destruct (opens env i') eqn:Hop; [ | reflexivity ].
             exfalso. apply Hnex, Exists_exists. exists i'. auto. }
           assert (Hhere : DeviceInfo.path info = DeviceInfo.path i).
           { apply elem_of_cons in Hin as [ -> | Hin ]; [ reflexivity | ].
             exfalso. apply Hnex, Exists_exists. exists i.
             split; [ exact Hin | ]. split; [ reflexivity | ].
             unfold opens. rewrite Hfd. reflexivity. }
           rewrite H1, H2. unfold add_device. cbn [_devices _device_info].
           rewrite <- Hhere, !lookup_insert_eq. split; [ congruence | ].
           exists info. split; [ left | ]. split; reflexivity.
      * intros Hall. apply Forall_cons in Hall as [Hop _]. congruence.
    + assert (Hop : opens env info = false)
        by (unfold opens; rewrite Hopen; reflexivity).
      rewrite filter_cons_False by congruence.
      specialize (IH opened self). cbn zeta in IH.
      destruct IH as (Hn & Hd & Hi & Hframe & Hopened & Hsame).
      set (r := open_each env l opened self) in *.
      refine (conj Hn (conj Hd (conj Hi (conj _ (conj _ _))))).
      * intros p Hp. apply Hframe. intros i Hin. apply Hp. right. exact Hin.
      * intros i fd [ -> | Hin ]%elem_of_cons Hfd; [ congruence | ].
        destruct (Hopened i fd Hin Hfd) as (H1 & i2 & Hin2 & Hp2 & H2).
        split; [ exact H1 | ]. exists i2. split; [ right; exact Hin2 | ].
        split; assumption.
      * intros Hall. apply Forall_cons in Hall as [_ Hall]. apply Hsame, Hall.
Qed.

Lemma filter_length_0 {A} (P : A -> Prop) `{!forall x, Decision (P x)}
    (l : list A) :
  length (filter P l) = 0%nat <-> Forall (fun x => ~ P x) l.
Proof.
  induction l as [ | x l IH ]; [ cbn; split; auto | ].
  rewrite filter_cons, Forall_cons. destruct (decide (P x)) as [ Hx | Hx ].
  - cbn. split; [ discriminate | tauto ].
  - rewrite IH. tauto.
Qed.

Lemma scan_devices_paths_NoDup env :
  NoDup (hidraw env).*1 -> NoDup (DeviceInfo.path <$> scan_devices env).
Proof. intros Hnd. eapply sublist_NoDup; [ exact Hnd | apply scan_nodes_sublist ]. Qed.

Lemma NoDup_fmap_elem_eq {A B} (f : A -> B) (l : list A) x y :
  NoDup (f <$> l) -> x ∈ l -> y ∈ l -> f x = f y -> x = y.
Proof.
  intros Hnd [i Hi]%list_elem_of_lookup [j Hj]%list_elem_of_lookup Hf.
  assert (Hij : i = j).
  { apply (NoDup_lookup (f <$> l) i j (f x)); [ exact Hnd | | ].
    - rewrite list_lookup_fmap, Hi. reflexivity.
    - rewrite list_lookup_fmap, Hj, Hf. reflexivity. }
  subst j. congruence.
Qed.

(** ** The invariant of the object *)

Lemma well_formed_init : well_formed HidDevice.__init__.
Proof.
  refine (conj _ (conj _ _)); cbn.
  - intros p. rewrite !lookup_empty. split; intros [? [=]].
  - intros p []%elem_of_empty.
  - intros p info. rewrite lookup_empty. discriminate.
Qed.

Lemma well_formed_open env self :
  well_formed self -> well_formed (open_devices env self).2.
Proof.
  unfold open_devices. intros Hwf.
  assert (Hl : Forall (fun info => scanned_record (DeviceInfo.path info) info)
                 (scan_devices env)).
  { apply Forall_forall. intros info. apply scan_devices_records. }
  revert Hl. generalize (scan_devices env) 0. intros l.
  revert self Hwf. induction l as [ | info l IH ]; intros self Hwf opened Hl;
    [ exact Hwf | ].
  apply Forall_cons in Hl as [Hrec Hl]. cbn [open_each].
  destruct (os_open env (DeviceInfo.path info)) as [ fd | e ];
    [ | apply IH; assumption ].
  apply IH; [ | exact Hl ]. destruct Hwf as (Hdom & Hinit & Hrecs).
  unfold add_device. refine (conj _ (conj _ _));
    cbn [_devices _device_info _initialized_devices].
  - intros p. destruct (decide (p = DeviceInfo.path info)) as [ -> | Hne ].
    + rewrite !lookup_insert_eq. split; eauto.
    + rewrite !lookup_insert_ne by congruence. apply Hdom.
  - intros p Hp. destruct (decide (p = DeviceInfo.path info)) as [ -> | Hne ].
    + rewrite lookup_insert_eq. eauto.
    + rewrite lookup_insert_ne by congruence. apply Hinit, Hp.
  - intros p info0. destruct (decide (p = DeviceInfo.path info)) as [ -> | Hne ].
    + rewrite lookup_insert_eq. intros [= <-]. exact Hrec.
    + rewrite lookup_insert_ne by congruence. apply Hrecs.
Qed.

Lemma well_formed_close self : well_formed (close_devices self).1.
Proof. exact well_formed_init. Qed.

Lemma well_formed_call c self : well_formed self -> well_formed (call c self).
Proof. intros Hwf. destruct c; exact Hwf. Qed.

Lemma well_formed_send env self :
  well_formed self -> well_formed (send_data env self).1.2.
Proof.
  intros (Hdom & Hinit & Hrecs).
  destruct (send_data_run env self)
    as (self' & -> & _ & Hdev & Hinfo & Hini & _).
  cbn [fst snd]. refine (conj _ (conj _ _)).
  - intros p. rewrite Hdev, Hinfo.
    destruct (removed env self p); [ | apply Hdom ].
    split; intros [? [=]].
  - intros p [ [ Hp | [Hp _] ] Hkeep ]%Hini; rewrite Hdev, Hkeep; auto.
  - intros p info. rewrite Hinfo.
    destruct (removed env self p); [ discriminate | apply Hrecs ].
Qed.

Lemma clamped_call c self :
  clamped (_sensor_data self) -> clamped (_sensor_data (call c self)).
Proof. apply (calls_clamped [c]). Qed.

Lemma step_sensor_data self o :
  match o with
  | op_setter c => True
  | _ => _sensor_data (step self o) = _sensor_data self
  end.
Proof.
  destruct o as [ env | | c | env ]; cbn [step]; try exact I.
  - apply (open_each_spec env (scan_devices env) 0 self).
  - reflexivity.
  - destruct (send_data_run env self) as (self' & -> & Hd & _). exact Hd.
Qed.

Lemma step_invariant self o :
  well_formed self /\ clamped (_sensor_data self) ->
  well_formed (step self o) /\ clamped (_sensor_data (step self o)).
Proof.
  intros [Hwf Hcl]. pose proof (step_sensor_data self o) as Hd.
  destruct o as [ env | | c | env ]; cbn [step] in *.
  - rewrite Hd. split; [ apply well_formed_open, Hwf | exact Hcl ].
  - split; [ apply well_formed_close | exact Hcl ].
  - split; [ apply well_formed_call, Hwf | apply clamped_call, Hcl ].
  - rewrite Hd. split; [ apply well_formed_send, Hwf | exact Hcl ].
Qed.

Lemma run_invariant ops :
  well_formed (run ops) /\ clamped (_sensor_data (run ops)).
Proof.
  unfold run.
  assert (H : forall self,
            well_formed self /\ clamped (_sensor_data self) ->
            well_formed (foldl step self ops)
            /\ clamped (_sensor_data (foldl step self ops))).
  { induction ops as [ | o ops IH ]; intros self Hs; [ exact Hs | ].
    cbn [foldl]. apply IH, step_invariant, Hs. }
  apply H. split; [ exact well_formed_init | exact init_clamped ].
Qed.

(** ** Packets *)

Ltac bit_step :=
  match goal with
  | |- context [Z.testbit (Z.lor _ _) _] => rewrite Z.lor_spec
  | |- context [Z.testbit (Z.land _ _) _] => rewrite Z.land_spec
  | |- context [Z.testbit (Z.shiftl ?a ?k) ?m] =>
      first [ rewrite (Z.shiftl_spec a k m) by lia
            | rewrite (Z.testbit_neg_r (Z.shiftl a k) m) by lia ]
  | |- context [Z.testbit (Z.shiftr ?a ?k) ?m] =>
      first [ rewrite (Z.shiftr_spec a k m) by lia
            | rewrite (Z.testbit_neg_r (Z.shiftr a k) m) by lia ]
  | |- context [Z.testbit (Z.ones ?k) ?m] =>
      first [ rewrite (Z.ones_spec_low k m) by lia
            | rewrite (Z.ones_spec_high k m) by lia
            | rewrite (Z.testbit_neg_r (Z.ones k) m) by lia ]
  end.

Ltac bit_index v n :=
  repeat match goal with
         | |- context [Z.testbit v ?m] =>
             lazymatch m with
             | n => fail
             | _ => replace m with n by lia
             end
         end.

(** Splitting a 32-bit value into four bytes, high byte first, and reading
    them back gives the value. *)
Lemma be32_split v :
  0 <= v <= 4294967295 ->
  Z.lor (Z.shiftl (Z.lor (Z.shiftl (Z.land (Z.shiftr v 24) 0xFF) 8)
                         (Z.land (Z.shiftr v 16) 0xFF)) 16)
        (Z.lor (Z.shiftl (Z.land (Z.shiftr v 8) 0xFF) 8) (Z.land v 0xFF)) = v.
Proof.
  intros Hv. apply Z.bits_inj'. intros n Hn.
  change 0xFF with (Z.ones 8).
  assert (Hhigh : 32 <= n -> Z.testbit v n = false).
  { intros Hge. apply Z.bits_above_log2; [ lia | ].
    destruct (Z.eq_dec v 0) as [ -> | Hnz ]; [ cbn; lia | ].
    apply Z.log2_lt_pow2; [ lia | ].
    apply Z.lt_le_trans with (2 ^ 32); [ lia | ].
    apply Z.pow_le_mono_r; lia. }
  destruct (Z.ltb_spec n 8); [ |
    destruct (Z.ltb_spec n 16); [ |
      destruct (Z.ltb_spec n 24); [ |
        destruct (Z.ltb_spec n 32) ] ] ];
    repeat bit_step; bit_index v n;
    rewrite ?andb_true_r, ?andb_false_r, ?orb_false_r; cbn [orb andb];
    rewrite ?andb_true_r, ?andb_false_r, ?orb_false_r;
    try reflexivity.
  symmetry. apply Hhigh. lia.
Qed.

Lemma Forall_byte_cons (v : Z) (l : list Z) :
  0 <= v <= 255 -> Forall (fun b => 0 <= b <= 255) l ->
  Forall (fun b => 0 <= b <= 255) (v :: l).
Proof. intros. constructor; assumption. Qed.

Lemma land_byte x : 0 <= Z.land x 0xFF <= 255.
Proof. apply byte_ok_spec, byte_ok_land. Qed.

Lemma gamdias_layout_bytes d now :
  gamdias_stores_ok d now = true ->
  Forall (fun b => 0 <= b <= 255) (gamdias_layout d now).
Proof.
  unfold gamdias_stores_ok. rewrite !andb_true_iff, !byte_ok_spec.
  intros Hok. unfold gamdias_layout. cbn [app].
  repeat (apply Forall_byte_cons; [ first [ apply land_byte | lia ] | ]).
  constructor.
Qed.

Lemma hwcx_layout_bytes d now :
  hwcx_stores_ok d now = true ->
  Forall (fun b => 0 <= b <= 255) (hwcx_layout d now).
Proof.
  unfold hwcx_stores_ok. rewrite !andb_true_iff, !byte_ok_spec.
  intros Hok. unfold hwcx_layout. cbn [app].
  repeat (apply Forall_byte_cons; [ first [ apply land_byte | lia ] | ]).
  constructor.
Qed.

Lemma packet_for_length env self path info packet :
  packet_for env self path info = Ok packet -> length packet = 65%nat.
Proof.
  unfold packet_for. destruct (DeviceInfo.is_gamdias info).
  - intros [_ ->]%build_gamdias_inv. apply gamdias_layout_length.
  - intros [_ ->]%build_hwcx_inv. apply hwcx_layout_length.
Qed.

(** X1. For every object whose snapshot is within the bounds the clamping
    setters enforce and every valid clock, [_build_gamdias_packet] raises
    nothing, leaves the object as it was, and returns 65 bytes, each in
    [0, 255], from which every field reads back: the header [B0 01 00], the
    GPU temperature at 3, the CPU temperature at 4-5, the fan speeds at 7-8
    and 9-10 and the powers at 11-12 and 24-25 low byte first, the two
    frequencies at 14-15 and 17-18 high byte first, the usages, the time of
    day, memory and disk at their single bytes; byte 13 and bytes 26-64 are
    zero. *)
Theorem X1_gamdias_packet_round_trip (self : HidDevice.t) (now : datetime) :
  clamped (_sensor_data self) -> valid_clock now ->
  let d := _sensor_data self in
  exists p,
    _build_gamdias_packet now self = (Ok p, self) /\
    length p = 65%nat /\ Forall (fun b => 0 <= b <= 255) p /\
    take 3 p = [0xB0; 0x01; 0x00] /\
    p !! 3%nat = Some (gpu_temp d) /\ le16 p 4 = Some (cpu_temp d) /\
    p !! 6%nat = Some (cpu_usage d) /\ le16 p 7 = Some (cpu_fan_rpm d) /\
    le16 p 9 = Some (gpu_fan_rpm d) /\ le16 p 11 = Some (gpu_power d) /\
    p !! 13%nat = Some 0 /\ be16 p 14 = Some (cpu_freq d) /\
    p !! 16%nat = Some (gpu_usage d) /\ be16 p 17 = Some (gpu_freq d) /\
    p !! 19%nat = Some (hour now) /\ p !! 20%nat = Some (minute now) /\
    p !! 21%nat = Some (second now) /\ p !! 22%nat = Some (mem_usage d) /\
    p !! 23%nat = Some (disk_usage d) /\ le16 p 24 = Some (cpu_power d) /\
    drop 26 p = replicate 39 0.
Proof.
  intros Hc Hclock d.
  pose proof (clamped_gamdias_stores_ok d now Hc Hclock) as Hok.
  exists (gamdias_layout d now).
  split; [ rewrite _build_gamdias_packet_eq; fold d; rewrite Hok; reflexivity | ].
  split; [ apply gamdias_layout_length | ].
  split; [ apply gamdias_layout_bytes, Hok | ].
  split; [ reflexivity | ].
  pose proof (gamdias_layout_fields d now Hc) as Hf. cbn zeta in Hf.
  destruct Hf as (_ & _ & _ & H3 & H4 & H6 & H7 & H9 & H11 & H13 & H14 & H16
                  & H17 & H19 & H20 & H21 & H22 & H23 & H24).
  repeat (split; [ assumption | ]). reflexivity.
Qed.

Lemma X1_gamdias_packet_round_trip_witness :
  let self := set_gpu_data 55 30 1800 1500 120
                (set_cpu_data 45 25 3500 0 0 HidDevice.__init__) in
  exists p,
    _build_gamdias_packet example_clock self = (Ok p, self) /\
    p !! 3%nat = Some 55 /\ le16 p 4 = Some 45 /\ le16 p 9 = Some 1500 /\
    be16 p 14 = Some 3500 /\ be16 p 17 = Some 1800.
Proof.
  intros self.
  assert (Hc : clamped (_sensor_data self)) by (unfold clamped; cbn; lia).
  destruct (X1_gamdias_packet_round_trip self example_clock Hc example_clock_valid)
    as (p & Hp & _ & _ & _ & H3 & H4 & _ & _ & H9 & _ & _ & H14 & _ & H17 & _).
  exists p. repeat split; assumption.
Defined.

(** X2. For every object whose snapshot fits the widths of the packet (the
    setters' bounds, network rates below 2^32, display mode a byte) and every
    valid clock, [_build_hwcx_packet] raises nothing, leaves the object as it
    was, and returns 65 bytes, each in [0, 255], from which every field
    reads back: the header [00 02], temperatures, the time and the date with
    the year at 8-9, usages, frequencies, fan speeds and powers as 16-bit
    values high byte first, the two network rates as 32-bit values high byte
    first at 41-44 and 45-48, the display mode at 49; the reserved bytes and
    bytes 50-64 are zero. *)
Theorem X2_hwcx_packet_round_trip (self : HidDevice.t) (now : datetime) :
  wire_range (_sensor_data self) -> valid_clock now ->
  let d := _sensor_data self in
  exists p,
    _build_hwcx_packet now self = (Ok p, self) /\
    length p = 65%nat /\ Forall (fun b => 0 <= b <= 255) p /\
    take 2 p = [0x00; 0x02] /\
    p !! 2%nat = Some (cpu_temp d) /\ p !! 3%nat = Some (gpu_temp d) /\
    p !! 4%nat = Some (hour now) /\ p !! 5%nat = Some (minute now) /\
    p !! 6%nat = Some (second now) /\
    be16 p 8 = Some (year now) /\ p !! 10%nat = Some (month now) /\
    p !! 11%nat = Some (day now) /\ p !! 12%nat = Some (weekday now) /\
    p !! 13%nat = Some (cpu_usage d) /\ be16 p 14 = Some (cpu_freq d) /\
    p !! 16%nat = Some (gpu_usage d) /\ be16 p 17 = Some (gpu_freq d) /\
    p !! 19%nat = Some (mem_usage d) /\ p !! 20%nat = Some (mem_temp d) /\
    p !! 23%nat = Some (disk_usage d) /\ p !! 24%nat = Some (disk_temp d) /\
    be16 p 25 = Some (cpu_fan_rpm d) /\ be16 p 29 = Some (cpu_power d) /\
    be16 p 31 = Some (gpu_fan_rpm d) /\ be16 p 35 = Some (gpu_power d) /\
    be32 p 41 = Some (net_upload d) /\ be32 p 45 = Some (net_download d) /\
    p !! 49%nat = Some (display_mode d) /\
    Forall (fun i : nat => p !! i = Some 0)
      [7; 21; 22; 27; 28; 33; 34; 37; 38; 39; 40]%nat /\
    drop 50 p = replicate 15 0.
Proof.
  intros (Hc & Hup & Hdown & Hmode) Hclock d.
  pose proof (clamped_hwcx_stores_ok d now Hc Hmode Hclock) as Hok.
  exists (hwcx_layout d now).
  split; [ rewrite _build_hwcx_packet_eq; fold d; rewrite Hok; reflexivity | ].
  split; [ apply hwcx_layout_length | ].
  split; [ apply hwcx_layout_bytes, Hok | ].
  split; [ reflexivity | ].
  assert (Hy : 0 <= year now <= 65535) by (unfold valid_clock in Hclock; lia).
  pose proof (hwcx_layout_fields d now Hc Hy) as Hf. cbn zeta in Hf.
  destruct Hf as (_ & _ & H2 & H3 & H4 & H5 & H6 & _ & H8 & H10 & H11 & H12
                  & H13 & H14 & H16 & H17 & H19 & H20 & H23 & H24 & H25 & H29
                  & H31 & H35 & H49).
  repeat (split; [ assumption | ]).
  split; [ unfold be32, be16, hwcx_layout; cbn; f_equal; apply be32_split;
           fold d in Hup; lia | ].
  split; [ unfold be32, be16, hwcx_layout; cbn; f_equal; apply be32_split;
           fold d in Hdown; lia | ].
  split; [ assumption | ].
  split; [ repeat constructor | reflexivity ].
Qed.

Lemma X2_hwcx_packet_round_trip_witness :
  let self := set_network_speed 1000000 70000
                (set_cpu_data 45 25 3500 1200 65 HidDevice.__init__) in
  exists p,
    _build_hwcx_packet example_clock self = (Ok p, self) /\
    p !! 2%nat = Some 45 /\ be16 p 8 = Some 2026 /\ be16 p 25 = Some 1200 /\
    be32 p 41 = Some 1000000 /\ be32 p 45 = Some 70000.
Proof.
  intros self.
  assert (Hw : wire_range (_sensor_data self))
    by (unfold wire_range, clamped; cbn; lia).
  destruct (X2_hwcx_packet_round_trip self example_clock Hw example_clock_valid)
    as (p & Hp & _ & _ & _ & H2 & _ & _ & _ & _ & H8 & _ & _ & _ & _ & _ & _
        & _ & _ & _ & _ & _ & H25 & _ & _ & _ & H41 & H45 & _).
  exists p. repeat split; assumption.
Defined.

(** ** Transmission *)

Lemma send_data_events env self :
  (send_data env self).2 = send_events env self.
Proof.
  destruct (send_data_run env self) as (self' & -> & _). reflexivity.
Qed.

(** X3. What [send_data] does to the operating system, in full. There is
    an order of the handles of the table, each taken once, such that the
    calls made are exactly: first, handle by handle in that order, the init
    writes of a GAMDIAS handle not yet marked initialized followed by the one
    data write; then, in the same order, one [os.close] for each handle
    whose data write failed with errno 19. Nothing else is written, closed
    or slept on. *)
Theorem X3_send_data_trace (env : io) (self : HidDevice.t) :
  exists handles : list (string * Z),
    handles ≡ₚ map_to_list (_devices self) /\
    (send_data env self).2
    = flat_map (fun item => item_events env self item.1 item.2) handles
      ++ flat_map (close_events env self) handles.
Proof.
  exists (map_to_list (_devices self)). split; [ reflexivity | ].
  destruct (send_data_run env self) as (self' & -> & _). reflexivity.
Qed.

(** X4. [send_data] raises nothing, and returns [True] exactly when some handle
    of the table has a device record, its packet could be built, and
    [os.write] took all 65 bytes of it. *)
Theorem X4_send_data_returns_true_iff (env : io) (self : HidDevice.t) :
  exists ok self' evs,
    send_data env self = (Ok ok, self', evs) /\
    (ok = true <->
     exists path fd info packet,
       _devices self !! path = Some fd /\
       _device_info self !! path = Some info /\
       packet_for env self path info = Ok packet /\
       data_write env path packet = Ok 65).
Proof.
  destruct (send_data_run env self) as (self' & Hrun & _).
  eexists _, _, _. split; [ exact Hrun | ].
  rewrite existsb_exists. split.
  - intros (path & Hin & Hacc).
    apply list_elem_of_In, list_elem_of_fmap in Hin as ([p fd] & -> & Hin).
    apply elem_of_map_to_list in Hin. cbn [fst] in Hacc.
    unfold accepted in Hacc.
    destruct (_device_info self !! p) as [ info | ] eqn:Hinfo;
      [ | discriminate ].
    destruct (packet_for env self p info) as [ packet | ] eqn:Hp;
      [ | discriminate ].
    destruct (data_write env p packet) as [ written | ] eqn:Hw;
      [ | discriminate ].
    rewrite (packet_for_length env self p info packet Hp) in Hacc.
    apply Z.eqb_eq in Hacc. subst written.
    exists p, fd, info, packet. auto.
  - intros (path & fd & info & packet & Hfd & Hinfo & Hp & Hw).
    exists path. split.
    + apply list_elem_of_In, list_elem_of_fmap. exists (path, fd).
      split; [ reflexivity | ]. apply elem_of_map_to_list, Hfd.
    + unfold accepted. rewrite Hinfo, Hp, Hw.
      rewrite (packet_for_length env self path info packet Hp). reflexivity.
Qed.

(** X5. After [send_data], [get_online_device_count] is the count before minus
    the number of handles whose data write failed with errno 19; a handle
    that is still in the table has the descriptor it had; and the count is
    unchanged exactly when no handle failed that way. *)
Theorem X5_send_data_count (env : io) (self : HidDevice.t) :
  let self' := (send_data env self).1.2 in
  get_online_device_count self'
  = get_online_device_count self
    - Z.of_nat (length (filter (fun p => disconnected env self p = true)
                          (map_to_list (_devices self)).*1)) /\
  (forall p fd, _devices self' !! p = Some fd -> _devices self !! p = Some fd)
  /\ (get_online_device_count self' = get_online_device_count self <->
      forall p, is_Some (_devices self !! p) -> disconnected env self p = false).
Proof.
  destruct (send_data_run env self)
    as (self' & -> & _ & Hdev & _ & _ & Hsize).
  cbn [fst snd]. unfold get_online_device_count.
  split; [ lia | ]. split.
  - intros p fd. rewrite Hdev. destruct (removed env self p); congruence.
  - split.
    + intros Heq p [fd Hfd].
      assert (Hlen : length (filter (fun p => disconnected env self p = true)
                               (map_to_list (_devices self)).*1) = 0%nat)
        by lia.
      apply filter_length_0 in Hlen. rewrite Forall_forall in Hlen.
      specialize (Hlen p). destruct (disconnected env self p); [ | reflexivity ].
      exfalso. apply Hlen; [ | reflexivity ].
      apply list_elem_of_fmap. exists (p, fd). split; [ reflexivity | ].
      apply elem_of_map_to_list, Hfd.
    + intros Hnone.
      assert (Hlen : length (filter (fun p => disconnected env self p = true)
                               (map_to_list (_devices self)).*1) = 0%nat).
      { apply filter_length_0, Forall_forall.
        intros p ([q fd] & -> & Hin)%list_elem_of_fmap.
        apply elem_of_map_to_list in Hin. cbn [fst].
        rewrite (Hnone q) by eauto. discriminate. }
      lia.
Qed.






Lemma send_data_events_item env self p fd :
  _devices self !! p = Some fd ->
  exists before after,
    (send_data env self).2 = before ++ item_events env self p fd ++ after.
Proof.
  intros Hfd. rewrite send_data_events. unfold send_events.
  apply elem_of_map_to_list, list_elem_of_split in Hfd as (l1 & l2 & Heq).
  set (closes := flat_map (close_events env self) _). clearbody closes.
  rewrite Heq, flat_map_app. cbn [flat_map fst snd].
  exists (flat_map (fun item => item_events env self item.1 item.2) l1),
    (flat_map (fun item => item_events env self item.1 item.2) l2 ++ closes).
  rewrite <- !app_assoc. reflexivity.
Qed.

(** X7. A handle whose data write fails with errno 19 is taken out of the table
    and loses its initialized mark; when [open_devices] later opens the same
    path as a GAMDIAS device, the next [send_data] sends the three init
    writes to it again, right before its data packet. *)
Theorem X7_reconnect_sends_init_again (env1 env2 env3 : io) (self : HidDevice.t)
    (path : string) (fd : Z) (info : DeviceInfo.t) :
  is_Some (_devices self !! path) ->
  disconnected env1 self path = true ->
  let unplugged := (send_data env1 self).1.2 in
  let reopened := (open_devices env2 unplugged).2 in
  _devices reopened !! path = Some fd ->
  _device_info reopened !! path = Some info ->
  DeviceInfo.is_gamdias info = true ->
  _devices unplugged !! path = None /\
  (path ∉ _initialized_devices reopened) /\
  exists before after,
    (send_data env3 reopened).2
    = before ++ init_events env3 path fd
      ++ data_events env3 reopened path fd ++ after.
Proof.
  intros [fd0 Hfd0] Hdis unplugged reopened Hfd Hinfo Hg.
  assert (Hrm : removed env1 self path = true)
    by (unfold removed; rewrite Hfd0; exact Hdis).
  assert (Hgone : _devices unplugged !! path = None
                  /\ path ∉ _initialized_devices unplugged).
  { subst reopened unplugged.
    destruct (send_data_run env1 self)
      as (self' & -> & _ & Hdev & _ & Hini & _).
    cbn [fst snd]. rewrite Hdev, Hini, Hrm. split; [ reflexivity | ].
    intros [_ [=]]. }
  destruct Hgone as [Hnone Hnot]. split; [ exact Hnone | ].
  assert (Hnot2 : path ∉ _initialized_devices reopened).
  { subst reopened. unfold open_devices.
    destruct (open_each_spec env2 (scan_devices env2) 0 unplugged)
      as (_ & _ & -> & _). exact Hnot. }
  split; [ exact Hnot2 | ].
  destruct (send_data_events_item env3 reopened path fd Hfd)
    as (before & after & Htrace).
  exists before, after. rewrite Htrace. f_equal.
  rewrite app_assoc. f_equal.
  unfold item_events, data_events. rewrite Hinfo, Hg.
  rewrite bool_decide_eq_false_2 by exact Hnot2. reflexivity.
Qed.

Lemma X7_reconnect_sends_init_again_witness :
  let unplugged :=
    (send_data (example_io (Raise (OSError 19))) example_hid).1.2 in
  let reopened := (open_devices (example_io (Ok 65)) unplugged).2 in
  _devices unplugged !! "/dev/hidraw0" = None /\
  ("/dev/hidraw0" ∉ _initialized_devices reopened) /\
  exists before after,
    (send_data (example_io (Ok 65)) reopened).2
    = before ++ init_events (example_io (Ok 65)) "/dev/hidraw0" 3
      ++ data_events (example_io (Ok 65)) reopened "/dev/hidraw0" 3 ++ after.
Proof.
  apply (X7_reconnect_sends_init_again (example_io (Raise (OSError 19)))
           (example_io (Ok 65)) (example_io (Ok 65)) example_hid
           "/dev/hidraw0" 3 example_info).
  - exists 3. vm_compute. reflexivity.
  - vm_compute. reflexivity.
  - vm_compute. reflexivity.
  - vm_compute. reflexivity.
  - reflexivity.
Defined.

(** ** The object over its life *)

(** X8. In every state a [HidDevice] reaches from [__init__] by [open_devices],
    [close_devices], the six setters and [send_data], in any order and
    whatever the operating system answers: the two tables have the same
    paths, only paths in the tables are marked initialized, every device
    record is one of the two supported vendor and product pairs stored under
    its own path with [is_gamdias] set accordingly, and the twelve clamped
    fields of the snapshot are within their bounds. *)
Theorem X8_reachable_well_formed (ops : list op) :
  well_formed (run ops) /\ clamped (_sensor_data (run ops)).
Proof. apply run_invariant. Qed.

(** X9. In every state a [HidDevice] reaches and at every valid clock,
    [_build_gamdias_packet] returns 65 bytes, each in [0, 255]: no sequence
    of calls makes it raise. [_build_hwcx_packet] does the same when the
    display mode is within [0, 255], and raises [ValueError] when it is
    not. *)
Theorem X9_reachable_packets (ops : list op) (now : datetime) :
  valid_clock now ->
  let self := run ops in
  (exists p, _build_gamdias_packet now self = (Ok p, self) /\
             length p = 65%nat /\ Forall (fun b => 0 <= b <= 255) p) /\
  (0 <= display_mode (_sensor_data self) <= 255 ->
   exists p, _build_hwcx_packet now self = (Ok p, self) /\
             length p = 65%nat /\ Forall (fun b => 0 <= b <= 255) p) /\
  (~ 0 <= display_mode (_sensor_data self) <= 255 ->
   _build_hwcx_packet now self = (Raise ValueError, self)).
Proof.
  intros Hclock self. destruct (run_invariant ops) as [_ Hc]. fold self in Hc.
  rewrite _build_gamdias_packet_eq, _build_hwcx_packet_eq.
  refine (conj _ (conj _ _)).
  - pose proof (clamped_gamdias_stores_ok _ now Hc Hclock) as Hok.
    rewrite Hok. eexists. split; [ reflexivity | ].
    split; [ apply gamdias_layout_length | apply gamdias_layout_bytes, Hok ].
  - intros Hm.
    pose proof (clamped_hwcx_stores_ok _ now Hc Hm Hclock) as Hok.
    rewrite Hok. eexists. split; [ reflexivity | ].
    split; [ apply hwcx_layout_length | apply hwcx_layout_bytes, Hok ].
  - intros Hm.
    destruct (hwcx_stores_ok (_sensor_data self) now) eqn:Hok; [ | reflexivity ].
    exfalso. apply Hm. unfold hwcx_stores_ok in Hok.
    rewrite !andb_true_iff, !byte_ok_spec in Hok. lia.
Qed.

Lemma X9_reachable_packets_witness :
  let self := run [ op_setter (call_set_cpu_data 300 150 70000 (-5) 12);
                    op_setter (call_set_network_speed 4294967296 (-1));
                    op_setter (call_set_display_mode 256) ] in
  (exists p, _build_gamdias_packet example_clock self = (Ok p, self) /\
             length p = 65%nat) /\
  _build_hwcx_packet example_clock self = (Raise ValueError, self).
Proof.
  intros self.
  destruct (X9_reachable_packets
              [ op_setter (call_set_cpu_data 300 150 70000 (-5) 12);
                op_setter (call_set_network_speed 4294967296 (-1));
                op_setter (call_set_display_mode 256) ]
              example_clock example_clock_valid) as ((p & Hp & Hlen & _) & _ & Hb).
  split; [ exists p; split; assumption | ].
  apply Hb. cbn. lia.
Defined.

(** ** Discovery, open and close *)

(** X10. [scan_devices] reports exactly the hidraw nodes whose ioctl answered
    and whose vendor and product ids, taken modulo 2^16, are one of the two
    supported pairs; the record holds the path, the two ids modulo 2^16, the
    name, and [is_gamdias] set exactly for the GAMDIAS pair; the records come
    in the order of the nodes, each node at most once. *)
Theorem X10_scan_devices_reports_supported (env : io) :
  (forall info,
     info ∈ scan_devices env <->
     exists path vendor product name,
       (path, Some (vendor, product, name)) ∈ hidraw env /\
       (is_gamdias_pair (vendor mod 65536) (product mod 65536) \/
        is_hwcx_pair (vendor mod 65536) (product mod 65536)) /\
       info = {| DeviceInfo.path := path;
                 DeviceInfo.vendor_id := vendor mod 65536;
                 DeviceInfo.product_id := product mod 65536;
                 DeviceInfo.name := name;
                 DeviceInfo.is_gamdias :=
                   bool_decide (is_gamdias_pair (vendor mod 65536)
                                  (product mod 65536)) |}) /\
  (DeviceInfo.path <$> scan_devices env) `sublist_of` (hidraw env).*1.
Proof.
  split; [ | apply scan_nodes_sublist ].
  intros info. unfold scan_devices. rewrite elem_of_scan_nodes.
  assert (Hmask : forall v, Z.land v 0xFFFF = v mod 65536).
  { intros v. change 0xFFFF with (Z.ones 16). rewrite Z.land_ones by lia.
    reflexivity. }
  assert (Hg : forall v p,
            (v =? 0x1B80) && (p =? 0xB538) = bool_decide (is_gamdias_pair v p)).
  { intros v p. unfold is_gamdias_pair.
    destruct (Z.eqb_spec v 0x1B80), (Z.eqb_spec p 0xB538); cbn [andb];
      symmetry;
      first [ apply bool_decide_eq_true_2; tauto
            | apply bool_decide_eq_false_2; tauto ]. }
  split.
  - intros (path & [ [ [v p] name ] | ] & Hin & Hrec & Hs); [ | discriminate ].
    cbn [_get_device_info] in Hrec. injection Hrec as <-.
    apply supported_pairs in Hs.
    cbn [DeviceInfo.vendor_id DeviceInfo.product_id] in Hs.
    rewrite !Hmask in *. rewrite Hg.
    exists path, v, p, name. auto.
  - intros (path & v & p & name & Hin & Hs & ->).
    exists path, (Some (v, p, name)). split; [ exact Hin | ].
    cbn [_get_device_info]. rewrite !Hmask, Hg. split; [ reflexivity | ].
    apply supported_pairs. exact Hs.
Qed.

(** X11. [open_devices] returns the number of reported devices whose [os.open]
    succeeded. It leaves the snapshot and the initialized marks alone; a
    device that opened is in the table under its path with the descriptor
    [os.open] gave, and with its own record when no node is listed twice; a
    path none of whose devices opened keeps its entries; when nothing opened
    the object is unchanged, and when something opened
    [get_online_device_count] is positive. *)
Theorem X11_open_devices_spec (env : io) (self : HidDevice.t) :
  let count := (open_devices env self).1 in
  let self' := (open_devices env self).2 in
  count = Z.of_nat (length (filter (fun info => opens env info = true)
                              (scan_devices env))) /\
  _sensor_data self' = _sensor_data self /\
  _initialized_devices self' = _initialized_devices self /\
  (forall info fd,
     info ∈ scan_devices env -> os_open env (DeviceInfo.path info) = Ok fd ->
     _devices self' !! DeviceInfo.path info = Some fd /\
     (NoDup (hidraw env).*1 ->
      _device_info self' !! DeviceInfo.path info = Some info)) /\
  (forall p,
     (forall info, info ∈ scan_devices env -> DeviceInfo.path info = p ->
                   opens env info = false) ->
     _devices self' !! p = _devices self !! p /\
     _device_info self' !! p = _device_info self !! p) /\
  (count = 0 -> self' = self) /\
  (0 < count -> 0 < get_online_device_count self').
Proof.
  intros count self'. subst count self'. unfold open_devices.
  destruct (open_each_spec env (scan_devices env) 0 self)
    as (Hn & Hd & Hi & Hframe & Hopened & Hsame).
  set (r := open_each env (scan_devices env) 0 self) in *.
  refine (conj _ (conj Hd (conj Hi (conj _ (conj Hframe (conj _ _)))))).
  - rewrite Hn. lia.
  - intros info fd Hin Hfd.
    destruct (Hopened info fd Hin Hfd) as (H1 & info' & Hin' & Hpath & H2).
    split; [ exact H1 | ]. intros Hnd. rewrite H2. f_equal.
    apply (NoDup_fmap_elem_eq DeviceInfo.path (scan_devices env));
      auto using scan_devices_paths_NoDup.
  - intros Hz. apply Hsame. rewrite Hn in Hz.
    assert (Hlen : length (filter (fun info => opens env info = true)
                             (scan_devices env)) = 0%nat) by lia.
    apply filter_length_0 in Hlen. eapply Forall_impl; [ exact Hlen | ].
    intros info Hno. cbn in Hno. destruct (opens env info); congruence.
  - intros Hpos. rewrite Hn in Hpos.
    destruct (filter (fun info => opens env info = true) (scan_devices env))
      as [ | info rest ] eqn:Hf; [ cbn in Hpos; lia | ].
    assert (Hin : info ∈ filter (fun info => opens env info = true)
                           (scan_devices env)) by (rewrite Hf; left).
    apply list_elem_of_filter in Hin as [Hop Hin]. unfold opens in Hop.
    destruct (os_open env (DeviceInfo.path info)) as [ fd | ] eqn:Hfd;
      [ | discriminate ].
    destruct (Hopened info fd Hin Hfd) as (H1 & _).
    unfold get_online_device_count.
    assert (size (_devices r.2) <> 0%nat)
      by (apply map_size_ne_0_lookup_2 with (DeviceInfo.path info); eauto).
    lia.
Qed.

(** X12. [close_devices] closes every descriptor of the table, each once, and
    nothing else; afterwards [get_online_device_count] is 0, no path is
    marked initialized, the snapshot is what it was, and [send_data] returns
    [False] without touching the operating system. *)
Theorem X12_close_devices_spec (self : HidDevice.t) :
  let self' := (close_devices self).1 in
  let evs := (close_devices self).2 in
  get_online_device_count self' = 0 /\
  _initialized_devices self' = ∅ /\
  _sensor_data self' = _sensor_data self /\
  (forall e, e ∈ evs <-> exists p fd, _devices self !! p = Some fd /\
                                      e = os_close fd) /\
  Z.of_nat (length evs) = get_online_device_count self /\
  (forall env, send_data env self' = (Ok false, self', [])).
Proof.
  cbn zeta. unfold close_devices. cbn [fst snd].
  refine (conj _ (conj _ (conj _ (conj _ (conj _ _))))); try reflexivity.
  - intros e. rewrite list_elem_of_fmap. split.
    + intros ([p fd] & -> & Hin). apply elem_of_map_to_list in Hin. eauto.
    + intros (p & fd & Hfd & ->). exists (p, fd). split; [ reflexivity | ].
      apply elem_of_map_to_list, Hfd.
  - rewrite length_fmap, length_map_to_list. reflexivity.
Qed.

(** X13. In every state a [HidDevice] reaches, every handle of the table has a
    device record, and [send_data] writes that handle's packet to its
    descriptor whenever the handle is a GAMDIAS one or the display mode is a
    byte: no open handle is passed over. *)
Theorem X13_reachable_send_writes_every_handle (ops : list op) (env : io)
    (path : string) (fd : Z) :
  valid_clock (now env path) ->
  _devices (run ops) !! path = Some fd ->
  exists info,
    _device_info (run ops) !! path = Some info /\
    (DeviceInfo.is_gamdias info = true \/
     0 <= display_mode (_sensor_data (run ops)) <= 255 ->
     exists packet,
       packet_for env (run ops) path info = Ok packet /\
       os_write fd packet (data_write env path packet)
       ∈ (send_data env (run ops)).2).
Proof.
  intros Hclock Hfd. destruct (run_invariant ops) as [(Hdom & _ & _) Hc].
  destruct (proj1 (Hdom path)) as [info Hinfo]; [ eauto | ].
  exists info. split; [ exact Hinfo | ]. intros Hcase.
  assert (Hp : exists packet, packet_for env (run ops) path info = Ok packet).
  { unfold packet_for.
    rewrite _build_gamdias_packet_eq, _build_hwcx_packet_eq. cbn [fst].
    destruct (DeviceInfo.is_gamdias info).
    - rewrite clamped_gamdias_stores_ok by assumption. eauto.
    - destruct Hcase as [ [=] | Hm ].
      rewrite clamped_hwcx_stores_ok by assumption. eauto. }
  destruct Hp as [packet Hp]. exists packet. split; [ exact Hp | ].
  destruct (send_data_spec env (run ops))
    as (ok & self' & evs & -> & _ & _ & _ & _ & Hwr).
  cbn [snd]. apply (Hwr path fd info packet); assumption.
Qed.

Lemma X13_reachable_send_writes_every_handle_witness :
  let ops := [ op_open_devices (example_io (Ok 65));
               op_setter (call_set_display_mode 300) ] in
  exists packet,
    packet_for (example_io (Ok 65)) (run ops) "/dev/hidraw0" example_info
    = Ok packet /\
    os_write 3 packet (Ok 65) ∈ (send_data (example_io (Ok 65)) (run ops)).2.
Proof.
  intros ops.
  destruct (X13_reachable_send_writes_every_handle ops (example_io (Ok 65))
              "/dev/hidraw0" 3 example_clock_valid)
    as (info & Hinfo & Hw).
  { vm_compute. reflexivity. }
  assert (Heq : info = example_info).
  { assert (H : _device_info (run ops) !! "/dev/hidraw0" = Some example_info)
      by (vm_compute; reflexivity).
    congruence. }
  subst info. destruct Hw as (packet & Hp & Hin); [ left; reflexivity | ].
  exists packet. split; assumption.
Defined.

Import Readings Examples.

(** ** The update cycle *)

Lemma int_of_float_cases x :
  (isfinite x = true /\ exists n, int_of_float x = Ok n) \/
  (isfinite x = false /\
   (int_of_float x = Raise ValueError \/ int_of_float x = Raise OverflowError)).
Proof. destruct x; cbn; eauto. Qed.

Lemma well_formed_calls cs self : well_formed self -> well_formed (calls cs self).
Proof.
  unfold calls. revert self.
  induction cs as [ | c cs IH ]; intros self Hwf; [ exact Hwf | ].
  cbn. apply IH, well_formed_call, Hwf.
Qed.

(** The part of the cycle after the device check, in closed form. *)
Lemma collect_and_send_eq e s :
  let cpu := LKDisplay.cpu_reading e in
  let gpu := HardwareMonitor.get_gpu_data (LKDisplay.gpu_readers e)
               (LKDisplay.monitor (LKDisplay.self_ s)) in
  LKDisplay.collect_and_send e s =
  match convert4 (CpuData.temperature cpu) (CpuData.usage cpu)
          (CpuData.frequency cpu) (CpuData.power cpu) with
  | Raise x => (Raise x, s)
  | Ok (temp, usage, freq, power) =>
      let h1 := set_cpu_data temp usage freq (CpuData.fan_rpm cpu) power
                  (LKDisplay.hid (LKDisplay.self_ s)) in
      match (if GpuData.is_valid gpu
             then convert4 (GpuData.temperature gpu) (GpuData.usage gpu)
                    (GpuData.frequency gpu) (GpuData.power gpu)
             else Ok (0, 0, 0, 0)) with
      | Raise x =>
          (Raise x,
           {| LKDisplay.self_ :=
                {| LKDisplay.hid := h1;
                   LKDisplay.monitor := LKDisplay.monitor (LKDisplay.self_ s) |};
              LKDisplay.events := LKDisplay.events s |})
      | Ok (gtemp, gusage, gfreq, gpower) =>
          let h2 :=
            set_disk_data (LKDisplay.disk_usage_now e) 0
              (set_memory_data (LKDisplay.memory_usage e) 0
                 (set_gpu_data gtemp gusage gfreq
                    (if GpuData.is_valid gpu then GpuData.fan_rpm gpu else 0)
                    gpower h1)) in
          (Ok tt,
           {| LKDisplay.self_ :=
                {| LKDisplay.hid := (send_data (LKDisplay.device_io e) h2).1.2;
                   LKDisplay.monitor := LKDisplay.monitor (LKDisplay.self_ s) |};
              LKDisplay.events :=
                LKDisplay.events s ++ (send_data (LKDisplay.device_io e) h2).2 |})
      end
  end.
Proof.
  destruct s as [ [h mon] evs ].
  cbv beta iota zeta delta [LKDisplay.collect_and_send convert4 bind lift gets
    modify ret LKDisplay.on_hid LKDisplay.hid_send_data LKDisplay.self_
    LKDisplay.hid LKDisplay.monitor LKDisplay.events].
  destruct (int_of_float (CpuData.temperature _)); [ | reflexivity ].
  destruct (int_of_float (CpuData.usage _)); [ | reflexivity ].
  destruct (int_of_float (CpuData.frequency _)); [ | reflexivity ].
  destruct (int_of_float (CpuData.power _)); [ | reflexivity ].
  assert (Hsend : forall h2 : HidDevice.t,
    exists ok h' evs', send_data (LKDisplay.device_io e) h2 = (Ok ok, h', evs')).
  { intros h2. destruct (send_data_spec (LKDisplay.device_io e) h2)
      as (ok & h' & evs' & Hrun & _). eauto. }
  destruct (GpuData.is_valid _).
  - destruct (int_of_float (GpuData.temperature _)); [ | reflexivity ].
    destruct (int_of_float (GpuData.usage _)); [ | reflexivity ].
    destruct (int_of_float (GpuData.frequency _)); [ | reflexivity ].
    destruct (int_of_float (GpuData.power _)); [ | reflexivity ].
    match goal with
    | |- context [send_data _ ?h2] =>
        destruct (Hsend h2) as (ok & h' & evs' & ->)
    end. reflexivity.
  - match goal with
    | |- context [send_data _ ?h2] =>
        destruct (Hsend h2) as (ok & h' & evs' & ->)
    end. reflexivity.
Qed.

Lemma open_devices_none env h :
  (open_devices env h).1 = 0 -> (open_devices env h).2 = h.
Proof.
  unfold open_devices.
  destruct (open_each_spec env (scan_devices env) 0 h)
    as (Hn & _ & _ & _ & _ & Hsame).
  intros Hz. apply Hsame. rewrite Hn in Hz.
  assert (Hlen : length (filter (fun info => opens env info = true)
                           (scan_devices env)) = 0%nat) by lia.
  apply filter_length_0 in Hlen. eapply Forall_impl; [ exact Hlen | ].
  intros info Hno. cbn in Hno. destruct (opens env info); congruence.
Qed.

Lemma open_devices_count env h :
  (open_devices env h).1
  = Z.of_nat (length (filter (fun info => opens env info = true)
                        (scan_devices env))).
Proof.
  unfold open_devices.
  destruct (open_each_spec env (scan_devices env) 0 h) as (Hn & _).
  rewrite Hn. lia.
Qed.

Lemma open_devices_sensor_data env h :
  _sensor_data (open_devices env h).2 = _sensor_data h.
Proof. apply (open_each_spec env (scan_devices env) 0 h). Qed.

(** [_update_cycle] in closed form: the device check, then the rest. *)
Lemma _update_cycle_eq e s :
  LKDisplay._update_cycle e s =
  match after_device_check e (LKDisplay.hid (LKDisplay.self_ s)) with
  | None =>
      (Ok tt,
       {| LKDisplay.self_ := LKDisplay.self_ s;
          LKDisplay.events := LKDisplay.events s ++ [time_sleep 5000] |})
  | Some h0 =>
      LKDisplay.collect_and_send e
        {| LKDisplay.self_ :=
             {| LKDisplay.hid := h0;
                LKDisplay.monitor := LKDisplay.monitor (LKDisplay.self_ s) |};
           LKDisplay.events := LKDisplay.events s |}
  end.
Proof.
  destruct s as [ [h mon] evs ]. unfold after_device_check.
  unfold LKDisplay._update_cycle. unfold bind at 1, gets at 1.
  cbn [LKDisplay.self_ LKDisplay.hid LKDisplay.monitor LKDisplay.events].
  destruct (get_online_device_count h =? 0); [ | reflexivity ].
  unfold bind at 1, LKDisplay.hid_open_devices.
  cbn [LKDisplay.self_ LKDisplay.hid LKDisplay.monitor LKDisplay.events].
  pose proof (open_devices_none (LKDisplay.device_io e) h) as Hnone.
  destruct (open_devices (LKDisplay.device_io e) h) as [ count h1 ].
  cbn [fst snd] in *.
  destruct (Z.eqb_spec count 0) as [ Hz | Hnz ]; [ | reflexivity ].
  rewrite (Hnone Hz). reflexivity.
Qed.

Lemma convert4_cases a b c d :
  (isfinite a && isfinite b && isfinite c && isfinite d = true /\
   exists v, convert4 a b c d = Ok v) \/
  (isfinite a && isfinite b && isfinite c && isfinite d = false /\
   (convert4 a b c d = Raise ValueError \/
    convert4 a b c d = Raise OverflowError)).
Proof.
  unfold convert4.
  destruct (int_of_float_cases a) as [ [-> [a' ->]] | [-> [ -> | -> ]] ]; auto.
  destruct (int_of_float_cases b) as [ [-> [b' ->]] | [-> [ -> | -> ]] ]; auto.
  destruct (int_of_float_cases c) as [ [-> [c' ->]] | [-> [ -> | -> ]] ]; auto.
  destruct (int_of_float_cases d) as [ [-> [d' ->]] | [-> [ -> | -> ]] ]; auto.
  left. eauto.
Qed.

(** The rest of the cycle, case by case: which setters ran, and whether
    [send_data] did. *)
Lemma collect_and_send_cases e s :
  let r := LKDisplay.collect_and_send e s in
  let h := LKDisplay.hid (LKDisplay.self_ s) in
  let gpu := HardwareMonitor.get_gpu_data (LKDisplay.gpu_readers e)
               (LKDisplay.monitor (LKDisplay.self_ s)) in
  LKDisplay.monitor (LKDisplay.self_ r.2) = LKDisplay.monitor (LKDisplay.self_ s)
  /\
  (cpu_converts (LKDisplay.cpu_reading e) && gpu_converts gpu = true /\
   r.1 = Ok tt /\
   (exists cs, Forall clamping cs /\
      LKDisplay.hid (LKDisplay.self_ r.2)
      = (send_data (LKDisplay.device_io e) (calls cs h)).1.2 /\
      LKDisplay.events r.2
      = LKDisplay.events s ++ (send_data (LKDisplay.device_io e) (calls cs h)).2)
   \/
   cpu_converts (LKDisplay.cpu_reading e) && gpu_converts gpu = false /\
   (r.1 = Raise ValueError \/ r.1 = Raise OverflowError) /\
   LKDisplay.events r.2 = LKDisplay.events s /\
   (exists cs, Forall clamping cs /\
      LKDisplay.hid (LKDisplay.self_ r.2) = calls cs h /\
      (cpu_converts (LKDisplay.cpu_reading e) = false -> cs = []))).
Proof.
  cbn zeta. rewrite collect_and_send_eq. cbn zeta.
  unfold cpu_converts, gpu_converts.
  set (cpu := LKDisplay.cpu_reading e).
  set (gpu := HardwareMonitor.get_gpu_data _ _).
  set (h := LKDisplay.hid (LKDisplay.self_ s)).
  destruct (convert4_cases (CpuData.temperature cpu) (CpuData.usage cpu)
              (CpuData.frequency cpu) (CpuData.power cpu))
    as [ [-> [ [ [ [temp usage] freq] power] ->]] | [-> Hx] ].
  2: { cbn [andb]. split; [ destruct Hx as [ -> | -> ]; reflexivity | ].
       right. split; [ reflexivity | ].
       split; [ destruct Hx as [ -> | -> ]; auto | ].
       split; [ destruct Hx as [ -> | -> ]; reflexivity | ].
       exists []. split; [ constructor | ].
       split; [ destruct Hx as [ -> | -> ]; reflexivity | auto ]. }
  cbn [andb].
  set (c1 := call_set_cpu_data temp usage freq (CpuData.fan_rpm cpu) power).
  set (c3 := call_set_memory_data (LKDisplay.memory_usage e) 0).
  set (c4 := call_set_disk_data (LKDisplay.disk_usage_now e) 0).
  destruct (GpuData.is_valid gpu); cbn [negb orb].
  - destruct (convert4_cases (GpuData.temperature gpu) (GpuData.usage gpu)
                (GpuData.frequency gpu) (GpuData.power gpu))
      as [ [-> [ [ [ [gtemp gusage] gfreq] gpower] ->]] | [-> Hx] ].
    + split; [ reflexivity | ]. left. split; [ reflexivity | ].
      split; [ reflexivity | ].
      exists [c1; call_set_gpu_data gtemp gusage gfreq (GpuData.fan_rpm gpu)
                    gpower; c3; c4].
      split; [ repeat constructor | ]. split; reflexivity.
    + split; [ destruct Hx as [ -> | -> ]; reflexivity | ].
      right. split; [ reflexivity | ].
      split; [ destruct Hx as [ -> | -> ]; auto | ].
      split; [ destruct Hx as [ -> | -> ]; reflexivity | ].
      exists [c1]. split; [ repeat constructor | ].
      split; [ destruct Hx as [ -> | -> ]; reflexivity | discriminate ].
  - split; [ reflexivity | ]. left. split; [ reflexivity | ].
    split; [ reflexivity | ].
    exists [c1; call_set_gpu_data 0 0 0 0 0; c3; c4].
    split; [ repeat constructor | ]. split; reflexivity.
Qed.

Lemma after_device_check_sensor e h h0 :
  after_device_check e h = Some h0 ->
  _sensor_data h0 = _sensor_data h /\
  (well_formed h -> well_formed h0).
Proof.
  unfold after_device_check.
  destruct (get_online_device_count h =? 0).
  - destruct (_ =? 0); [ discriminate | ]. intros [= <-]. split.
    + apply open_devices_sensor_data.
    + apply well_formed_open.
  - intros [= <-]. auto.
Qed.

(** X14. When no device is connected and none of the reported devices can be
    opened, [_update_cycle] returns normally having slept 5 seconds and done
    nothing else: no sensor is converted, no setter runs, nothing is
    sent. *)
Theorem X14_update_cycle_backoff (e : LKDisplay.env) (s : LKDisplay.frame) :
  get_online_device_count (LKDisplay.hid (LKDisplay.self_ s)) = 0 ->
  Forall (fun info => opens (LKDisplay.device_io e) info = false)
    (scan_devices (LKDisplay.device_io e)) ->
  LKDisplay._update_cycle e s =
  (Ok tt,
   {| LKDisplay.self_ := LKDisplay.self_ s;
      LKDisplay.events := LKDisplay.events s ++ [time_sleep 5000] |}).
Proof.
  intros Hcount Hlocked. rewrite _update_cycle_eq. unfold after_device_check.
  rewrite Hcount. cbn [Z.eqb].
  rewrite open_devices_count.
  assert (Hlen : length (filter (fun info => opens (LKDisplay.device_io e) info
                                             = true)
                           (scan_devices (LKDisplay.device_io e))) = 0%nat).
  { apply filter_length_0. eapply Forall_impl; [ exact Hlocked | ].
    intros info Hno. cbn in *. congruence. }
  rewrite Hlen. reflexivity.
Qed.

Lemma X14_update_cycle_backoff_witness :
  LKDisplay._update_cycle locked_env fresh_app =
  (Ok tt,
   {| LKDisplay.self_ := LKDisplay.self_ fresh_app;
      LKDisplay.events := [time_sleep 5000] |}).
Proof.
  apply (X14_update_cycle_backoff locked_env fresh_app).
  - reflexivity.
  - repeat constructor.
Defined.


(** X16. [_update_cycle] keeps the device object well formed and every field of
    the snapshot within the width the packets give it, whether the cycle
    returns or raises, and whatever the sensors read. *)
Theorem X16_update_cycle_keeps_invariants (e : LKDisplay.env)
    (s : LKDisplay.frame) :
  well_formed (LKDisplay.hid (LKDisplay.self_ s)) ->
  wire_range (_sensor_data (LKDisplay.hid (LKDisplay.self_ s))) ->
  let s' := (LKDisplay._update_cycle e s).2 in
  well_formed (LKDisplay.hid (LKDisplay.self_ s')) /\
  wire_range (_sensor_data (LKDisplay.hid (LKDisplay.self_ s'))).
Proof.
  intros Hwf Hw. cbn zeta. rewrite _update_cycle_eq.
  destruct (after_device_check e (LKDisplay.hid (LKDisplay.self_ s)))
    as [ h0 | ] eqn:Hcheck.
  2: { cbn [snd LKDisplay.self_]. auto. }
  destruct (after_device_check_sensor e _ h0 Hcheck) as [Hd0 Hwf0].
  set (s0 := {| LKDisplay.self_ := {| LKDisplay.hid := h0;
                  LKDisplay.monitor := LKDisplay.monitor (LKDisplay.self_ s) |};
                LKDisplay.events := LKDisplay.events s |}).
  destruct (collect_and_send_cases e s0) as [Hmon Hcases]. cbn zeta in Hcases.
  cbn [s0 LKDisplay.self_ LKDisplay.hid LKDisplay.monitor LKDisplay.events]
    in Hcases, Hmon.
  fold s0 in Hcases, Hmon.
  assert (Hcalls : forall cs, Forall clamping cs ->
            well_formed (calls cs h0) /\
            wire_range (_sensor_data (calls cs h0))).
  { intros cs Hcs. split; [ apply well_formed_calls, Hwf0, Hwf | ].
    apply calls_wire_range; [ exact Hcs | rewrite Hd0; exact Hw ]. }
  destruct Hcases as [ (_ & _ & cs & Hcs & Hh & _)
                     | (_ & _ & _ & cs & Hcs & Hh & _) ];
    rewrite Hh; destruct (Hcalls cs Hcs) as [Hwf1 Hw1].
  - split; [ apply well_formed_send, Hwf1 | ].
    destruct (send_data_spec (LKDisplay.device_io e) (calls cs h0))
      as (ok & h' & evs' & -> & Hd' & _).
    cbn [fst snd]. rewrite Hd'. exact Hw1.
  - auto.
Qed.

Lemma example_hid_reachable :
  LKDisplay.hid (LKDisplay.self_ example_app)
  = run [ op_setter (call_set_cpu_data 45 25 3500 0 0);
          op_open_devices (example_io (Ok 65));
          op_setter (call_set_gpu_data 55 30 1800 1500 120) ].
Proof. vm_compute. reflexivity. Qed.

Lemma X16_update_cycle_keeps_invariants_witness :
  let s' := (LKDisplay._update_cycle example_env example_app).2 in
  well_formed (LKDisplay.hid (LKDisplay.self_ s')) /\
  wire_range (_sensor_data (LKDisplay.hid (LKDisplay.self_ s'))).
Proof.
  apply (X16_update_cycle_keeps_invariants example_env example_app).
  - rewrite example_hid_reachable. apply run_invariant.
  - unfold wire_range, clamped. cbn. lia.
Defined.

(** A temperature that is not a number ends the cycle with [ValueError]
    before any setter ran: the snapshot of the example is untouched and
    nothing is written. *)
Lemma update_cycle_nan_example :
  (LKDisplay._update_cycle nan_env example_app).1 = Raise ValueError /\
  (LKDisplay._update_cycle nan_env example_app).2 = example_app.
Proof. split; vm_compute; reflexivity. Qed.

Import Detection.

(** ** GPU detection *)

Lemma detect_cards_passed_over card rest m :
  passed_over card ->
  HardwareMonitor.detect_cards (card :: rest) m
  = HardwareMonitor.detect_cards rest m.
Proof.
  intros H. cbn [HardwareMonitor.detect_cards].
  destruct H as [ -> | [ -> | H ] ];
    [ reflexivity | rewrite orb_true_r; reflexivity | ].
  destruct (negb _ || _); [ reflexivity | ].
  destruct H as [ -> | H ]; [ reflexivity | ].
  destruct (negb _); [ reflexivity | ].
  destruct H as [ -> | [ (text & -> & Ha & Hi) | (text & -> & Ha & Hh) ] ];
    [ reflexivity | | ].
  - destruct (String.eqb_spec (strip text) "0x1002"); [ contradiction | ].
    destruct (String.eqb_spec (strip text) "0x8086"); [ contradiction | ].
    reflexivity.
  - rewrite Ha. cbn [String.eqb Ascii.eqb Bool.eqb andb].
    destruct Hh as [ -> | -> ]; reflexivity.
Qed.

Lemma detect_cards_skip pre rest m :
  Forall passed_over pre ->
  HardwareMonitor.detect_cards (pre ++ rest) m
  = HardwareMonitor.detect_cards rest m.
Proof.
  induction 1 as [ | card pre Hcard _ IH ]; [ reflexivity | ].
  cbn [app]. rewrite detect_cards_passed_over by exact Hcard. exact IH.
Qed.

Lemma detect_cards_inspected card text rest m :
  inspected card text ->
  HardwareMonitor.detect_cards (card :: rest) m
  = if String.eqb (strip text) "0x1002" then
      match HardwareMonitor.card_hwmon card with
      | Some (hwmon :: _) =>
          HardwareMonitor.set_amd (device_path card +:+ "/hwmon/" +:+ hwmon) m
      | _ => HardwareMonitor.detect_cards rest m
      end
    else if String.eqb (strip text) "0x8086" then
      HardwareMonitor.set_intel (device_path card) m
    else HardwareMonitor.detect_cards rest m.
Proof.
  intros (Hname & Hdash & Hdev & Hvendor).
  cbn [HardwareMonitor.detect_cards]. rewrite Hname, Hdash, Hdev, Hvendor.
  reflexivity.
Qed.

(** X17. The loop of [_detect_gpu] over [/sys/class/drm] stops at the first
    entry that is a [card*] entry without a dash, has a [device] directory
    and a [vendor] file, and is either Intel ([0x8086]) or AMD ([0x1002])
    with an entry under [device/hwmon]: for Intel it records the device
    directory, for AMD the first hwmon entry; entries after it are not
    looked at. *)
Theorem X17_detect_cards_first_eligible (pre post : list HardwareMonitor.drm_card)
    (card : HardwareMonitor.drm_card) (text : string)
    (m : HardwareMonitor.t) :
  Forall passed_over pre ->
  inspected card text ->
  (strip text = "0x8086" ->
   HardwareMonitor.detect_cards (pre ++ card :: post) m
   = HardwareMonitor.set_intel (device_path card) m) /\
  (forall hwmon more,
     strip text = "0x1002" ->
     HardwareMonitor.card_hwmon card = Some (hwmon :: more) ->
     HardwareMonitor.detect_cards (pre ++ card :: post) m
     = HardwareMonitor.set_amd (device_path card +:+ "/hwmon/" +:+ hwmon) m).
Proof.
  intros Hpre Hcard. rewrite (detect_cards_skip pre _ m Hpre).
  rewrite (detect_cards_inspected card text post m Hcard). split.
  - intros ->. reflexivity.
  - intros hwmon more -> ->. reflexivity.
Qed.

Lemma X17_detect_cards_first_eligible_witness :
  HardwareMonitor._gpu_vendor
    (HardwareMonitor.__init__ (Ok stat_100_1000) false (Some example_cards))
  = Some "intel" /\
  HardwareMonitor._intel_gpu_path
    (HardwareMonitor.__init__ (Ok stat_100_1000) false (Some example_cards))
  = Some "/sys/class/drm/card1/device".
Proof.
  assert (Hpre : Forall passed_over (take 3 example_cards)).
  { constructor; [ | constructor; [ | constructor; [ | constructor ] ] ].
    - right. left. reflexivity.
    - left. reflexivity.
    - do 5 right. eexists. split; [ reflexivity | ].
      split; [ reflexivity | right; reflexivity ]. }
  assert (Hcard : inspected
                    {| HardwareMonitor.card_name := "card1";
                       HardwareMonitor.card_device := true;
                       HardwareMonitor.card_vendor := Some "0x8086
";
                       HardwareMonitor.card_hwmon := None |} "0x8086
")
    by (repeat split).
  pose proof (proj1 (X17_detect_cards_first_eligible (take 3 example_cards)
                       (drop 4 example_cards) _ _
                       {| HardwareMonitor._cpu_usage_tracker :=
                            CpuUsageTracker.__init__ (Ok stat_100_1000);
                          HardwareMonitor._gpu_vendor := None;
                          HardwareMonitor._nvidia_available := false;
                          HardwareMonitor._amd_gpu_path := None;
                          HardwareMonitor._intel_gpu_path := None |}
                       Hpre Hcard) eq_refl) as H.
  unfold HardwareMonitor.__init__, HardwareMonitor._detect_gpu.
  cbn [HardwareMonitor._nvidia_available].
  change example_cards
    with (take 3 example_cards
          ++ {| HardwareMonitor.card_name := "card1";
                HardwareMonitor.card_device := true;
                HardwareMonitor.card_vendor := Some "0x8086
";
                HardwareMonitor.card_hwmon := None |}
             :: drop 4 example_cards).
  rewrite H. split; reflexivity.
Defined.

(** The fields a detection leaves agree with each other. *)
Lemma detect_cards_fields cards m :
  HardwareMonitor._gpu_vendor m = None ->
  HardwareMonitor._amd_gpu_path m = None ->
  HardwareMonitor._intel_gpu_path m = None ->
  let m' := HardwareMonitor.detect_cards cards m in
  HardwareMonitor._nvidia_available m' = HardwareMonitor._nvidia_available m /\
  HardwareMonitor._cpu_usage_tracker m' = HardwareMonitor._cpu_usage_tracker m /\
  (HardwareMonitor._gpu_vendor m' = None /\
   HardwareMonitor._amd_gpu_path m' = None /\
   HardwareMonitor._intel_gpu_path m' = None
   \/
   HardwareMonitor._gpu_vendor m' = Some "amd" /\
   HardwareMonitor._intel_gpu_path m' = None /\
   (exists card text hwmon more,
      card ∈ cards /\ inspected card text /\ strip text = "0x1002" /\
      HardwareMonitor.card_hwmon card = Some (hwmon :: more) /\
      HardwareMonitor._amd_gpu_path m'
      = Some (device_path card +:+ "/hwmon/" +:+ hwmon))
   \/
   HardwareMonitor._gpu_vendor m' = Some "intel" /\
   HardwareMonitor._amd_gpu_path m' = None /\
   (exists card text,
      card ∈ cards /\ inspected card text /\ strip text = "0x8086" /\
      HardwareMonitor._intel_gpu_path m' = Some (device_path card))).
Proof.
  intros Hv Ha Hi. cbn zeta.
  induction cards as [ | card cards IH ].
  { cbn. split; [ reflexivity | ]. split; [ reflexivity | ]. left. auto. }
  assert (Hrest :
    HardwareMonitor.detect_cards (card :: cards) m
    = HardwareMonitor.detect_cards cards m ->
    let m' := HardwareMonitor.detect_cards (card :: cards) m in
    HardwareMonitor._nvidia_available m' = HardwareMonitor._nvidia_available m /\
    HardwareMonitor._cpu_usage_tracker m' = HardwareMonitor._cpu_usage_tracker m /\
    (HardwareMonitor._gpu_vendor m' = None /\
     HardwareMonitor._amd_gpu_path m' = None /\
     HardwareMonitor._intel_gpu_path m' = None
     \/
     HardwareMonitor._gpu_vendor m' = Some "amd" /\
     HardwareMonitor._intel_gpu_path m' = None /\
     (exists card0 text hwmon more,
        card0 ∈ card :: cards /\ inspected card0 text /\
        strip text = "0x1002" /\
        HardwareMonitor.card_hwmon card0 = Some (hwmon :: more) /\
        HardwareMonitor._amd_gpu_path m'
        = Some (device_path card0 +:+ "/hwmon/" +:+ hwmon))
     \/
     HardwareMonitor._gpu_vendor m' = Some "intel" /\
     HardwareMonitor._amd_gpu_path m' = None /\
     (exists card0 text,
        card0 ∈ card :: cards /\ inspected card0 text /\
        strip text = "0x8086" /\
        HardwareMonitor._intel_gpu_path m' = Some (device_path card0)))).
  { intros Heq. cbn zeta. rewrite Heq.
    destruct IH as (Hn & Ht & [ H | [ (H1 & H2 & c & t & h & mo & Hin & H3)
                                    | (H1 & H2 & c & t & Hin & H3) ] ]).
    - auto.
    - split; [ exact Hn | ]. split; [ exact Ht | ]. right. left.
      split; [ exact H1 | ]. split; [ exact H2 | ].
      exists c, t, h, mo. split; [ right; exact Hin | exact H3 ].
    - split; [ exact Hn | ]. split; [ exact Ht | ]. right. right.
      split; [ exact H1 | ]. split; [ exact H2 | ].
      exists c, t. split; [ right; exact Hin | exact H3 ]. }
  destruct (startswith "card" (HardwareMonitor.card_name card)) eqn:Hname.
  2: { apply Hrest, detect_cards_passed_over. left. exact Hname. }
  destruct (contains "-" (HardwareMonitor.card_name card)) eqn:Hdash.
  { apply Hrest, detect_cards_passed_over. right. left. exact Hdash. }
  destruct (HardwareMonitor.card_device card) eqn:Hdev.
  2: { apply Hrest, detect_cards_passed_over. do 2 right. left. exact Hdev. }
  destruct (HardwareMonitor.card_vendor card) as [ text | ] eqn:Hvendor.
  2: { apply Hrest, detect_cards_passed_over. do 3 right. left. exact Hvendor. }
  assert (Hcard : inspected card text) by (repeat split; assumption).
  rewrite (detect_cards_inspected card text cards m Hcard).
  destruct (String.eqb_spec (strip text) "0x1002") as [ Hamd | Hnamd ].
  - destruct (HardwareMonitor.card_hwmon card) as [ [ | hwmon more ] | ]
      eqn:Hhwmon.
    + rewrite <- (detect_cards_passed_over card cards m).
      * apply Hrest, detect_cards_passed_over. do 5 right. eauto 6.
      * do 5 right. eauto 6.
    + split; [ reflexivity | ]. split; [ reflexivity | ]. right. left.
      split; [ reflexivity | ]. split; [ exact Hi | ].
      exists card, text, hwmon, more. split; [ left | ]. auto.
    + rewrite <- (detect_cards_passed_over card cards m).
      * apply Hrest, detect_cards_passed_over. do 5 right. eauto 6.
      * do 5 right. eauto 6.
  - destruct (String.eqb_spec (strip text) "0x8086") as [ Hintel | Hnintel ].
    + split; [ reflexivity | ]. split; [ reflexivity | ]. right. right.
      split; [ reflexivity | ]. split; [ exact Ha | ].
      exists card, text. split; [ left | ]. auto.
    + rewrite <- (detect_cards_passed_over card cards m).
      * apply Hrest, detect_cards_passed_over. do 4 right. left. eauto.
      * do 4 right. left. eauto.
Qed.

(** X18. After [HardwareMonitor.__init__] the vendor is ["nvidia"] exactly when
    [nvidia-smi] answered, ["amd"] exactly when an AMD hwmon path was
    recorded, ["intel"] exactly when an Intel device path was recorded; and
    [get_gpu_data] calls the reader of that vendor, or returns the default
    reading when there is none. *)
Theorem X18_detect_gpu_consistent (stat : result string) (nvidia : bool)
    (drm : option (list HardwareMonitor.drm_card))
    (readers : HardwareMonitor.gpu_readers) :
  let m := HardwareMonitor.__init__ stat nvidia drm in
  (HardwareMonitor._gpu_vendor m = Some "nvidia" <-> nvidia = true) /\
  (HardwareMonitor._gpu_vendor m = Some "amd" <->
   exists path, HardwareMonitor._amd_gpu_path m = Some path) /\
  (HardwareMonitor._gpu_vendor m = Some "intel" <->
   exists path, HardwareMonitor._intel_gpu_path m = Some path) /\
  (HardwareMonitor._gpu_vendor m = None /\
   HardwareMonitor.get_gpu_data readers m = GpuData.default
   \/
   HardwareMonitor._gpu_vendor m = Some "nvidia" /\
   HardwareMonitor.get_gpu_data readers m
   = HardwareMonitor._get_nvidia_gpu_data readers
   \/
   HardwareMonitor._gpu_vendor m = Some "amd" /\
   HardwareMonitor.get_gpu_data readers m
   = HardwareMonitor._get_amd_gpu_data readers
   \/
   HardwareMonitor._gpu_vendor m = Some "intel" /\
   HardwareMonitor.get_gpu_data readers m
   = HardwareMonitor._get_intel_gpu_data readers).
Proof.
  cbn zeta. unfold HardwareMonitor.__init__, HardwareMonitor._detect_gpu.
  cbn [HardwareMonitor._nvidia_available].
  destruct nvidia.
  { cbn. repeat split; try discriminate; try (intros [? [=]]).
    right. left. split; reflexivity. }
  set (m0 := {| HardwareMonitor._cpu_usage_tracker := _;
                HardwareMonitor._gpu_vendor := None;
                HardwareMonitor._nvidia_available := false;
                HardwareMonitor._amd_gpu_path := None;
                HardwareMonitor._intel_gpu_path := None |}).
  assert (Hnone :
    forall m, HardwareMonitor._gpu_vendor m = None ->
              HardwareMonitor._amd_gpu_path m = None ->
              HardwareMonitor._intel_gpu_path m = None ->
    (HardwareMonitor._gpu_vendor m = Some "nvidia" <-> false = true) /\
    (HardwareMonitor._gpu_vendor m = Some "amd" <->
     exists path, HardwareMonitor._amd_gpu_path m = Some path) /\
    (HardwareMonitor._gpu_vendor m = Some "intel" <->
     exists path, HardwareMonitor._intel_gpu_path m = Some path) /\
    (HardwareMonitor._gpu_vendor m = None /\
     HardwareMonitor.get_gpu_data readers m = GpuData.default
     \/
     HardwareMonitor._gpu_vendor m = Some "nvidia" /\
     HardwareMonitor.get_gpu_data readers m
     = HardwareMonitor._get_nvidia_gpu_data readers
     \/
     HardwareMonitor._gpu_vendor m = Some "amd" /\
     HardwareMonitor.get_gpu_data readers m
     = HardwareMonitor._get_amd_gpu_data readers
     \/
     HardwareMonitor._gpu_vendor m = Some "intel" /\
     HardwareMonitor.get_gpu_data readers m
     = HardwareMonitor._get_intel_gpu_data readers)).
  { intros m Hv Ha Hi. unfold HardwareMonitor.get_gpu_data.
    rewrite Hv, Ha, Hi.
    repeat split; try discriminate; try (intros [? [=]]). left. auto. }
  destruct drm as [ cards | ]; [ | apply Hnone; reflexivity ].
  destruct (detect_cards_fields cards m0 eq_refl eq_refl eq_refl)
    as (_ & _ & [ (Hv & Ha & Hi)
                | [ (Hv & Hi & c & t & h & mo & _ & _ & _ & _ & Ha)
                  | (Hv & Ha & c & t & _ & _ & _ & Hi) ] ]).
  - apply Hnone; assumption.
  - unfold HardwareMonitor.get_gpu_data. rewrite Hv, Ha, Hi.
    repeat split; try discriminate; try (intros [? [=]]); eauto;
      try (right; right; left; split; reflexivity).
  - unfold HardwareMonitor.get_gpu_data. rewrite Hv, Ha, Hi.
    repeat split; try discriminate; try (intros [? [=]]); eauto;
      try (right; right; right; split; reflexivity).
Qed.

(** ** Rounding: quotients that are exact, and quotients under a bound *)

Section RoundingExact.

Local Abbreviation fexp64 := (fexp 53 1024).

Lemma shr_1_exact m :
  0 <= m ->
  shr_1 {| shr_m := 2 * m; shr_r := false; shr_s := false |}
  = {| shr_m := m; shr_r := false; shr_s := false |}.
Proof. destruct m as [ | p | p ]; [ reflexivity | reflexivity | lia ]. Qed.

Lemma iter_shr_1_exact p : forall m,
  0 <= m ->
  SpecFloat.iter_pos shr_1 p
    {| shr_m := m * 2 ^ Z.pos p; shr_r := false; shr_s := false |}
  = {| shr_m := m; shr_r := false; shr_s := false |}.
Proof.
  induction p as [ p IH | p IH | ]; intros m Hm; cbn [SpecFloat.iter_pos].
  - replace (m * 2 ^ Z.pos p~1) with (2 * (m * 2 ^ Z.pos p * 2 ^ Z.pos p)).
    2: { rewrite (Pos2Z.inj_xI p).
         replace (2 * Z.pos p + 1) with (Z.pos p + Z.pos p + 1) by lia.
         rewrite !Z.pow_add_r, Z.pow_1_r by lia. ring. }
    rewrite shr_1_exact by (pose proof (Z.pow_pos_nonneg 2 (Z.pos p)); nia).
    rewrite IH by (pose proof (Z.pow_pos_nonneg 2 (Z.pos p)); nia).
    apply IH, Hm.
  - replace (m * 2 ^ Z.pos p~0) with (m * 2 ^ Z.pos p * 2 ^ Z.pos p).
    2: { rewrite (Pos2Z.inj_xO p).
         replace (2 * Z.pos p) with (Z.pos p + Z.pos p) by lia.
         rewrite Z.pow_add_r by lia. ring. }
    rewrite IH by (pose proof (Z.pow_pos_nonneg 2 (Z.pos p)); nia).
    apply IH, Hm.
  - replace (m * 2 ^ 1) with (2 * m) by lia. apply shr_1_exact, Hm.
Qed.

(** Shifting out [n] zero bits of an exact mantissa leaves it exact. *)
Lemma shr_fexp_exact m e n :
  0 <= m -> 0 < n ->
  fexp64 (Zdigits2 (m * 2 ^ n) + e) - e = n ->
  shr_fexp 53 1024 (m * 2 ^ n) e loc_Exact
  = ({| shr_m := m; shr_r := false; shr_s := false |}, e + n).
Proof.
  intros Hm Hn Hshift. unfold shr_fexp. rewrite Hshift.
  destruct n as [ | p | p ]; try lia. cbn [shr shr_record_of_loc].
  rewrite iter_shr_1_exact by exact Hm. reflexivity.
Qed.

Lemma Zdigits2_pow2 k : 0 <= k -> Zdigits2 (2 ^ k) = k + 1.
Proof.
  intros Hk. rewrite Zdigits2_log2 by (apply Z.pow_pos_nonneg; lia).
  rewrite Z.log2_pow2 by exact Hk. reflexivity.
Qed.

(** [t / t] is [1.0]. *)
Lemma int_true_div_self t : 0 < t -> int_true_div t t = Ok f1.
Proof.
  intros Ht. unfold int_true_div.
  destruct (Z.eqb_spec t 0) as [ | _ ]; [ lia | ].
  rewrite (Z.abs_eq t) by lia.
  replace (xorb (t <? 0) (t <? 0)) with false by (destruct (t <? 0); reflexivity).
  set (k := 64 + Z.log2 t).
  assert (Hk : 64 <= k) by (pose proof (Z.log2_nonneg t); lia).
  cbv zeta. fold k. rewrite (Z.mul_comm t (2 ^ k)).
  rewrite Z.div_mul, Z.mod_mul by lia. cbn [Z.eqb].
  unfold binary_round_aux, prec, emax.
  replace (2 ^ k) with (2 ^ 52 * 2 ^ (k - 52))
    by (rewrite <- Z.pow_add_r by lia; f_equal; lia).
  rewrite (shr_fexp_exact (2 ^ 52) (- k) (k - 52)); [ | lia | lia | ].
  2: { rewrite <- Z.pow_add_r by lia. replace (52 + (k - 52)) with k by lia.
       rewrite Zdigits2_pow2 by lia. rewrite fexp64_eq. lia. }
  cbn [shr_m loc_of_shr_record round_nearest_even].
  replace (- k + (k - 52)) with (-52) by lia. reflexivity.
Qed.

(** The quotient of two non-negative [int]s whose exact value is at most
    [N] is a [float] that [int()] truncates to a value between 0 and [N]. *)
Lemma int_true_div_trunc_le a b N :
  0 < b -> 0 <= a <= N * b -> N < 2 ^ 52 ->
  exists q z, int_true_div a b = Ok q /\ int_of_float q = Ok z /\ 0 <= z <= N.
Proof.
  intros Hb [Ha HaN] HN. unfold int_true_div.
  assert (HN0 : 0 <= N) by nia.
  destruct (Z.eqb_spec b 0) as [ | _ ]; [ lia | ].
  destruct (Z.eqb_spec a 0) as [ | Hane ].
  { eexists _, 0. split; [ reflexivity | ]. split; [ reflexivity | lia ]. }
  rewrite (Z.abs_eq b), (Z.abs_eq a) by lia.
  replace (xorb (a <? 0) (b <? 0)) with false.
  2: { destruct (Z.ltb_spec a 0), (Z.ltb_spec b 0); try lia. reflexivity. }
  set (k := 64 + Z.log2 b).
  assert (Hk : 64 <= k) by (pose proof (Z.log2_nonneg b); lia).
  assert (Hpow : 0 < 2 ^ k) by (apply Z.pow_pos_nonneg; lia).
  set (q := a * 2 ^ k / b).
  set (r := (a * 2 ^ k) mod b).
  assert (Hdiv : a * 2 ^ k = b * q + r) by (apply Z.div_mod; lia).
  assert (Hr : 0 <= r < b) by (apply Z.mod_pos_bound; lia).
  assert (Hq_hi : q <= N * 2 ^ k).
  { apply Z.div_le_upper_bound; [ lia | ]. nia. }
  assert (Hq_lo : 2 ^ 63 <= q).
  { apply Z.div_le_lower_bound; [ lia | ].
    assert (Hb2 : b < 2 ^ (Z.log2 b + 1)) by (apply Z.log2_spec; lia).
    assert (H2k : 2 ^ k = 2 ^ 63 * 2 ^ (Z.log2 b + 1)).
    { rewrite <- Z.pow_add_r by (pose proof (Z.log2_nonneg b); lia).
      f_equal. lia. }
    nia. }
  set (dq := Zdigits2 q).
  assert (Hdq_lo : 64 <= dq).
  { unfold dq. rewrite Zdigits2_log2 by lia.
    assert (63 <= Z.log2 q) by (apply Z.log2_le_pow2; lia). lia. }
  assert (Hdq_hi : dq <= k + 52).
  { apply Zdigits2_bound; [ lia | ]. split; [ lia | ].
    rewrite Z.pow_add_r by lia. nia. }
  set (e1 := fexp64 (dq + - k)).
  assert (He1 : -1074 <= e1 <= -1 /\ 11 - k <= e1)
    by (unfold e1; rewrite fexp64_eq; lia).
  set (n1 := e1 + k).
  set (M := N * 2 ^ (- e1)).
  assert (Hpe : 0 < 2 ^ (- e1)) by (apply Z.pow_pos_nonneg; lia).
  assert (Hpn : 0 < 2 ^ n1) by (apply Z.pow_pos_nonneg; lia).
  assert (HM : M * 2 ^ n1 = N * 2 ^ k).
  { unfold M, n1. rewrite <- Z.mul_assoc, <- Z.pow_add_r by lia.
    f_equal. f_equal. lia. }
  set (loc := if r =? 0 then loc_Exact else loc_Inexact (2 * r ?= b)).
  unfold binary_round_aux, prec, emax.
  pose proof (shr_fexp_mantissa q (- k) loc ltac:(lia)) as Hm1.
  pose proof (shr_fexp_exponent q (- k) loc) as He1'.
  fold dq e1 in Hm1, He1'.
  replace (Z.max 0 (e1 - - k)) with n1 in Hm1 by lia.
  replace (Z.max (- k) e1) with e1 in He1' by lia.
  assert (Hexact : q = M * 2 ^ n1 ->
                   shr_fexp 53 1024 q (- k) loc
                   = ({| shr_m := M; shr_r := false; shr_s := false |}, e1)).
  { intros Hq. assert (Hr0 : r = 0) by nia.
    unfold loc. rewrite Hr0. cbn [Z.eqb]. rewrite Hq.
    rewrite (shr_fexp_exact M (- k) n1); [ f_equal; lia | nia | lia | ].
    rewrite <- Hq. fold dq e1. lia. }
  destruct (shr_fexp 53 1024 q (- k) loc) as [ mrs1 e1' ] eqn:Hshr1.
  cbn [fst snd] in Hm1, He1'. subst e1'.
  set (m1 := shr_m mrs1) in *.
  assert (Hm1_le : 0 <= m1 <= M).
  { rewrite Hm1, Z.shiftr_div_pow2 by lia. split.
    - apply Z.div_pos; lia.
    - apply Z.div_le_upper_bound; [ lia | ]. nia. }
  set (m2 := round_nearest_even m1 (loc_of_shr_record mrs1)).
  assert (Hm2 : 0 <= m2 <= M).
  { pose proof (round_nearest_even_bounds m1 (loc_of_shr_record mrs1)) as Hb2.
    fold m2 in Hb2. destruct (Z.eq_dec m1 M) as [ Heq | Hne ]; [ | lia ].
    assert (Hq : q = M * 2 ^ n1).
    { assert (Hge : M * 2 ^ n1 <= q).
      { rewrite <- Heq, Hm1, Z.shiftr_div_pow2 by lia.
        rewrite Z.mul_comm. apply Z.mul_div_le. lia. }
      lia. }
    specialize (Hexact Hq). injection Hexact as Hmrs.
    unfold m2, m1. rewrite Hmrs. cbn. lia. }
  pose proof (shr_fexp_mantissa m2 e1 loc_Exact ltac:(lia)) as Hm3.
  pose proof (shr_fexp_exponent m2 e1 loc_Exact) as He2.
  destruct (shr_fexp 53 1024 m2 e1 loc_Exact) as [ mrs2 e2 ] eqn:Hshr2.
  cbn [fst snd] in Hm3, He2.
  set (n2 := Z.max 0 (fexp64 (Zdigits2 m2 + e1) - e1)) in *.
  assert (Hd2 : Zdigits2 m2 <= 52 - e1).
  { apply Zdigits2_bound; [ lia | ]. split; [ lia | ].
    replace (52 - e1) with (52 + - e1) by lia.
    rewrite Z.pow_add_r by lia. unfold M in Hm2. nia. }
  assert (He2' : e2 = e1 + n2 /\ e2 <= -1 /\ 0 <= n2).
  { rewrite He2. unfold n2. rewrite !fexp64_eq. lia. }
  destruct He2' as (He2eq & He2neg & Hn2).
  assert (Hz : Z.shiftl (shr_m mrs2) e2 = Z.shiftr m2 (- e1)).
  { rewrite Hm3, <- Z.shiftr_opp_r, Z.shiftr_shiftr by lia. f_equal. lia. }
  assert (Hzle : 0 <= Z.shiftr m2 (- e1) <= N).
  { rewrite Z.shiftr_div_pow2 by lia. split.
    - apply Z.div_pos; lia.
    - apply Z.div_le_upper_bound; [ lia | ]. unfold M in Hm2. nia. }
  destruct (shr_m mrs2) as [ | p | p ] eqn:Hm3'.
  - eexists _, 0. split; [ reflexivity | ]. split; [ reflexivity | lia ].
  - destruct (Z.leb_spec e2 (1024 - 53)); [ | lia ].
    eexists _, _. split; [ reflexivity | ].
    cbn [int_of_float cond_Zopp]. split; [ reflexivity | ].
    rewrite Hz. exact Hzle.
  - exfalso. pose proof (Z.shiftr_nonneg m2 n2). lia.
Qed.

(** [100 * t / t] is [100.0]. *)
Lemma int_true_div_mul_100 t : 0 < t -> int_true_div (100 * t) t = Ok f100.
Proof.
  intros Ht. unfold int_true_div.
  destruct (Z.eqb_spec t 0); [ lia | ].
  destruct (Z.eqb_spec (100 * t) 0); [ lia | ].
  rewrite (Z.abs_eq t), (Z.abs_eq (100 * t)) by lia.
  replace (xorb (100 * t <? 0) (t <? 0)) with false.
  2: { destruct (Z.ltb_spec (100 * t) 0), (Z.ltb_spec t 0); try lia.
       reflexivity. }
  cbv zeta. set (k := 64 + Z.log2 t).
  assert (Hk : 64 <= k) by (pose proof (Z.log2_nonneg t); lia).
  replace (100 * t * 2 ^ k) with (100 * 2 ^ k * t) by ring.
  rewrite Z.div_mul, Z.mod_mul by lia. cbn [Z.eqb].
  unfold binary_round_aux, prec, emax.
  replace (100 * 2 ^ k) with (7036874417766400 * 2 ^ (k - 46)).
  2: { change 7036874417766400 with (100 * 2 ^ 46).
       rewrite <- Z.mul_assoc, <- Z.pow_add_r by lia. f_equal. f_equal. lia. }
  rewrite (shr_fexp_exact 7036874417766400 (- k) (k - 46)); [ | lia | lia | ].
  2: { change 7036874417766400 with (100 * 2 ^ 46).
       rewrite <- Z.mul_assoc, <- Z.pow_add_r by lia.
       replace (46 + (k - 46)) with k by lia.
       assert (Hd : Zdigits2 (100 * 2 ^ k) = k + 7).
       { rewrite Zdigits2_log2 by (pose proof (Z.pow_pos_nonneg 2 k); lia).
         rewrite Z.log2_mul_pow2 by lia. change (Z.log2 100) with 6. lia. }
       rewrite Hd, fexp64_eq. lia. }
  cbn [shr_m loc_of_shr_record round_nearest_even].
  replace (- k + (k - 46)) with (-46) by lia. reflexivity.
Qed.

End RoundingExact.

Import Usage.

Lemma percent_range used total :
  0 < total -> 0 <= used <= total ->
  exists v, percent used total = Ok v /\ 0 <= v <= 100.
Proof.
  intros Ht Hu. unfold percent.
  destruct (int_true_div_trunc_le (100 * used) total 100 Ht ltac:(lia)
              ltac:(reflexivity)) as (q & z & -> & Hz & Hr).
  exists z. split; assumption.
Qed.

Lemma percent_none total : 0 < total -> percent 0 total = Ok 0.
Proof.
  intros Ht. unfold percent, int_true_div.
  destruct (Z.eqb_spec total 0); [ lia | ]. reflexivity.
Qed.

Lemma percent_all total : 0 < total -> percent total total = Ok 100.
Proof.
  intros Ht. unfold percent. rewrite int_true_div_mul_100 by exact Ht.
  reflexivity.
Qed.

(** X19. When [/proc/meminfo] parses with [MemAvailable] between 0 and
    [MemTotal], [_get_memory_usage] returns a percentage in [0, 100]: 0 when
    all memory is available (or the total is 0), 100 when none is. *)
Theorem X19_memory_usage_range (content : string) (mem_total mem_available : Z) :
  meminfo_loop (readlines content) 0 0 = Ok (mem_total, mem_available) ->
  0 <= mem_available <= mem_total ->
  0 <= _get_memory_usage (Ok content) <= 100 /\
  (mem_available = mem_total -> _get_memory_usage (Ok content) = 0) /\
  (0 < mem_total -> mem_available = 0 ->
   _get_memory_usage (Ok content) = 100).
Proof.
  intros Hloop Hrange. unfold _get_memory_usage. rewrite Hloop.
  destruct (Z.ltb_spec 0 mem_total) as [ Hpos | Hzero ].
  - destruct (percent_range (mem_total - mem_available) mem_total Hpos
                ltac:(lia)) as (v & Hv & Hr).
    rewrite Hv. split; [ exact Hr | ]. split.
    + intros ->. rewrite Z.sub_diag, percent_none in Hv by exact Hpos.
      congruence.
    + intros _ ->. rewrite Z.sub_0_r, percent_all in Hv by exact Hpos.
      congruence.
  - split; [ lia | ]. split; [ reflexivity | lia ].
Qed.

Lemma X19_memory_usage_range_witness :
  _get_memory_usage (Ok example_meminfo) = 60 /\
  0 <= _get_memory_usage (Ok example_meminfo) <= 100.
Proof.
  split; [ vm_compute; reflexivity | ].
  apply (X19_memory_usage_range example_meminfo 16000000 6400000).
  - vm_compute. reflexivity.
  - lia.
Defined.

(** X20. When the free blocks [statvfs] reports are between 0 and the total
    blocks and the fragment size is not negative, [_get_disk_usage] returns
    a percentage in [0, 100]: 0 when every block is free (or the file system
    has no blocks), 100 when none is. *)
Theorem X20_disk_usage_range (f_blocks f_frsize f_bfree : Z) :
  0 <= f_bfree <= f_blocks -> 0 <= f_frsize ->
  let usage := _get_disk_usage (Ok (f_blocks, f_frsize, f_bfree)) in
  0 <= usage <= 100 /\
  (f_bfree = f_blocks -> usage = 0) /\
  (0 < f_blocks -> 0 < f_frsize -> f_bfree = 0 -> usage = 100).
Proof.
  intros Hfree Hsize. cbn zeta. unfold _get_disk_usage.
  destruct (Z.ltb_spec 0 (f_blocks * f_frsize)) as [ Hpos | Hzero ].
  - destruct (percent_range (f_blocks * f_frsize - f_bfree * f_frsize)
                (f_blocks * f_frsize) Hpos ltac:(nia)) as (v & Hv & Hr).
    rewrite Hv. split; [ exact Hr | ]. split.
    + intros ->. rewrite Z.sub_diag, percent_none in Hv by exact Hpos.
      congruence.
    + intros _ _ ->. rewrite Z.mul_0_l, Z.sub_0_r, percent_all in Hv
        by exact Hpos.
      congruence.
  - split; [ lia | ]. split; [ reflexivity | nia ].
Qed.

Lemma X20_disk_usage_range_witness :
  _get_disk_usage (Ok (1000, 4096, 600)) = 40 /\
  0 <= _get_disk_usage (Ok (1000, 4096, 600)) <= 100.
Proof.
  split; [ vm_compute; reflexivity | ].
  apply (X20_disk_usage_range 1000 4096 600); lia.
Defined.

(** ** The tracker at the two ends of the scale *)

(** X21. For an initialized tracker whose total counter advanced:
    [get_usage] returns exactly 100.0 when the idle counter did not move,
    and exactly 0.0 when the idle counter advanced as much as the total. *)
Theorem X21_get_usage_extremes (self : CpuUsageTracker.t) (stat : result string)
    (idle total : Z) :
  _initialized self = true ->
  counters stat = Ok (idle, total) ->
  0 < total - _last_total self ->
  (idle - _last_idle self = 0 -> (get_usage stat self).1 = Ok f100) /\
  (idle - _last_idle self = total - _last_total self ->
   (get_usage stat self).1 = Ok f0).
Proof.
  intros Hinit Hparse Hpos. rewrite get_usage_eq, Hparse, Hinit.
  destruct (Z.leb_spec (total - _last_total self) 0); [ lia | ]. split.
  - intros ->. unfold int_true_div.
    destruct (Z.eqb_spec (total - _last_total self) 0); [ lia | ].
    cbn [Z.eqb Z.ltb Z.compare].
    destruct (Z.ltb_spec (total - _last_total self) 0); [ lia | ].
    reflexivity.
  - intros ->. rewrite int_true_div_self by exact Hpos. reflexivity.
Qed.

Lemma X21_get_usage_extremes_witness :
  (get_usage (Ok stat_150_1200) (primed 150 1000)).1 = Ok f100 /\
  (get_usage (Ok stat_150_1200) (primed 100 1150)).1 = Ok f0.
Proof.
  split.
  - apply (X21_get_usage_extremes (primed 150 1000) (Ok stat_150_1200) 150 1200);
      [ reflexivity | vm_compute; reflexivity | reflexivity | reflexivity ].
  - apply (X21_get_usage_extremes (primed 100 1150) (Ok stat_150_1200) 150 1200);
      [ reflexivity | vm_compute; reflexivity | reflexivity | reflexivity ].
Defined.

Import Hwmon.

Lemma dict_get_set k k' v d :
  dict_get k (dict_set k' v d) = if String.eqb k' k then Some v else dict_get k d.
Proof.
  induction d as [ | [k0 v0] d IH ]; cbn [dict_set dict_get].
  - destruct (String.eqb_spec k' k); reflexivity.
  - destruct (String.eqb_spec k0 k') as [ -> | Hne ]; cbn [dict_get].
    + destruct (String.eqb_spec k' k); reflexivity.
    + destruct (String.eqb_spec k0 k) as [ -> | Hne' ].
      * destruct (String.eqb_spec k' k); [ congruence | reflexivity ].
      * exact IH.
Qed.

Lemma scan_hwmon_get dirs : forall c name,
  dict_get name (_scan_hwmon (Some dirs) c)
  = match last (named name dirs) with
    | Some d => Some (hwmon_path d)
    | None => dict_get name c
    end.
Proof.
  unfold _scan_hwmon, named.
  induction dirs as [ | d dirs IH ]; intros c name; [ reflexivity | ].
  cbn [foldl]. rewrite IH, filter_cons.
  destruct (hwmon_name d) as [ text | ] eqn:Hname; cbn [fmap option_fmap option_map].
  - rewrite dict_get_set.
    destruct (decide (Some (strip text) = Some name)) as [ [= Heq] | Hne ].
    + rewrite Heq, String.eqb_refl.
      destruct (filter _ dirs) as [ | d' l ] eqn:Hf; [ reflexivity | ].
      change (last (d :: d' :: l)) with (last (d' :: l)).
      destruct (last (d' :: l)) eqn:Hl; [ reflexivity | ].
      apply last_None in Hl. discriminate.
    + destruct (String.eqb_spec (strip text) name); [ congruence | ].
      reflexivity.
  - rewrite decide_False by discriminate. reflexivity.
Qed.

Lemma first_with_temp1_elem has c path :
  first_with_temp1 has c = Some path -> path ∈ c.*2 /\ has path = true.
Proof.
  induction c as [ | [k p] c IH ]; [ discriminate | ].
  cbn [first_with_temp1 fmap list_fmap snd].
  destruct (has p) eqn:Hp.
  - intros [= <-]. split; [ left | exact Hp ].
  - intros [Hin Hh]%IH. split; [ right; exact Hin | exact Hh ].
Qed.

Lemma dict_get_elem k c path : dict_get k c = Some path -> path ∈ c.*2.
Proof.
  induction c as [ | [k0 p] c IH ]; [ discriminate | ].
  cbn [dict_get fmap list_fmap snd].
  destruct (String.eqb k0 k).
  - intros [= <-]. left.
  - intros Hin%IH. right. exact Hin.
Qed.

Lemma first_sensor_spec sensors c :
  match first_sensor sensors c with
  | Some path =>
      exists i sensor,
        sensors !! i = Some sensor /\ dict_get sensor c = Some path /\
        forall j s, (j < i)%nat -> sensors !! j = Some s -> dict_get s c = None
  | None => forall s, s ∈ sensors -> dict_get s c = None
  end.
Proof.
  induction sensors as [ | sensor sensors IH ]; cbn [first_sensor].
  - intros s []%elem_of_nil.
  - destruct (dict_get sensor c) as [ path | ] eqn:Hget.
    + exists 0%nat, sensor. split; [ reflexivity | ]. split; [ exact Hget | ].
      intros j s Hj. lia.
    + destruct (first_sensor sensors c) as [ path | ].
      * destruct IH as (i & s & Hi & Hs & Hbefore).
        exists (S i), s. split; [ exact Hi | ]. split; [ exact Hs | ].
        intros [ | j ] s' Hj; cbn; [ intros [= <-]; exact Hget | ].
        apply Hbefore. lia.
      * intros s [ -> | Hin ]%elem_of_cons; [ exact Hget | apply IH, Hin ].
Qed.

(** X22. [_find_cpu_temp_hwmon] returns the directory of the first chip of
    [coretemp, k10temp, zenpower, it87, nct6775, acpitz] that is in the
    cache, whether or not it has a [temp1_input]. When none of the six is in
    the cache it returns the first directory of the cache, in insertion
    order, that has a [temp1_input]: the directories cached before it have
    none, and what is cached after it does not matter. What it returns is
    always a directory of the cache; and it returns [None] exactly when none
    of the six is cached and no cached directory has a [temp1_input]. *)
Theorem X22_find_cpu_temp_hwmon_priority (has_temp1 : string -> bool)
    (c : cache) :
  (forall i sensor path,
     cpu_sensors !! i = Some sensor ->
     dict_get sensor c = Some path ->
     (forall j s, (j < i)%nat -> cpu_sensors !! j = Some s ->
                  dict_get s c = None) ->
     _find_cpu_temp_hwmon has_temp1 c = Some path) /\
  (forall pre name path post,
     c = pre ++ (name, path) :: post ->
     (forall s, s ∈ cpu_sensors -> dict_get s c = None) ->
     Forall (fun entry => has_temp1 entry.2 = false) pre ->
     has_temp1 path = true ->
     _find_cpu_temp_hwmon has_temp1 c = Some path) /\
  (forall path,
     (forall s, s ∈ cpu_sensors -> dict_get s c = None) ->
     _find_cpu_temp_hwmon has_temp1 c = Some path ->
     exists pre name post,
       c = pre ++ (name, path) :: post /\
       Forall (fun entry => has_temp1 entry.2 = false) pre /\
       has_temp1 path = true) /\
  (forall path,
     _find_cpu_temp_hwmon has_temp1 c = Some path -> path ∈ c.*2) /\
  (_find_cpu_temp_hwmon has_temp1 c = None <->
   (forall s, s ∈ cpu_sensors -> dict_get s c = None) /\
   Forall (fun path => has_temp1 path = false) c.*2).
Proof.
  unfold _find_cpu_temp_hwmon.
  pose proof (first_sensor_spec cpu_sensors c) as Hspec.
  assert (Hfallback : (forall s, s ∈ cpu_sensors -> dict_get s c = None) ->
                      first_sensor cpu_sensors c = None).
  { intros Hnone. destruct (first_sensor cpu_sensors c) as [ path | ];
      [ | reflexivity ].
    destruct Hspec as (i & s & Hi & Hs & _).
    rewrite (Hnone s) in Hs; [ discriminate | ].
    apply list_elem_of_lookup. eauto. }
  refine (conj _ (conj _ (conj _ (conj _ _)))).
  - intros i sensor path Hi Hget Hbefore.
    destruct (first_sensor cpu_sensors c) as [ path' | ].
    + destruct Hspec as (i' & s' & Hi' & Hs' & Hbefore').
      destruct (Nat.lt_trichotomy i i') as [ Hlt | [ -> | Hgt ] ].
      * rewrite (Hbefore' i sensor Hlt Hi) in Hget. discriminate.
      * congruence.
      * rewrite (Hbefore i' s' Hgt Hi') in Hs'. discriminate.
    + rewrite (Hspec sensor) in Hget; [ discriminate | ].
      apply list_elem_of_lookup. eauto.
  - intros pre name path post -> Hnone Hpre Hpath.
    rewrite (Hfallback Hnone). clear Hspec Hfallback Hnone.
    induction Hpre as [ | [k p] pre Hp _ IH ]; cbn [app first_with_temp1].
    + rewrite Hpath. reflexivity.
    + cbn [snd] in Hp. rewrite Hp. exact IH.
  - intros path Hnone. rewrite (Hfallback Hnone). clear Hspec Hfallback Hnone.
    induction c as [ | [k p] c IH ]; [ discriminate | ].
    cbn [first_with_temp1]. destruct (has_temp1 p) eqn:Hp.
    + intros [= <-]. exists [], k, c. split; [ reflexivity | ].
      split; [ constructor | exact Hp ].
    + intros (pre & name & post & -> & Hpre & Hpath)%IH.
      exists ((k, p) :: pre), name, post. split; [ reflexivity | ].
      split; [ constructor; [ exact Hp | exact Hpre ] | exact Hpath ].
  - intros path. destruct (first_sensor cpu_sensors c) as [ path' | ].
    + destruct Hspec as (i & s & _ & Hs & _). intros [= <-].
      apply (dict_get_elem s), Hs.
    + intros H. apply (first_with_temp1_elem has_temp1), H.
  - destruct (first_sensor cpu_sensors c) as [ path' | ].
    + split; [ discriminate | ]. intros [Hnone _].
      destruct Hspec as (i & s & Hi & Hs & _).
      rewrite (Hnone s) in Hs; [ discriminate | ].
      apply list_elem_of_lookup. eauto.
    + split.
      * intros Hf. split; [ exact Hspec | ].
        clear Hspec Hfallback. induction c as [ | [k p] c IH ]; [ constructor | ].
        cbn [first_with_temp1] in Hf. cbn [fmap list_fmap snd].
        destruct (has_temp1 p) eqn:Hp; [ discriminate | ].
        constructor; [ exact Hp | apply IH, Hf ].
      * intros [_ Hall]. clear Hspec Hfallback.
        induction c as [ | [k p] c IH ]; [ reflexivity | ].
        cbn [fmap list_fmap snd] in Hall. apply Forall_cons in Hall as [Hp Hall].
        cbn [first_with_temp1]. rewrite Hp. apply IH, Hall.
Qed.

(** X23. After [_scan_hwmon] on an empty cache, a chip name is in the cache
    exactly when some directory's [name] file, stripped, reads it, and it
    maps to the last such directory of the listing: of two chips with the
    same name only the later one is kept. *)
Theorem X23_scan_hwmon_last_wins (dirs : list hwmon_dir) (name : string) :
  dict_get name (_scan_hwmon (Some dirs) [])
  = hwmon_path <$> last (named name dirs).
Proof.
  rewrite scan_hwmon_get. destruct (last (named name dirs)); reflexivity.
Qed.

(** The chip the CPU temperature is read from, on the listing of the
    examples: the second [coretemp] directory, although [acpitz] comes
    first in the listing and has a [temp1_input]. *)
Lemma find_cpu_temp_hwmon_example :
  _find_cpu_temp_hwmon (fun _ => true) (_scan_hwmon (Some example_listing) [])
  = Some "/sys/class/hwmon/hwmon3" /\
  _scan_hwmon (Some example_listing) []
  = [ ("nvme", "/sys/class/hwmon/hwmon4");
      ("acpitz", "/sys/class/hwmon/hwmon1");
      ("coretemp", "/sys/class/hwmon/hwmon3") ].
Proof. split; vm_compute; reflexivity. Qed.

(** *** C6 *)






